(** * flibusta_kindle_bot: user store, preference manager, localisation and
      conversation router

    A shallow embedding of
      - [pkg/models]      : [User], [Preferences], [HasKindleEmail], [Book];
      - [internal/i18n]   : [I18n.T], [DetectLanguage];
      - [internal/user]   : the [Repository] interface, [MemoryRepository],
                            [Manager], [ValidateKindleEmail], [detectLanguage];
      - [internal/bot]    : [Handler] and its dispatch functions, on updates
                            whose pointers are set and, in the module
                            [inbound], on updates as they arrive;
      - [internal/config] : [Load].

    Go strings are byte sequences, so they are [string]s (lists of 8-bit
    [ascii]); [len] is [String.length].  [int64] identities are [Z]; the
    [int] counter [BooksSent] is a [Z] kept in the 64-bit signed range by
    [int_wrap].  The mutable store, the wall clock and the Bot API are threaded
    through a state monad over [World]. *)

From stdpp Require Import gmap strings list fin_maps.
From Stdlib Require Import ZArith Lia Ascii String Bool DecimalString.

Local Open Scope string_scope.

(** ** Byte strings *)

(** [s[:n]] for [n <= len(s)]. *)
Fixpoint str_take (n : nat) (s : string) : string :=
  match n, s with
  | S n', String c t => String c (str_take n' t)
  | _, _ => EmptyString
  end.

(** [s[n:]] for [n <= len(s)]. *)
Fixpoint str_drop (n : nat) (s : string) : string :=
  match n, s with
  | S n', String _ t => str_drop n' t
  | _, _ => s
  end.

(** [strings.Index(s, string(c))]: position of the first byte [c], [-1] when
    there is none. *)
Fixpoint strings_IndexByte (s : string) (c : ascii) : Z :=
  match s with
  | EmptyString => (-1)%Z
  | String a t =>
      if Ascii.eqb a c then 0%Z
      else let i := strings_IndexByte t c in
           if (i =? -1)%Z then (-1)%Z else (i + 1)%Z
  end.

(** [strings.Contains(s, substr)]. *)
Fixpoint strings_Contains (s substr : string) : bool :=
  if String.prefix substr s then true
  else match s with
       | EmptyString => false
       | String _ t => strings_Contains t substr
       end.

Definition byte_ToLower (c : ascii) : ascii :=
  let n := nat_of_ascii c in
  if (65 <=? n)%nat && (n <=? 90)%nat then ascii_of_nat (n + 32) else c.

(** [strings.ToLower] on its ASCII path (every byte below 0x80), where it
    lowers ['A'..'Z'] byte by byte.  Inputs with other bytes take Go's Unicode
    path, which is not modelled; the model is used on ASCII inputs only. *)
Fixpoint strings_ToLower (s : string) : string :=
  match s with
  | EmptyString => EmptyString
  | String c t => String (byte_ToLower c) (strings_ToLower t)
  end.

(** ** Errors *)

(** The package-level sentinel errors of [internal/user]; [ErrOther] stands
    for any other error value a [Repository] or the Bot API may return. *)
Inductive error : Type :=
  | ErrUserNotFound
  | ErrInvalidEmail
  | ErrOther (msg : string).

Definition error_eqb (a b : error) : bool :=
  match a, b with
  | ErrUserNotFound, ErrUserNotFound => true
  | ErrInvalidEmail, ErrInvalidEmail => true
  | ErrOther x, ErrOther y => String.eqb x y
  | _, _ => false
  end.

(** [errors.Is(err, target)] for unwrapped errors. *)
Definition errors_Is (err target : error) : bool := error_eqb err target.

(** A Go [(T, error)] return. *)
Inductive result (A : Type) : Type :=
  | Ok (a : A)
  | Err (e : error).
Arguments Ok {A} a.
Arguments Err {A} e.

(** ** internal/user: validation and language detection *)

(** [ValidateKindleEmail]; [None] is the [nil] error. *)
Definition ValidateKindleEmail (email : string) : option error :=
  if String.eqb email "" then Some ErrInvalidEmail
  else if (String.length email <? 11)%nat
          || negb (String.eqb (str_drop (String.length email - 11) email)
                              "@kindle.com")
  then Some ErrInvalidEmail
  else if (String.length email =? 11)%nat then Some ErrInvalidEmail
  else None.

(** [detectLanguage] of the user manager. *)
Definition detectLanguage (langCode : string) : string :=
  if (2 <=? String.length langCode)%nat then
    let lang := str_take 2 langCode in
    if String.eqb lang "ru" then "ru" else "en"
  else "en".

(** ** internal/i18n: DetectLanguage *)

Definition supportedLanguages (lang : string) : bool :=
  String.eqb lang "en" || String.eqb lang "ru".

Definition DetectLanguage (telegramLangCode : string) : string :=
  let lang := strings_ToLower telegramLangCode in
  let idx := strings_IndexByte lang "-"%char in
  let lang := if negb (idx =? -1)%Z then str_take (Z.to_nat idx) lang else lang in
  if supportedLanguages lang then lang else "en".

(** The detection rule in the words of the specification: take the primary
    subtag (the text before the first ['-']), lowercase it, return it when it
    is in the supported set, and the default language otherwise. *)
Fixpoint primary_subtag (tag : string) : string :=
  match tag with
  | EmptyString => EmptyString
  | String c t => if Ascii.eqb c "-"%char then EmptyString
                  else String c (primary_subtag t)
  end.

Definition default_language : string := "en".

Definition detection_rule (hint : string) : string :=
  let sub := strings_ToLower (primary_subtag hint) in
  if supportedLanguages sub then sub else default_language.

(** ** pkg/models *)

(** A [time.Time] instant. *)
Definition Time : Type := Z.

Record User : Type := mkUser {
  ID : Z;
  TelegramID : Z;
  Username : string;
  FirstName : string;
  LastName : string;
  KindleEmail : string;
  Language : string;
  CreatedAt : Time;
  UpdatedAt : Time;
  BooksSent : Z;
  LastActive : Time;
  IsActive : bool;
  IsBanned : bool
}.

Record Preferences : Type := mkPreferences {
  pref_KindleEmail : string;
  pref_Language : string;
  pref_PreferredFormat : string
}.

Definition HasKindleEmail (u : User) : bool := negb (String.eqb (KindleEmail u) "").

(** Field assignments [user.F = v]. *)
Definition set_KindleEmail (v : string) (u : User) : User :=
  mkUser (ID u) (TelegramID u) (Username u) (FirstName u) (LastName u) v
         (Language u) (CreatedAt u) (UpdatedAt u) (BooksSent u) (LastActive u)
         (IsActive u) (IsBanned u).

Definition set_Language (v : string) (u : User) : User :=
  mkUser (ID u) (TelegramID u) (Username u) (FirstName u) (LastName u)
         (KindleEmail u) v (CreatedAt u) (UpdatedAt u) (BooksSent u)
         (LastActive u) (IsActive u) (IsBanned u).

Definition set_UpdatedAt (v : Time) (u : User) : User :=
  mkUser (ID u) (TelegramID u) (Username u) (FirstName u) (LastName u)
         (KindleEmail u) (Language u) (CreatedAt u) v (BooksSent u)
         (LastActive u) (IsActive u) (IsBanned u).

Definition set_BooksSent (v : Z) (u : User) : User :=
  mkUser (ID u) (TelegramID u) (Username u) (FirstName u) (LastName u)
         (KindleEmail u) (Language u) (CreatedAt u) (UpdatedAt u) v
         (LastActive u) (IsActive u) (IsBanned u).

Definition set_LastActive (v : Time) (u : User) : User :=
  mkUser (ID u) (TelegramID u) (Username u) (FirstName u) (LastName u)
         (KindleEmail u) (Language u) (CreatedAt u) (UpdatedAt u) (BooksSent u)
         v (IsActive u) (IsBanned u).

(** Go's [int] on a 64-bit platform: two's-complement wrap-around. *)
Definition int_min : Z := (- 2 ^ 63)%Z.
Definition int_max : Z := (2 ^ 63 - 1)%Z.
Definition int_wrap (z : Z) : Z := ((z + 2 ^ 63) mod 2 ^ 64 - 2 ^ 63)%Z.

(** ** The Bot API types the handler uses (package [tgbotapi]) *)

Module tgbotapi.

Record User : Type := mkUser {
  ID : Z;
  FirstName : string;
  LastName : string;
  UserName : string;
  LanguageCode : string
}.

(** An inbound message whose pointers [From] and [Chat] are both set; this
    record holds what they point to.  The message as it arrives, with a
    [From] that may be nil, is [inbound.Message] below, and the handlers on
    it are the ones of the module [inbound].  [CommandSplit] is what the
    library's [IsCommand], [Command] and [CommandArguments] compute from
    the message entities: [None] when the text is not a command, and the
    command name with the argument text otherwise. *)
Record Message : Type := mkMessage {
  MessageID : Z;
  From : User;
  ChatID : Z;
  Text : string;
  CommandSplit : option (string * string)
}.

Definition IsCommand (m : Message) : bool :=
  match CommandSplit m with Some _ => true | None => false end.
Definition Command (m : Message) : string :=
  match CommandSplit m with Some (c, _) => c | None => "" end.
Definition CommandArguments (m : Message) : string :=
  match CommandSplit m with Some (_, a) => a | None => "" end.

(** A callback query whose pointers [From] and [Message] are both set; the
    query as it arrives, with a [Message] that may be nil, is
    [inbound.CallbackQuery] below. *)
Record CallbackQuery : Type := mkCallbackQuery {
  QueryID : string;
  QueryFrom : User;
  QueryMessage : Message;
  Data : string
}.

Record Update : Type := mkUpdate {
  UpdateCallbackQuery : option CallbackQuery;
  UpdateMessage : option Message
}.

Record InlineKeyboardButton : Type := mkButton {
  ButtonText : string;
  ButtonCallbackData : string
}.

Definition InlineKeyboardMarkup : Type := list (list InlineKeyboardButton).

(** The requests the handler builds. *)
Inductive Chattable : Type :=
  | MessageConfig (chatID : Z) (text : string) (parseMode : string)
                  (replyMarkup : option InlineKeyboardMarkup)
  | CallbackConfig (callbackQueryID : string) (text : string)
  | EditMessageTextConfig (chatID : Z) (messageID : Z) (text : string).

Definition NewMessage (chatID : Z) (text : string) : Chattable :=
  MessageConfig chatID text "" None.
Definition NewCallback (id text : string) : Chattable := CallbackConfig id text.
Definition NewEditMessageText (chatID messageID : Z) (text : string) : Chattable :=
  EditMessageTextConfig chatID messageID text.

End tgbotapi.

(** ** The world the program runs in *)

(** [repo] is the state behind the [Repository]; [clock n] is what the
    [n]-th call of [time.Now()] returns and [ticks] counts the calls made so
    far; [api n] is the outcome of the [n]-th Bot API call ([None]: accepted),
    [calls] counts the calls made and [outbox] lists the accepted requests,
    oldest first. *)
Record World (R : Type) : Type := mkWorld {
  repo : R;
  clock : nat -> Time;
  ticks : nat;
  api : nat -> option error;
  calls : nat;
  outbox : list tgbotapi.Chattable
}.
Arguments mkWorld {R}.
Arguments repo {R}.
Arguments clock {R}.
Arguments ticks {R}.
Arguments api {R}.
Arguments calls {R}.
Arguments outbox {R}.

Definition set_repo {R} (r : R) (w : World R) : World R :=
  mkWorld r (clock w) (ticks w) (api w) (calls w) (outbox w).

(** State monad over the world. *)
Definition M (R A : Type) : Type := World R -> A * World R.

Definition ret {R A} (a : A) : M R A := fun w => (a, w).

Definition bind {R A B} (m : M R A) (k : A -> M R B) : M R B :=
  fun w => let (a, w') := m w in k a w'.

Notation "'do' x <- m ; k" := (bind m (fun x => k))
  (at level 10, x name, m at level 100, k at level 200).

(** [time.Now()]. *)
Definition time_Now {R} : M R Time :=
  fun w => (clock w (ticks w),
            mkWorld (repo w) (clock w) (S (ticks w)) (api w) (calls w) (outbox w)).

(** [bot.Send] and [bot.Request]: one Bot API call. *)
Definition bot_Send {R} (c : tgbotapi.Chattable) : M R (option error) :=
  fun w =>
    match api w (calls w) with
    | None => (None, mkWorld (repo w) (clock w) (ticks w) (api w) (S (calls w))
                             (outbox w ++ [c]))
    | Some e => (Some e, mkWorld (repo w) (clock w) (ticks w) (api w)
                                 (S (calls w)) (outbox w))
    end.

Definition bot_Request {R} (c : tgbotapi.Chattable) : M R (option error) :=
  bot_Send c.

(** ** internal/user: the Repository interface *)

(** [SaveUser] takes a pointer and may write through it, so it also returns
    the caller's record as it is after the call. *)
Class Repository (R : Type) : Type := {
  GetUser : Z -> M R (result User);
  SaveUser : User -> M R (User * option error);
  UpdatePreferences : Z -> Preferences -> M R (option error);
  IncrementBooksSent : Z -> M R (option error);
  UpdateLastActive : Z -> M R (option error)
}.

(** ** internal/user: MemoryRepository *)

(** The map [users]; every method body runs under the repository's mutex and
    is one atomic step. *)
Record MemoryRepository : Type := mkMemoryRepository {
  users : gmap Z User
}.

Definition NewMemoryRepository : MemoryRepository := mkMemoryRepository ∅.

Definition set_users (m : gmap Z User) (w : World MemoryRepository)
  : World MemoryRepository :=
  set_repo (mkMemoryRepository m) w.

Definition mem_GetUser (telegramID : Z) : M MemoryRepository (result User) :=
  fun w =>
    match users (repo w) !! telegramID with
    | None => (Err ErrUserNotFound, w)
    | Some user => (Ok user, w)
    end.

Definition mem_SaveUser (user : User) : M MemoryRepository (User * option error) :=
  do now <- time_Now;
  let user := set_UpdatedAt now user in
  fun w => ((user, None), set_users (<[TelegramID user := user]> (users (repo w))) w).

Definition mem_UpdatePreferences (telegramID : Z) (prefs : Preferences)
  : M MemoryRepository (option error) :=
  fun w =>
    match users (repo w) !! telegramID with
    | None => (Some ErrUserNotFound, w)
    | Some user =>
        let user := if negb (String.eqb (pref_KindleEmail prefs) "")
                    then set_KindleEmail (pref_KindleEmail prefs) user else user in
        let user := if negb (String.eqb (pref_Language prefs) "")
                    then set_Language (pref_Language prefs) user else user in
        (do now <- time_Now;
         fun w' => (None, set_users (<[telegramID := set_UpdatedAt now user]>
                                       (users (repo w'))) w')) w
    end.

Definition mem_IncrementBooksSent (telegramID : Z) : M MemoryRepository (option error) :=
  fun w =>
    match users (repo w) !! telegramID with
    | None => (Some ErrUserNotFound, w)
    | Some user =>
        let user := set_BooksSent (int_wrap (BooksSent user + 1)) user in
        (do now <- time_Now;
         fun w' => (None, set_users (<[telegramID := set_UpdatedAt now user]>
                                       (users (repo w'))) w')) w
    end.

Definition mem_UpdateLastActive (telegramID : Z) : M MemoryRepository (option error) :=
  fun w =>
    match users (repo w) !! telegramID with
    | None => (Some ErrUserNotFound, w)
    | Some user =>
        (do now <- time_Now;
         fun w' => (None, set_users (<[telegramID := set_LastActive now user]>
                                       (users (repo w'))) w')) w
    end.

#[export] Instance MemoryRepository_Repository : Repository MemoryRepository := {
  GetUser := mem_GetUser;
  SaveUser := mem_SaveUser;
  UpdatePreferences := mem_UpdatePreferences;
  IncrementBooksSent := mem_IncrementBooksSent;
  UpdateLastActive := mem_UpdateLastActive
}.

(** ** internal/user: Manager *)

Section Manager.
Context {R : Type} `{Repository R}.

(** [GetOrCreateUser] from the return of its [GetUser] call on. *)
Definition GetOrCreateUser_after_GetUser (telegramID : Z)
    (username firstName lastName langCode : string) (r : result User)
  : M R (result User) :=
  match r with
  | Ok user =>
      do now <- time_Now;
      let user := set_LastActive now user in
      do e <- UpdateLastActive telegramID;
      match e with
      | Some _ => ret (Ok user)
      | None => ret (Ok user)
      end
  | Err err =>
      if negb (errors_Is err ErrUserNotFound) then ret (Err err)
      else
        let language := detectLanguage langCode in
        do createdAt <- time_Now;
        do updatedAt <- time_Now;
        do lastActive <- time_Now;
        let user := mkUser telegramID telegramID username firstName lastName
                           "" language createdAt updatedAt 0 lastActive
                           true false in
        do saved <- SaveUser user;
        match snd saved with
        | Some err => ret (Err err)
        | None => ret (Ok (fst saved))
        end
  end.

Definition GetOrCreateUser (telegramID : Z)
    (username firstName lastName langCode : string) : M R (result User) :=
  do r <- GetUser telegramID;
  GetOrCreateUser_after_GetUser telegramID username firstName lastName langCode r.

Definition SetKindleEmail (telegramID : Z) (email : string) : M R (option error) :=
  match ValidateKindleEmail email with
  | Some err => ret (Some err)
  | None => UpdatePreferences telegramID (mkPreferences email "" "")
  end.

Definition SetLanguage (telegramID : Z) (language : string) : M R (option error) :=
  UpdatePreferences telegramID (mkPreferences "" language "").

Definition RecordBookSent (telegramID : Z) : M R (option error) :=
  IncrementBooksSent telegramID.

End Manager.

(** ** internal/i18n: I18n *)

(** A value passed as [interface{}] to a variadic [args] parameter. *)
Inductive Arg : Type :=
  | ArgNil
  | ArgString (s : string)
  | ArgInt (n : Z).

Record I18n : Type := mkI18n {
  translations : gmap string (gmap string string);
  defaultLang : string
}.

Definition New (defaultLang : string) : I18n := mkI18n ∅ defaultLang.

(** [i.translations[lang][key]] with the comma-ok form: a missing language
    yields the nil map, in which every lookup misses. *)
Definition lookup_translation (i : I18n) (lang key : string) : option string :=
  match translations i !! lang with
  | None => None
  | Some table => table !! key
  end.

Definition GetSupportedLanguages (i : I18n) : list string :=
  map fst (map_to_list (translations i)).

(** ** internal/bot: Handler *)

Record Handler : Type := mkHandler {
  i18n : I18n
}.

Section Router.

(** The two standard-library functions the router relies on. *)
Variable fmt_Sprintf : string -> list Arg -> string.
Variable strings_TrimSpace : string -> string.

Definition T (i : I18n) (lang key : string) (args : list Arg) : string :=
  match lookup_translation i lang key with
  | Some template =>
      if (0 <? List.length args)%nat then fmt_Sprintf template args else template
  | None =>
      match lookup_translation i (defaultLang i) key with
      | Some template =>
          if (0 <? List.length args)%nat then fmt_Sprintf template args else template
      | None => key
      end
  end.

Context {R : Type} `{Repository R}.

Definition sendMessage (h : Handler) (chatID : Z) (language key : string)
    (args : list Arg) : M R (option error) :=
  let text := T (i18n h) language key args in
  let msg := tgbotapi.NewMessage chatID text in
  bot_Send msg.

Definition sendError (h : Handler) (chatID : Z) (language : string)
    (err : error) : M R (option error) :=
  sendMessage h chatID language "error_occurred" [ArgNil].

Definition handleStart (h : Handler) (message : tgbotapi.Message) (user : User)
  : M R (option error) :=
  let welcomeMsg := T (i18n h) (Language user) "welcome" [ArgString (FirstName user)] in
  let msg := tgbotapi.NewMessage (tgbotapi.ChatID message) welcomeMsg in
  do e <- bot_Send msg;
  match e with
  | Some err => ret (Some err)
  | None =>
      if negb (HasKindleEmail user) then
        let whitelistMsg := T (i18n h) (Language user) "whitelist_instructions" [] in
        let msg := tgbotapi.MessageConfig (tgbotapi.ChatID message) whitelistMsg
                                          "Markdown" None in
        do e <- bot_Send msg;
        match e with
        | Some err => ret (Some err)
        | None =>
            let promptMsg := T (i18n h) (Language user) "kindle_email_prompt" [] in
            let msg := tgbotapi.NewMessage (tgbotapi.ChatID message) promptMsg in
            do e <- bot_Send msg;
            match e with
            | Some err => ret (Some err)
            | None => ret None
            end
        end
      else
        let searchMsg := T (i18n h) (Language user) "search_prompt" [] in
        let msg := tgbotapi.NewMessage (tgbotapi.ChatID message) searchMsg in
        do e <- bot_Send msg;
        match e with
        | Some err => ret (Some err)
        | None => ret None
        end
  end.

Definition handleHelp (h : Handler) (message : tgbotapi.Message) (user : User)
  : M R (option error) :=
  sendMessage h (tgbotapi.ChatID message) (Language user) "help_message" [ArgNil].

Definition handleKindle (h : Handler) (message : tgbotapi.Message) (user : User)
  : M R (option error) :=
  let args := tgbotapi.CommandArguments message in
  if String.eqb args "" then
    if HasKindleEmail user then
      sendMessage h (tgbotapi.ChatID message) (Language user)
                  "kindle_email_current" [ArgString (KindleEmail user)]
    else
      sendMessage h (tgbotapi.ChatID message) (Language user)
                  "kindle_email_prompt" [ArgNil]
  else
    let email := strings_TrimSpace args in
    do e <- SetKindleEmail (TelegramID user) email;
    match e with
    | Some err =>
        if error_eqb err ErrInvalidEmail then
          sendMessage h (tgbotapi.ChatID message) (Language user)
                      "kindle_email_invalid" [ArgNil]
        else ret (Some err)
    | None =>
        let confirmMsg := T (i18n h) (Language user) "kindle_email_set"
                            [ArgString email] in
        let msg := tgbotapi.NewMessage (tgbotapi.ChatID message) confirmMsg in
        do e <- bot_Send msg;
        match e with
        | Some err => ret (Some err)
        | None =>
            sendMessage h (tgbotapi.ChatID message) (Language user)
                        "whitelist_reminder" [ArgNil]
        end
    end.

Definition language_keyboard : tgbotapi.InlineKeyboardMarkup :=
  [[tgbotapi.mkButton "🇬🇧 English" "lang_en";
    tgbotapi.mkButton "🇷🇺 Русский" "lang_ru"]].

Definition handleLanguage (h : Handler) (message : tgbotapi.Message) (user : User)
  : M R (option error) :=
  let keyboard := language_keyboard in
  let msg := tgbotapi.MessageConfig (tgbotapi.ChatID message)
               (T (i18n h) (Language user) "language_prompt" []) ""
               (Some keyboard) in
  bot_Send msg.

Definition handleWhitelist (h : Handler) (message : tgbotapi.Message) (user : User)
  : M R (option error) :=
  let msg := tgbotapi.MessageConfig (tgbotapi.ChatID message)
               (T (i18n h) (Language user) "whitelist_instructions" [])
               "Markdown" None in
  bot_Send msg.

Definition handleSettings (h : Handler) (message : tgbotapi.Message) (user : User)
  : M R (option error) :=
  let kindleEmail := KindleEmail user in
  let kindleEmail := if String.eqb kindleEmail ""
                     then T (i18n h) (Language user) "not_set" []
                     else kindleEmail in
  let language := Language user in
  let language := if String.eqb language "en" then "English"
                  else if String.eqb language "ru" then "Русский"
                  else language in
  sendMessage h (tgbotapi.ChatID message) (Language user) "settings_display"
              [ArgString kindleEmail; ArgString language; ArgInt (BooksSent user)].

Definition handleCancel (h : Handler) (message : tgbotapi.Message) (user : User)
  : M R (option error) :=
  sendMessage h (tgbotapi.ChatID message) (Language user)
              "operation_cancelled" [ArgNil].

Definition handleSearchQuery (h : Handler) (message : tgbotapi.Message) (user : User)
  : M R (option error) :=
  let query := strings_TrimSpace (tgbotapi.Text message) in
  if negb (HasKindleEmail user) then
    if strings_Contains query "@kindle.com" then
      do e <- SetKindleEmail (TelegramID user) query;
      match e with
      | Some _ =>
          sendMessage h (tgbotapi.ChatID message) (Language user)
                      "kindle_email_invalid" [ArgNil]
      | None =>
          let confirmMsg := T (i18n h) (Language user) "kindle_email_set"
                              [ArgString query] in
          let msg := tgbotapi.NewMessage (tgbotapi.ChatID message) confirmMsg in
          do e <- bot_Send msg;
          match e with
          | Some err => ret (Some err)
          | None =>
              sendMessage h (tgbotapi.ChatID message) (Language user)
                          "whitelist_reminder" [ArgNil]
          end
      end
    else
      sendMessage h (tgbotapi.ChatID message) (Language user)
                  "kindle_email_required" [ArgNil]
  else
    let searchingMsg := T (i18n h) (Language user) "searching" [ArgString query] in
    let statusMsg := tgbotapi.NewMessage (tgbotapi.ChatID message) searchingMsg in
    do e <- bot_Send statusMsg;
    match e with
    | Some err => ret (Some err)
    | None =>
        sendMessage h (tgbotapi.ChatID message) (Language user)
                    "search_not_implemented" [ArgNil]
    end.

Definition handleCommand (h : Handler) (message : tgbotapi.Message) (user : User)
  : M R (option error) :=
  let command := tgbotapi.Command message in
  if String.eqb command "start" then handleStart h message user
  else if String.eqb command "help" then handleHelp h message user
  else if String.eqb command "kindle" then handleKindle h message user
  else if String.eqb command "language" then handleLanguage h message user
  else if String.eqb command "whitelist" then handleWhitelist h message user
  else if String.eqb command "settings" then handleSettings h message user
  else if String.eqb command "cancel" then handleCancel h message user
  else sendMessage h (tgbotapi.ChatID message) (Language user)
                   "unknown_command" [ArgNil].

Definition handleMessage (h : Handler) (message : tgbotapi.Message)
  : M R (option error) :=
  let from := tgbotapi.From message in
  do r <- GetOrCreateUser (tgbotapi.ID from) (tgbotapi.FirstName from)
                          (tgbotapi.LastName from) (tgbotapi.UserName from)
                          (tgbotapi.LanguageCode from);
  match r with
  | Err err => ret (Some err)
  | Ok user =>
      if tgbotapi.IsCommand message then handleCommand h message user
      else handleSearchQuery h message user
  end.

Definition handleCallbackQuery (h : Handler) (query : tgbotapi.CallbackQuery)
  : M R (option error) :=
  let from := tgbotapi.QueryFrom query in
  do r <- GetOrCreateUser (tgbotapi.ID from) (tgbotapi.FirstName from)
                          (tgbotapi.LastName from) (tgbotapi.UserName from)
                          (tgbotapi.LanguageCode from);
  match r with
  | Err err => ret (Some err)
  | Ok user =>
      let data := tgbotapi.Data query in
      if String.prefix "lang_" data then
        let lang := str_drop 5 data in
        do e <- SetLanguage (TelegramID user) lang;
        match e with
        | Some err => ret (Some err)
        | None =>
            let callback := tgbotapi.NewCallback (tgbotapi.QueryID query)
                              (T (i18n h) lang "language_changed" []) in
            do e <- bot_Request callback;
            match e with
            | Some err => ret (Some err)
            | None =>
                let editMsg := tgbotapi.NewEditMessageText
                                 (tgbotapi.ChatID (tgbotapi.QueryMessage query))
                                 (tgbotapi.MessageID (tgbotapi.QueryMessage query))
                                 (T (i18n h) lang "language_changed" []) in
                bot_Send editMsg
            end
        end
      else if String.prefix "book_" data then
        let callback := tgbotapi.NewCallback (tgbotapi.QueryID query)
                          (T (i18n h) (Language user) "feature_coming_soon" []) in
        bot_Request callback
      else
        let callback := tgbotapi.NewCallback (tgbotapi.QueryID query) "" in
        bot_Request callback
  end.

Definition HandleUpdate (h : Handler) (update : tgbotapi.Update)
  : M R (option error) :=
  match tgbotapi.UpdateCallbackQuery update with
  | Some query => handleCallbackQuery h query
  | None =>
      match tgbotapi.UpdateMessage update with
      | Some message => handleMessage h message
      | None => ret None
      end
  end.

End Router.

(** ** internal/bot: the handlers on the pointers they receive *)

(** How a call of a handler ends: it returns its error value, or it
    dereferences a nil pointer and panics. *)
Inductive outcome : Type :=
  | Returned (e : option error)
  | Panicked.

Module inbound.

(** [*tgbotapi.Message], [*tgbotapi.CallbackQuery] and [*tgbotapi.Update] as
    they arrive.  [From] of a message and [Message] of a callback query are
    pointers the Bot API leaves nil on some updates (a channel post has no
    sender, the callback of a message sent through inline mode has no
    message); [Chat] of a message and [From] of a callback query are fields
    the Bot API always sets. *)
Record Message : Type := mkMessage {
  MessageID : Z;
  From : option tgbotapi.User;
  ChatID : Z;
  Text : string;
  CommandSplit : option (string * string)
}.

Record CallbackQuery : Type := mkCallbackQuery {
  QueryID : string;
  QueryFrom : tgbotapi.User;
  QueryMessage : option Message;
  Data : string
}.

Record Update : Type := mkUpdate {
  UpdateCallbackQuery : option CallbackQuery;
  UpdateMessage : option Message
}.

(** The message with its sender dereferenced. *)
Definition with_sender (message : Message) (from : tgbotapi.User)
  : tgbotapi.Message :=
  tgbotapi.mkMessage (MessageID message) from (ChatID message) (Text message)
                     (CommandSplit message).

Section Handlers.

Variable fmt_Sprintf : string -> list Arg -> string.
Variable strings_TrimSpace : string -> string.

Context {R : Type} `{Repository R}.

(** [handleMessage]: its first expression reads [message.From.ID], and the
    rest of the handler and of the handlers it calls reads [message.From]
    nowhere else. *)
Definition handleMessage (h : Handler) (message : Message) : M R outcome :=
  match From message with
  | None => ret Panicked
  | Some from =>
      do e <- handleMessage fmt_Sprintf strings_TrimSpace h
                (with_sender message from);
      ret (Returned e)
  end.

(** [handleCallbackQuery]: [query.Message] is read once, when the edit of a
    language selection is built, after the language is stored and the
    callback is answered. *)
Definition handleCallbackQuery (h : Handler) (query : CallbackQuery)
  : M R outcome :=
  let from := QueryFrom query in
  do r <- GetOrCreateUser (tgbotapi.ID from) (tgbotapi.FirstName from)
                          (tgbotapi.LastName from) (tgbotapi.UserName from)
                          (tgbotapi.LanguageCode from);
  match r with
  | Err err => ret (Returned (Some err))
  | Ok user =>
      let data := Data query in
      if String.prefix "lang_" data then
        let lang := str_drop 5 data in
        do e <- SetLanguage (TelegramID user) lang;
        match e with
        | Some err => ret (Returned (Some err))
        | None =>
            let callback := tgbotapi.NewCallback (QueryID query)
                              (T fmt_Sprintf (i18n h) lang "language_changed" []) in
            do e <- bot_Request callback;
            match e with
            | Some err => ret (Returned (Some err))
            | None =>
                match QueryMessage query with
                | None => ret Panicked
                | Some message =>
                    let editMsg := tgbotapi.NewEditMessageText
                                     (ChatID message) (MessageID message)
                                     (T fmt_Sprintf (i18n h) lang
                                        "language_changed" []) in
                    do e <- bot_Send editMsg;
                    ret (Returned e)
                end
            end
        end
      else if String.prefix "book_" data then
        let callback := tgbotapi.NewCallback (QueryID query)
                          (T fmt_Sprintf (i18n h) (Language user)
                             "feature_coming_soon" []) in
        do e <- bot_Request callback;
        ret (Returned e)
      else
        let callback := tgbotapi.NewCallback (QueryID query) "" in
        do e <- bot_Request callback;
        ret (Returned e)
  end.

Definition HandleUpdate (h : Handler) (update : Update) : M R outcome :=
  match UpdateCallbackQuery update with
  | Some query => handleCallbackQuery h query
  | None =>
      match UpdateMessage update with
      | Some message => handleMessage h message
      | None => ret (Returned None)
      end
  end.

End Handlers.

(** The user whose profile the dispatch of [update] resolves: the sender of
    its callback query, or else of its message; [None] when the update
    carries neither, or a message without sender. *)
Definition sender (update : Update) : option tgbotapi.User :=
  match UpdateCallbackQuery update with
  | Some query => Some (QueryFrom query)
  | None =>
      match UpdateMessage update with
      | Some message => From message
      | None => None
      end
  end.

(** A language selection carries the message it was made on. *)
Definition selection_has_message (update : Update) : Prop :=
  match UpdateCallbackQuery update with
  | Some query =>
      String.prefix "lang_" (Data query) = true -> QueryMessage query <> None
  | None => True
  end.

End inbound.

(** ** Runs of operations *)

(** The world after a store write that took one clock reading. *)
Definition stored (telegramID : Z) (u : User) (w : World MemoryRepository)
  : World MemoryRepository :=
  mkWorld (mkMemoryRepository (<[telegramID := u]> (users (repo w))))
          (clock w) (S (ticks w)) (api w) (calls w) (outbox w).

(** The display names and locale hint of one [GetOrCreateUser] call. *)
Record Caller : Type := mkCaller {
  c_username : string;
  c_firstName : string;
  c_lastName : string;
  c_langCode : string
}.

(** Successive [GetOrCreateUser] calls for one identity. *)
Fixpoint repeat_GetOrCreateUser {R} `{Repository R} (telegramID : Z)
    (callers : list Caller) : M R (list (result User)) :=
  match callers with
  | [] => ret []
  | c :: rest =>
      do r <- GetOrCreateUser telegramID (c_username c) (c_firstName c)
                              (c_lastName c) (c_langCode c);
      do rs <- repeat_GetOrCreateUser telegramID rest;
      ret (r :: rs)
  end.

(** Two callers of [GetOrCreateUser] for one identity, scheduled so that both
    [GetUser] calls run before either caller goes on.  Each repository method
    is atomic under the mutex; [GetOrCreateUser] as a whole is not. *)
Definition racing_GetOrCreateUser {R} `{Repository R} (telegramID : Z)
    (a b : Caller) : M R (result User * result User) :=
  do ra <- GetUser telegramID;
  do rb <- GetUser telegramID;
  do ua <- GetOrCreateUser_after_GetUser telegramID (c_username a)
             (c_firstName a) (c_lastName a) (c_langCode a) ra;
  do ub <- GetOrCreateUser_after_GetUser telegramID (c_username b)
             (c_firstName b) (c_lastName b) (c_langCode b) rb;
  ret (ua, ub).

(** Two profiles that agree on every field except [LastActive]. *)
Definition same_but_LastActive (a b : User) : Prop :=
  set_LastActive 0%Z a = set_LastActive 0%Z b.

(** The profile [GetOrCreateUser] builds for an identity it has not seen. *)
Definition created (w : World MemoryRepository) (id : Z)
    (username firstName lastName langCode : string) : User :=
  mkUser id id username firstName lastName "" (detectLanguage langCode)
         (clock w (ticks w)) (clock w (3 + ticks w)) 0 (clock w (2 + ticks w))
         true false.

(** The operations of the store, the manager and the router that work on
    profiles in place.  [SaveUser] is not among them: it replaces a whole
    profile with the record it is given. *)
Inductive Op : Type :=
  | OpGetUser (telegramID : Z)
  | OpUpdatePreferences (telegramID : Z) (prefs : Preferences)
  | OpIncrementBooksSent (telegramID : Z)
  | OpUpdateLastActive (telegramID : Z)
  | OpGetOrCreateUser (telegramID : Z) (caller : Caller)
  | OpSetKindleEmail (telegramID : Z) (email : string)
  | OpSetLanguage (telegramID : Z) (language : string)
  | OpRecordBookSent (telegramID : Z)
  | OpHandleUpdate (h : Handler) (update : tgbotapi.Update).

Definition error_of {A} (r : result A) : option error :=
  match r with
  | Ok _ => None
  | Err e => Some e
  end.

(** The two operations that count a delivery for [id]. *)
Definition is_delivery (id : Z) (o : Op) : bool :=
  match o with
  | OpIncrementBooksSent i | OpRecordBookSent i => (i =? id)%Z
  | _ => false
  end.

Definition is_nil (e : option error) : bool :=
  match e with
  | None => true
  | Some _ => false
  end.

(** How many delivery operations for [id] a run holds, and how many of them
    returned [nil]. *)
Fixpoint delivery_calls (id : Z) (ops : list Op) : nat :=
  match ops with
  | [] => 0
  | o :: rest => (if is_delivery id o then 1 else 0) + delivery_calls id rest
  end.

Fixpoint successful_deliveries (id : Z) (ops : list Op) (outs : list (option error))
  : nat :=
  match ops, outs with
  | o :: ops', e :: outs' =>
      (if is_delivery id o && is_nil e then 1 else 0)
      + successful_deliveries id ops' outs'
  | _, _ => 0
  end.

Section Runs.

Variable fmt_Sprintf : string -> list Arg -> string.
Variable strings_TrimSpace : string -> string.

(** One operation on the in-memory store; the error it returns. *)
Definition run_op (o : Op) : M MemoryRepository (option error) :=
  match o with
  | OpGetUser id => do r <- GetUser id; ret (error_of r)
  | OpUpdatePreferences id prefs => UpdatePreferences id prefs
  | OpIncrementBooksSent id => IncrementBooksSent id
  | OpUpdateLastActive id => UpdateLastActive id
  | OpGetOrCreateUser id c =>
      do r <- GetOrCreateUser id (c_username c) (c_firstName c)
                              (c_lastName c) (c_langCode c);
      ret (error_of r)
  | OpSetKindleEmail id email => SetKindleEmail id email
  | OpSetLanguage id language => SetLanguage id language
  | OpRecordBookSent id => RecordBookSent id
  | OpHandleUpdate h update =>
      HandleUpdate fmt_Sprintf strings_TrimSpace h update
  end.

Fixpoint run (ops : list Op) : M MemoryRepository (list (option error)) :=
  match ops with
  | [] => ret []
  | o :: rest =>
      do e <- run_op o;
      do es <- run rest;
      ret (e :: es)
  end.

End Runs.

(** An operation under which the profile of [id] stays stored with the
    [BooksSent] it has. *)
Definition keeps_count {A} (id : Z) (m : M MemoryRepository A) : Prop :=
  forall (w : World MemoryRepository) (u : User),
    users (repo w) !! id = Some u ->
    exists u', users (repo (snd (m w))) !! id = Some u'
               /\ BooksSent u' = BooksSent u.

(** ** Sample data for the worked instances *)

Definition sample_clock : nat -> Time := fun n => (1700000000 + Z.of_nat n)%Z.

Definition sample_api : nat -> option error := fun _ => None.

Definition sample_user (email : string) (count : Z) : User :=
  mkUser 7 7 "reader" "Ann" "Lee" email "en" 10%Z 10%Z count 10%Z true false.

Definition sample_world (m : gmap Z User) : World MemoryRepository :=
  mkWorld (mkMemoryRepository m) sample_clock 0 sample_api 0 [].

(** Stand-ins for [strings.TrimSpace] (ASCII white space) and [fmt.Sprintf]
    (the verbs [%s], [%d], [%v] and [%%]) in the worked instances; the
    theorems hold for every choice of the two functions. *)
Definition decimal (n : Z) : string := NilZero.string_of_int (Z.to_int n).

Definition is_space (c : ascii) : bool :=
  let n := nat_of_ascii c in
  (n =? 32)%nat || ((9 <=? n)%nat && (n <=? 13)%nat).

Fixpoint trim_left (s : string) : string :=
  match s with
  | String c t => if is_space c then trim_left t else s
  | EmptyString => EmptyString
  end.

Fixpoint trim_right (s : string) : string :=
  match s with
  | EmptyString => EmptyString
  | String c t =>
      match trim_right t with
      | EmptyString => if is_space c then EmptyString else String c EmptyString
      | t' => String c t'
      end
  end.

Definition sample_TrimSpace (s : string) : string := trim_right (trim_left s).

Definition show_operand (a : Arg) : string :=
  match a with
  | ArgNil => "<nil>"
  | ArgString s => "string=" ++ s
  | ArgInt n => "int=" ++ decimal n
  end.

Definition format_verb (v : ascii) (a : Arg) : string :=
  match a with
  | ArgString s =>
      if Ascii.eqb v "s" || Ascii.eqb v "v" then s
      else "%!" ++ String v ("(" ++ show_operand a ++ ")")
  | ArgInt n =>
      if Ascii.eqb v "d" || Ascii.eqb v "v" then decimal n
      else "%!" ++ String v ("(" ++ show_operand a ++ ")")
  | ArgNil =>
      if Ascii.eqb v "v" then "<nil>"
      else "%!" ++ String v ("(" ++ show_operand a ++ ")")
  end.

Fixpoint show_extra (args : list Arg) : string :=
  match args with
  | [] => ""
  | [a] => show_operand a
  | a :: rest => show_operand a ++ ", " ++ show_extra rest
  end.

Definition extra_operands (args : list Arg) : string :=
  match args with
  | [] => ""
  | _ => "%!(EXTRA " ++ show_extra args ++ ")"
  end.

Fixpoint format_template (template : string) (args : list Arg) : string :=
  match template with
  | EmptyString => extra_operands args
  | String "%" EmptyString => "%!(NOVERB)" ++ extra_operands args
  | String "%" (String v t) =>
      if Ascii.eqb v "%" then String "%" (format_template t args)
      else match args with
           | [] => "%!" ++ String v ("(MISSING)" ++ format_template t [])
           | a :: rest => format_verb v a ++ format_template t rest
           end
  | String c t => String c (format_template t args)
  end.

Definition sample_Sprintf : string -> list Arg -> string := format_template.

Definition sample_i18n : I18n :=
  mkI18n {[ "en" := {[ "welcome" := "Welcome, %s!";
                       "whitelist_instructions" := "Whitelist instructions";
                       "kindle_email_prompt" := "Send your Kindle email";
                       "kindle_email_set" := "Email set to %s";
                       "kindle_email_invalid" := "Invalid email";
                       "kindle_email_required" := "Email required";
                       "whitelist_reminder" := "Remember to whitelist" ]} ]}
         "en".

Definition sample_handler : Handler := mkHandler sample_i18n.

Definition sample_sender : tgbotapi.User := tgbotapi.mkUser 7 "Ann" "Lee" "reader" "en".

Definition sample_message (text : string) (split : option (string * string))
  : tgbotapi.Message :=
  tgbotapi.mkMessage 1 sample_sender 7 text split.

(** ** Observations on the transport *)

(** The Bot API accepts every call. *)
Definition api_accepts {R} (w : World R) : Prop := forall n, api w n = None.

(** The world after an accepted Bot API call. *)
Definition sent {R} (c : tgbotapi.Chattable) (w : World R) : World R :=
  mkWorld (repo w) (clock w) (ticks w) (api w) (S (calls w)) (outbox w ++ [c]).

(** [m], run in [w], returns [nil] and has the Bot API accept exactly the
    requests [new], in this order. *)
Definition emits {R} (m : M R (option error)) (w : World R)
    (new : list tgbotapi.Chattable) : Prop :=
  fst (m w) = None
  /\ outbox (snd (m w)) = (outbox w ++ new)%list
  /\ api (snd (m w)) = api w.

(** The same message delivered as the command [name] with arguments [args]. *)
Definition as_command (m : tgbotapi.Message) (name args : string)
  : tgbotapi.Message :=
  tgbotapi.mkMessage (tgbotapi.MessageID m) (tgbotapi.From m) (tgbotapi.ChatID m)
                     (tgbotapi.Text m) (Some (name, args)).

(** Every profile is stored under its own [TelegramID]. *)
Definition keyed (m : gmap Z User) : Prop :=
  forall (k : Z) (u : User), m !! k = Some u -> TelegramID u = k.

(** The replies of the two endpoint paths. *)
Definition invalid_reply (fmt : string -> list Arg -> string)
    (h : Handler) (chatID : Z) (user : User)
  : tgbotapi.Chattable :=
  tgbotapi.NewMessage chatID
    (T fmt (i18n h) (Language user) "kindle_email_invalid" [ArgNil]).

Definition confirmation_reply (fmt : string -> list Arg -> string)
    (h : Handler) (chatID : Z) (user : User)
    (email : string) : tgbotapi.Chattable :=
  tgbotapi.NewMessage chatID
    (T fmt (i18n h) (Language user) "kindle_email_set" [ArgString email]).

Definition reminder_reply (fmt : string -> list Arg -> string)
    (h : Handler) (chatID : Z) (user : User)
  : tgbotapi.Chattable :=
  tgbotapi.NewMessage chatID
    (T fmt (i18n h) (Language user) "whitelist_reminder" [ArgNil]).

Definition required_reply (fmt : string -> list Arg -> string)
    (h : Handler) (chatID : Z) (user : User)
  : tgbotapi.Chattable :=
  tgbotapi.NewMessage chatID
    (T fmt (i18n h) (Language user) "kindle_email_required" [ArgNil]).

(** Setting the endpoint to [email] for a stored profile and replying. *)
Definition endpoint_outcome (fmt : string -> list Arg -> string)
    (h : Handler) (chatID : Z) (user : User)
    (email : string) (u : User) (w : World MemoryRepository)
  : option error * World MemoryRepository :=
  match ValidateKindleEmail email with
  | Some _ => (None, sent (invalid_reply fmt h chatID user) w)
  | None =>
      (None,
       sent (reminder_reply fmt h chatID user)
         (sent (confirmation_reply fmt h chatID user email)
            (stored (TelegramID user)
               (set_UpdatedAt (clock w (ticks w)) (set_KindleEmail email u)) w)))
  end.

(** [m], run in [w], does not panic, returns [nil] and has the Bot API
    accept exactly the requests [new], in this order. *)
Definition completes {R} (m : M R outcome) (w : World R)
    (new : list tgbotapi.Chattable) : Prop :=
  fst (m w) = Returned None
  /\ outbox (snd (m w)) = (outbox w ++ new)%list.

(** [w'] has the Bot API state of [w]. *)
Definition same_transport {R} (w w' : World R) : Prop :=
  api w' = api w /\ calls w' = calls w /\ outbox w' = outbox w.

(** A repository that makes no Bot API call of its own: each of its methods
    leaves the Bot API state as it is. *)
Definition quiet_repository (R : Type) `{Repository R} : Prop :=
  forall w : World R,
    (forall id, same_transport w (snd (GetUser id w)))
    /\ (forall user, same_transport w (snd (SaveUser user w)))
    /\ (forall id prefs, same_transport w (snd (UpdatePreferences id prefs w)))
    /\ (forall id, same_transport w (snd (IncrementBooksSent id w)))
    /\ (forall id, same_transport w (snd (UpdateLastActive id w))).

(** The stored profile and the world of the worked instances. *)
Definition sample_store : gmap Z User := {[ 7%Z := sample_user "" 0 ]}.

Definition sample_start : tgbotapi.Update :=
  tgbotapi.mkUpdate None (Some (sample_message "/start" (Some ("start", "")))).

(** ** pkg/models: the remaining methods of User *)

(** [IsValidLanguage]: membership in the method's own map of languages. *)
Definition IsValidLanguage (u : User) : bool :=
  String.eqb (Language u) "en" || String.eqb (Language u) "ru".

Definition GetDisplayName (u : User) : string :=
  if negb (String.eqb (FirstName u) "") then
    if negb (String.eqb (LastName u) "") then FirstName u ++ " " ++ LastName u
    else FirstName u
  else if negb (String.eqb (Username u) "") then Username u
  else "User".

(** ** Invariants of the store *)

(** [m] keeps the store inside [I]. *)
Definition preserves {A} (I : gmap Z User -> Prop) (m : M MemoryRepository A)
  : Prop :=
  forall w : World MemoryRepository,
    I (users (repo w)) -> I (users (repo (snd (m w)))).

(** [m] leaves the repository and the clock as they are. *)
Definition read_only {A} (m : M MemoryRepository A) : Prop :=
  forall w : World MemoryRepository,
    repo (snd (m w)) = repo w /\ ticks (snd (m w)) = ticks w.

(** Every stored profile satisfies [Q]. *)
Definition pointwise (Q : Z -> User -> Prop) (m : gmap Z User) : Prop :=
  forall (k : Z) (u : User), m !! k = Some u -> Q k u.

(** [Q] survives the field writes of the store, endpoint writes being
    limited to the values in [E], and holds of a newly created profile. *)
Definition stable_under_writes (E : string -> Prop) (Q : Z -> User -> Prop)
  : Prop :=
  (forall k u t, Q k u -> Q k (set_LastActive t u))
  /\ (forall k u t, Q k u -> Q k (set_UpdatedAt t u))
  /\ (forall k u b, Q k u -> Q k (set_BooksSent b u))
  /\ (forall k u l, Q k u -> Q k (set_Language l u))
  /\ (forall k u e, E e -> Q k u -> Q k (set_KindleEmail e u))
  /\ (forall w k a b c d, Q k (created w k a b c d)).

(** The endpoint an operation may write directly is empty or in [E]. *)
Definition op_admits (E : string -> Prop) (o : Op) : Prop :=
  match o with
  | OpUpdatePreferences _ prefs =>
      pref_KindleEmail prefs = "" \/ E (pref_KindleEmail prefs)
  | _ => True
  end.

(** The profile of [id] is stored and stands in [Rel] to [u0]. *)
Definition stored_related (id : Z) (Rel : User -> User -> Prop) (u0 : User)
    (m : gmap Z User) : Prop :=
  exists u, m !! id = Some u /\ Rel u0 u.

(** [Rel] is a preorder that every in-place field write of the store
    respects (an endpoint write always carries a non-empty value). *)
Definition respected_by_writes (Rel : User -> User -> Prop) : Prop :=
  (forall u, Rel u u)
  /\ (forall a b c, Rel a b -> Rel b c -> Rel a c)
  /\ (forall u t, Rel u (set_LastActive t u))
  /\ (forall u t, Rel u (set_UpdatedAt t u))
  /\ (forall u b, Rel u (set_BooksSent b u))
  /\ (forall u l, Rel u (set_Language l u))
  /\ (forall u e, e <> "" -> Rel u (set_KindleEmail e u)).

(** The fields no in-place operation writes. *)
Definition same_identity (a b : User) : Prop :=
  ID b = ID a /\ TelegramID b = TelegramID a /\ Username b = Username a
  /\ FirstName b = FirstName a /\ LastName b = LastName a
  /\ CreatedAt b = CreatedAt a /\ IsActive b = IsActive a
  /\ IsBanned b = IsBanned a.

(** An endpoint that is set stays set. *)
Definition endpoint_kept (a b : User) : Prop :=
  KindleEmail a <> "" -> KindleEmail b <> "".

(** A stored endpoint is either unset or passes the validation. *)
Definition endpoint_well_formed (u : User) : Prop :=
  KindleEmail u = "" \/ ValidateKindleEmail (KindleEmail u) = None.

(** A repository whose backend is down: it resolves every identity but the
    identity [0] to one fixed profile and fails every write. *)
Definition down : error := ErrOther "backend unavailable".

#[export] Instance sample_failing_repository : Repository unit := {
  GetUser := fun id w =>
    if (id =? 0)%Z then (Err down, w) else (Ok (sample_user "" 0), w);
  SaveUser := fun user w => ((user, Some down), w);
  UpdatePreferences := fun _ _ w => (Some down, w);
  IncrementBooksSent := fun _ w => (Some down, w);
  UpdateLastActive := fun _ w => (Some down, w)
}.

Definition sample_failing_world : World unit :=
  mkWorld tt sample_clock 0 sample_api 0 [].

(** [m] leaves the transport as it is. *)
Definition quiet {A} (m : M MemoryRepository A) : Prop :=
  forall w : World MemoryRepository,
    api (snd (m w)) = api w /\ calls (snd (m w)) = calls w
    /\ outbox (snd (m w)) = outbox w.

(** [m] makes at most [n] Bot API calls; the outbox grows by the accepted
    ones, which are all of them when [m] returns [nil]. *)
Definition transport_bound (n : nat) (m : M MemoryRepository (option error))
  : Prop :=
  forall w : World MemoryRepository,
    api (snd (m w)) = api w
    /\ (calls w <= calls (snd (m w)) <= calls w + n)%nat
    /\ exists new,
         outbox (snd (m w)) = (outbox w ++ new)%list
         /\ (List.length new <= calls (snd (m w)) - calls w)%nat
         /\ (fst (m w) = None ->
             List.length new = (calls (snd (m w)) - calls w)%nat).

(** ** pkg/models: Book *)

Module Book.

Record t : Type := mk {
  ID : string;
  Title : string;
  Author : string;
  Format : string;
  Size : Z;
  URL : string;
  Description : string;
  Year : Z;
  Language : string;
  CreatedAt : Time
}.

Definition unit : Z := 1024.

(** The loop of [FormatSize]: [for n := Size / unit; n >= unit; n /= unit]
    with body [div *= unit; exp++], on [int64] and [int] values.  The state
    is [(n, div, exp)]; [fuel] bounds the number of iterations. *)
Fixpoint scale_loop (fuel : nat) (n div exp : Z) : Z * Z * Z :=
  match fuel with
  | O => (n, div, exp)
  | S fuel' =>
      if (n >=? unit)%Z then
        scale_loop fuel' (Z.quot n unit) (int_wrap (div * unit)) (int_wrap (exp + 1))
      else (n, div, exp)
  end.

(** The integer part of [FormatSize]: [None] when the size is printed in
    bytes ([Size < unit]), otherwise the loop's final [(n, div, exp)], from
    which the method prints [Size / div] with the letter ["KMGTPE"[exp]].
    The floating-point quotient and its [%.2f] rendering are not modelled. *)
Definition FormatSize_scale (b : t) : option (Z * Z * Z) :=
  if (Size b <? unit)%Z then None
  else Some (scale_loop 64 (Z.quot (Size b) unit) unit 0).

Definition GetDownloadURL (b : t) : string := URL b.

End Book.

(** ** internal/config *)

Record Config : Type := mkConfig {
  TelegramBotToken : string;
  BotMode : string;
  WebhookURL : string;
  WebhookSecret : string;
  AzureCommunicationConnectionString : string;
  SenderEmail : string;
  DBType : string;
  DBHost : string;
  DBPort : string;
  DBName : string;
  DBUser : string;
  DBPassword : string;
  DBSSLMode : string;
  CosmosEndpoint : string;
  CosmosKey : string;
  CosmosDatabase : string;
  CosmosContainer : string;
  LogLevel : string;
  Port : string;
  AppInsightsInstrumentationKey : string
}.

(** [os.Getenv]: the value of the variable, empty when it is not set. *)
Definition os_Getenv (env : gmap string string) (key : string) : string :=
  match env !! key with
  | Some value => value
  | None => ""
  end.

Definition getEnvOrDefault (env : gmap string string) (key defaultValue : string)
  : string :=
  let value := os_Getenv env key in
  if negb (String.eqb value "") then value else defaultValue.

(** [godotenv.Load()]: every variable of the [.env] file that the process
    environment does not hold is set to the file's value; a variable the
    process holds, also with an empty value, keeps the value it has.
    [dotenv] is the content of the file, and is empty when there is no file
    that can be read and parsed (the error of the call is dropped). *)
Definition godotenv_Load (dotenv env : gmap string string)
  : gmap string string :=
  env ∪ dotenv.

(** [Load], from the content of the [.env] file and the process environment. *)
Definition Load (dotenv env : gmap string string) : result Config :=
  let env := godotenv_Load dotenv env in
  let cfg :=
    mkConfig (os_Getenv env "TELEGRAM_BOT_TOKEN")
             (getEnvOrDefault env "BOT_MODE" "polling")
             (os_Getenv env "WEBHOOK_URL")
             (os_Getenv env "WEBHOOK_SECRET")
             (os_Getenv env "AZURE_COMMUNICATION_CONNECTION_STRING")
             (os_Getenv env "SENDER_EMAIL")
             (getEnvOrDefault env "DB_TYPE" "memory")
             (os_Getenv env "DB_HOST")
             (getEnvOrDefault env "DB_PORT" "5432")
             (os_Getenv env "DB_NAME")
             (os_Getenv env "DB_USER")
             (os_Getenv env "DB_PASSWORD")
             (getEnvOrDefault env "DB_SSL_MODE" "require")
             (os_Getenv env "COSMOS_ENDPOINT")
             (os_Getenv env "COSMOS_KEY")
             (os_Getenv env "COSMOS_DATABASE")
             (os_Getenv env "COSMOS_CONTAINER")
             (getEnvOrDefault env "LOG_LEVEL" "info")
             (getEnvOrDefault env "PORT" "8080")
             (os_Getenv env "APPINSIGHTS_INSTRUMENTATIONKEY") in
  if String.eqb (TelegramBotToken cfg) "" then
    Err (ErrOther "TELEGRAM_BOT_TOKEN is required")
  else if String.eqb (BotMode cfg) "webhook" && String.eqb (WebhookURL cfg) "" then
    Err (ErrOther "WEBHOOK_URL is required for webhook mode")
  else if String.eqb (DBType cfg) "memory" then Ok cfg
  else if String.eqb (DBType cfg) "postgres" then
    if String.eqb (DBHost cfg) "" || String.eqb (DBName cfg) ""
       || String.eqb (DBUser cfg) "" || String.eqb (DBPassword cfg) ""
    then Err (ErrOther "postgres configuration incomplete: DB_HOST, DB_NAME, DB_USER, and DB_PASSWORD are required")
    else Ok cfg
  else if String.eqb (DBType cfg) "cosmos" then
    if String.eqb (CosmosEndpoint cfg) "" || String.eqb (CosmosKey cfg) ""
       || String.eqb (CosmosDatabase cfg) "" || String.eqb (CosmosContainer cfg) ""
    then Err (ErrOther "cosmos configuration incomplete: COSMOS_ENDPOINT, COSMOS_KEY, COSMOS_DATABASE, and COSMOS_CONTAINER are required")
    else Ok cfg
  else
    Err (ErrOther ("invalid DB_TYPE: " ++ DBType cfg
                   ++ " (must be 'memory', 'postgres', or 'cosmos')")).

(** More sample data. *)
Definition sample_ops : list Op :=
  [OpSetKindleEmail 7 "name@kindle.com"; OpSetLanguage 7 "ru";
   OpSetKindleEmail 7 "name@gmail.com";
   OpUpdatePreferences 7 (mkPreferences "" "" "");
   OpGetOrCreateUser 7 (mkCaller "other" "Bo" "Li" "en");
   OpHandleUpdate sample_handler sample_start; OpRecordBookSent 7].

Definition sample_reader : User := sample_user "name@kindle.com" 2.

Definition sample_rejecting_world : World MemoryRepository :=
  mkWorld (mkMemoryRepository sample_store) sample_clock 0
          (fun _ => Some down) 0 [].

(** Updates as they arrive. *)
Definition sample_inbound_message (text : string)
    (split : option (string * string)) : inbound.Message :=
  inbound.mkMessage 1 (Some sample_sender) 7 text split.

Definition sample_inbound_help : inbound.Update :=
  inbound.mkUpdate None (Some (sample_inbound_message "/help" (Some ("help", "")))).

Definition sample_inbound_start : inbound.Update :=
  inbound.mkUpdate None (Some (sample_inbound_message "/start" (Some ("start", "")))).

Definition sample_selection (message : option inbound.Message) (data : string)
  : inbound.CallbackQuery :=
  inbound.mkCallbackQuery "q1" sample_sender message data.

Definition sample_book : Book.t :=
  Book.mk "42" "Dune" "Frank Herbert" "epub" 1536 "/b/42/epub" "" 1965 "en" 0%Z.

Definition sample_env : gmap string string :=
  {[ "TELEGRAM_BOT_TOKEN" := "token"; "WEBHOOK_URL" := "" ]}.

Definition sample_dotenv : gmap string string :=
  {[ "LOG_LEVEL" := "debug"; "TELEGRAM_BOT_TOKEN" := "token of the file" ]}.

Definition sample_config : Config :=
  mkConfig "token" "polling" "" "" "" "" "memory" "" "5432" "" "" "" "require"
           "" "" "" "" "debug" "8080" "".

(** * Properties *)

(** ** Byte-string lemmas *)

Lemma str_append_cons (c : ascii) (a b : string) :
  String c a ++ b = String c (a ++ b).
Proof. reflexivity. Qed.

Lemma str_length_append (a b : string) :
  String.length (a ++ b) = (String.length a + String.length b)%nat.
Proof. induction a as [|c a IH]; simpl; [reflexivity | now rewrite IH]. Qed.

Lemma str_take_drop (n : nat) (s : string) : str_take n s ++ str_drop n s = s.
Proof.
  revert s; induction n as [|n IH]; intros [|c t]; simpl; try reflexivity.
  rewrite str_append_cons. f_equal; apply IH.
Qed.

Lemma str_drop_append (p s : string) : str_drop (String.length p) (p ++ s) = s.
Proof.
  induction p as [|c p IH]; [now destruct s|].
  rewrite str_append_cons. exact IH.
Qed.

(** Slicing off the last [length suf] bytes yields [suf] exactly when the
    string ends with [suf]. *)
Lemma str_drop_suffix (s suf : string) :
  (String.length suf <= String.length s)%nat ->
  str_drop (String.length s - String.length suf) s = suf <->
  exists p, s = p ++ suf.
Proof.
  intros Hlen; split.
  - intros Hd. exists (str_take (String.length s - String.length suf) s).
    pose proof (str_take_drop (String.length s - String.length suf) s) as E.
    rewrite Hd in E. symmetry; exact E.
  - intros [p ->]. rewrite str_length_append.
    replace (String.length p + String.length suf - String.length suf)%nat
      with (String.length p) by lia.
    apply str_drop_append.
Qed.

Lemma prefix_append (p s : string) :
  String.prefix p s = true <-> exists post, s = p ++ post.
Proof.
  revert s. induction p as [|c p IH]; intros s.
  - split; [intros _; now exists s | intros _; destruct s; reflexivity].
  - destruct s as [|d s]; cbn [String.prefix].
    + split; [discriminate | intros (post & E); discriminate E].
    + destruct (ascii_dec c d) as [->|Hne].
      * rewrite IH. split; intros (post & E); exists post.
        -- now rewrite str_append_cons, <- E.
        -- rewrite str_append_cons in E. now injection E.
      * split; [discriminate|]. intros (post & E).
        rewrite str_append_cons in E. injection E as E1 _. congruence.
Qed.

(** [strings_Contains s substr] holds exactly when [substr] occurs in [s]. *)
Lemma strings_Contains_substring (s substr : string) :
  strings_Contains s substr = true
  <-> exists pre post, s = pre ++ substr ++ post.
Proof.
  induction s as [|c s IH].
  - cbn [strings_Contains]. destruct (String.prefix substr "") eqn:Hp.
    + split; [intros _|reflexivity]. apply prefix_append in Hp as (post & E).
      now exists "", post.
    + split; [discriminate|]. intros (pre & post & E).
      destruct pre; [|discriminate E].
      assert (String.prefix substr "" = true) as Hq
          by (apply prefix_append; now exists post).
      congruence.
  - cbn [strings_Contains]. destruct (String.prefix substr (String c s)) eqn:Hp.
    + split; [intros _|reflexivity]. apply prefix_append in Hp as (post & E).
      now exists "", post.
    + rewrite IH. split.
      * intros (pre & post & E). exists (String c pre), post.
        now rewrite str_append_cons, <- E.
      * intros (pre & post & E). destruct pre as [|d pre].
        -- assert (String.prefix substr (String c s) = true) as Hq
               by (apply prefix_append; now exists post).
           congruence.
        -- rewrite str_append_cons in E. injection E as _ E.
           now exists pre, post.
Qed.

(** ** ValidateKindleEmail *)

Lemma ValidateKindleEmail_accepts (s : string) :
  ValidateKindleEmail s = None <->
  s <> "" /\ exists local, local <> "" /\ s = local ++ "@kindle.com".
Proof.
  unfold ValidateKindleEmail.
  destruct (String.eqb_spec s "") as [->|Hne].
  { split; [discriminate | intros [[] _]; reflexivity]. }
  destruct (Nat.ltb_spec (String.length s) 11) as [Hlt|Hge]; simpl.
  { split; [discriminate|]. intros (_ & p & _ & ->).
    rewrite str_length_append in Hlt; simpl in Hlt; lia. }
  destruct (String.eqb_spec (str_drop (String.length s - 11) s) "@kindle.com")
    as [Hsuf|Hsuf]; simpl.
  - apply (str_drop_suffix s "@kindle.com" Hge) in Hsuf as [p ->].
    rewrite str_length_append; simpl.
    destruct (Nat.eqb_spec (String.length p + 11) 11) as [He|He].
    + split; [discriminate|]. intros (_ & q & Hq & Heq).
      assert (String.length q = 0%nat) as Hq0.
      { apply (f_equal String.length) in Heq.
        rewrite !str_length_append in Heq; simpl in Heq; lia. }
      destruct q; [now elim Hq | discriminate].
    + split; [intros _ | reflexivity]. split; [assumption|].
      exists p; split; [|reflexivity]. intros ->; simpl in He; lia.
  - split; [discriminate|]. intros (_ & p & _ & ->).
    elim Hsuf. apply (str_drop_suffix _ "@kindle.com" Hge). now exists p.
Qed.

Lemma ValidateKindleEmail_error (s : string) :
  ValidateKindleEmail s = None \/ ValidateKindleEmail s = Some ErrInvalidEmail.
Proof.
  unfold ValidateKindleEmail.
  destruct (String.eqb s ""); [now right|].
  destruct (_ || _); [now right|].
  destruct (_ =? _)%nat; [now right | now left].
Qed.

(** C1. [ValidateKindleEmail] accepts a string exactly when it is non-empty,
    ends with the case-sensitive suffix ["@kindle.com"] and has at least one
    byte before that suffix; every rejection is [ErrInvalidEmail]; so
    ["@kindle.com"] alone is rejected, ["x@kindle.com"] is accepted, and every
    string that does not end in ["@kindle.com"] (["a@gmail.com"],
    ["a@Kindle.com"]) is rejected with [ErrInvalidEmail]. *)
Theorem C1_ValidateKindleEmail_iff :
  (forall s : string,
      ValidateKindleEmail s = None <->
      s <> "" /\ exists local, local <> "" /\ s = local ++ "@kindle.com")
  /\ (forall s : string,
         ValidateKindleEmail s <> None ->
         ValidateKindleEmail s = Some ErrInvalidEmail)
  /\ (forall s : string,
         (forall p, s <> p ++ "@kindle.com") ->
         ValidateKindleEmail s = Some ErrInvalidEmail)
  /\ ValidateKindleEmail "@kindle.com" = Some ErrInvalidEmail
  /\ ValidateKindleEmail "x@kindle.com" = None
  /\ ValidateKindleEmail "a@gmail.com" = Some ErrInvalidEmail
  /\ ValidateKindleEmail "a@Kindle.com" = Some ErrInvalidEmail.
Proof.
  split; [exact ValidateKindleEmail_accepts|].
  split.
  { intros s Hs. destruct (ValidateKindleEmail_error s); [contradiction | assumption]. }
  split.
  { intros s Hs. destruct (ValidateKindleEmail_error s) as [Hok|]; [|assumption].
    apply ValidateKindleEmail_accepts in Hok as (_ & p & _ & ->).
    now elim (Hs p). }
  repeat split; reflexivity.
Qed.

(** ** MemoryRepository *)

Lemma mem_GetUser_Some (w : World MemoryRepository) (id : Z) (u : User) :
  users (repo w) !! id = Some u -> GetUser id w = (Ok u, w).
Proof. intros Hu. cbn. unfold mem_GetUser. now rewrite Hu. Qed.

Lemma mem_GetUser_None (w : World MemoryRepository) (id : Z) :
  users (repo w) !! id = None -> GetUser id w = (Err ErrUserNotFound, w).
Proof. intros Hu. cbn. unfold mem_GetUser. now rewrite Hu. Qed.

Lemma mem_SaveUser_eq (w : World MemoryRepository) (user : User) :
  SaveUser user w =
  ((set_UpdatedAt (clock w (ticks w)) user, None),
   stored (TelegramID user) (set_UpdatedAt (clock w (ticks w)) user) w).
Proof. reflexivity. Qed.

Lemma mem_UpdatePreferences_Some (w : World MemoryRepository) (id : Z)
    (prefs : Preferences) (u : User) :
  users (repo w) !! id = Some u ->
  UpdatePreferences id prefs w =
  (None,
   stored id
     (set_UpdatedAt (clock w (ticks w))
        (let u1 := if negb (String.eqb (pref_KindleEmail prefs) "")
                   then set_KindleEmail (pref_KindleEmail prefs) u else u in
         if negb (String.eqb (pref_Language prefs) "")
         then set_Language (pref_Language prefs) u1 else u1)) w).
Proof. intros Hu. cbn. unfold mem_UpdatePreferences. now rewrite Hu. Qed.

Lemma mem_UpdatePreferences_None (w : World MemoryRepository) (id : Z)
    (prefs : Preferences) :
  users (repo w) !! id = None ->
  UpdatePreferences id prefs w = (Some ErrUserNotFound, w).
Proof. intros Hu. cbn. unfold mem_UpdatePreferences. now rewrite Hu. Qed.

Lemma mem_IncrementBooksSent_Some (w : World MemoryRepository) (id : Z) (u : User) :
  users (repo w) !! id = Some u ->
  IncrementBooksSent id w =
  (None,
   stored id (set_UpdatedAt (clock w (ticks w))
                (set_BooksSent (int_wrap (BooksSent u + 1)) u)) w).
Proof. intros Hu. cbn. unfold mem_IncrementBooksSent. now rewrite Hu. Qed.

Lemma mem_IncrementBooksSent_None (w : World MemoryRepository) (id : Z) :
  users (repo w) !! id = None ->
  IncrementBooksSent id w = (Some ErrUserNotFound, w).
Proof. intros Hu. cbn. unfold mem_IncrementBooksSent. now rewrite Hu. Qed.

Lemma mem_UpdateLastActive_Some (w : World MemoryRepository) (id : Z) (u : User) :
  users (repo w) !! id = Some u ->
  UpdateLastActive id w = (None, stored id (set_LastActive (clock w (ticks w)) u) w).
Proof. intros Hu. cbn. unfold mem_UpdateLastActive. now rewrite Hu. Qed.

Lemma mem_UpdateLastActive_None (w : World MemoryRepository) (id : Z) :
  users (repo w) !! id = None ->
  UpdateLastActive id w = (Some ErrUserNotFound, w).
Proof. intros Hu. cbn. unfold mem_UpdateLastActive. now rewrite Hu. Qed.

Lemma stored_lookup_eq (w : World MemoryRepository) (id : Z) (u : User) :
  users (repo (stored id u w)) !! id = Some u.
Proof. cbn. apply lookup_insert_eq. Qed.

Lemma stored_lookup_ne (w : World MemoryRepository) (id other : Z) (u : User) :
  other <> id ->
  users (repo (stored id u w)) !! other = users (repo w) !! other.
Proof. intros Hne. cbn. now apply lookup_insert_ne. Qed.

(** C10. On a stored profile [UpdateLastActive] succeeds and writes only
    [LastActive] (the clock reading it takes): [UpdatedAt] is not refreshed,
    every other field of the profile is as before, and no other profile
    changes. *)
Theorem C10_UpdateLastActive_only_LastActive
    (w : World MemoryRepository) (id : Z) (u : User) :
  users (repo w) !! id = Some u ->
  let r := UpdateLastActive id w in
  fst r = None
  /\ (exists u',
         users (repo (snd r)) !! id = Some u'
         /\ u' = set_LastActive (clock w (ticks w)) u
         /\ LastActive u' = clock w (ticks w)
         /\ UpdatedAt u' = UpdatedAt u
         /\ ID u' = ID u /\ TelegramID u' = TelegramID u
         /\ Username u' = Username u /\ FirstName u' = FirstName u
         /\ LastName u' = LastName u /\ KindleEmail u' = KindleEmail u
         /\ Language u' = Language u /\ CreatedAt u' = CreatedAt u
         /\ BooksSent u' = BooksSent u /\ IsActive u' = IsActive u
         /\ IsBanned u' = IsBanned u)
  /\ (forall other, other <> id ->
         users (repo (snd r)) !! other = users (repo w) !! other).
Proof.
  intros Hu r. subst r. rewrite (mem_UpdateLastActive_Some w id u Hu). cbn [fst snd].
  split; [reflexivity|]. split.
  - eexists. split; [apply stored_lookup_eq|]. repeat split.
  - intros other Hne. now apply stored_lookup_ne.
Qed.

(** C3. On a stored profile [UpdatePreferences] succeeds; a non-empty
    [KindleEmail] or [Language] of the partial replaces the stored field and
    an empty one leaves it as it was, so a partial with only [Language] set
    keeps the stored [KindleEmail] and one with only [KindleEmail] set keeps
    the stored [Language]; [UpdatedAt] becomes the clock reading taken by the
    call; all other fields are unchanged. *)
Theorem C3_UpdatePreferences_partial_merge
    (w : World MemoryRepository) (id : Z) (prefs : Preferences) (u : User) :
  users (repo w) !! id = Some u ->
  let r := UpdatePreferences id prefs w in
  fst r = None
  /\ exists u',
       users (repo (snd r)) !! id = Some u'
       /\ KindleEmail u' = (if String.eqb (pref_KindleEmail prefs) ""
                            then KindleEmail u else pref_KindleEmail prefs)
       /\ Language u' = (if String.eqb (pref_Language prefs) ""
                         then Language u else pref_Language prefs)
       /\ (pref_KindleEmail prefs = "" -> KindleEmail u' = KindleEmail u)
       /\ (pref_Language prefs = "" -> Language u' = Language u)
       /\ UpdatedAt u' = clock w (ticks w)
       /\ ticks (snd r) = S (ticks w)
       /\ ID u' = ID u /\ TelegramID u' = TelegramID u
       /\ Username u' = Username u /\ FirstName u' = FirstName u
       /\ LastName u' = LastName u /\ CreatedAt u' = CreatedAt u
       /\ BooksSent u' = BooksSent u /\ LastActive u' = LastActive u
       /\ IsActive u' = IsActive u /\ IsBanned u' = IsBanned u.
Proof.
  intros Hu r. subst r. rewrite (mem_UpdatePreferences_Some w id prefs u Hu).
  cbn [fst snd]. split; [reflexivity|].
  eexists. split; [apply stored_lookup_eq|].
  destruct (String.eqb_spec (pref_KindleEmail prefs) "") as [Hk|Hk];
    destruct (String.eqb_spec (pref_Language prefs) "") as [Hl|Hl];
    cbn; repeat split; try reflexivity; intros; congruence.
Qed.

(** ** Manager *)

Lemma SetKindleEmail_rejected {R : Type} `{Repository R}
    (w : World R) (id : Z) (email : string) :
  ValidateKindleEmail email <> None ->
  SetKindleEmail id email w = (Some ErrInvalidEmail, w).
Proof.
  intros Hbad. unfold SetKindleEmail.
  destruct (ValidateKindleEmail_error email) as [Hok|Herr]; [contradiction|].
  now rewrite Herr.
Qed.

(** C2. When the validation rejects the candidate, [SetKindleEmail] returns
    [ErrInvalidEmail] and leaves the world as it found it: the store, and in
    it the profile of [id] with its [KindleEmail] and [UpdatedAt], is the one
    from before the call. *)
Theorem C2_SetKindleEmail_invalid_no_mutation
    (w : World MemoryRepository) (id : Z) (email : string) (u : User) :
  users (repo w) !! id = Some u ->
  ValidateKindleEmail email <> None ->
  let r := SetKindleEmail id email w in
  fst r = Some ErrInvalidEmail
  /\ snd r = w
  /\ users (repo (snd r)) !! id = Some u.
Proof.
  intros Hu Hbad r. subst r. rewrite (SetKindleEmail_rejected w id email Hbad).
  cbn [fst snd]. repeat split; assumption.
Qed.

Lemma GetOrCreateUser_existing (w : World MemoryRepository) (id : Z)
    (username firstName lastName langCode : string) (u : User) :
  users (repo w) !! id = Some u ->
  GetOrCreateUser id username firstName lastName langCode w =
  (Ok (set_LastActive (clock w (ticks w)) u),
   stored id (set_LastActive (clock w (S (ticks w))) u)
          (mkWorld (repo w) (clock w) (S (ticks w)) (api w) (calls w) (outbox w))).
Proof.
  intros Hu. unfold GetOrCreateUser, bind.
  rewrite (mem_GetUser_Some w id u Hu).
  unfold GetOrCreateUser_after_GetUser, bind. cbn [time_Now].
  rewrite (mem_UpdateLastActive_Some _ id u) by exact Hu.
  reflexivity.
Qed.

Lemma GetOrCreateUser_new (w : World MemoryRepository) (id : Z)
    (username firstName lastName langCode : string) :
  users (repo w) !! id = None ->
  GetOrCreateUser id username firstName lastName langCode w =
  (Ok (created w id username firstName lastName langCode),
   mkWorld (mkMemoryRepository
              (<[id := created w id username firstName lastName langCode]>
                 (users (repo w))))
           (clock w) (4 + ticks w) (api w) (calls w) (outbox w)).
Proof.
  intros Hu. unfold GetOrCreateUser, bind.
  rewrite (mem_GetUser_None w id Hu).
  unfold GetOrCreateUser_after_GetUser, bind.
  cbn [errors_Is error_eqb negb time_Now].
  rewrite mem_SaveUser_eq. reflexivity.
Qed.

Lemma same_but_LastActive_fields (a b : User) :
  same_but_LastActive a b ->
  ID a = ID b /\ TelegramID a = TelegramID b /\ Username a = Username b
  /\ FirstName a = FirstName b /\ LastName a = LastName b
  /\ KindleEmail a = KindleEmail b /\ Language a = Language b
  /\ CreatedAt a = CreatedAt b /\ UpdatedAt a = UpdatedAt b
  /\ BooksSent a = BooksSent b /\ IsActive a = IsActive b
  /\ IsBanned a = IsBanned b.
Proof.
  unfold same_but_LastActive, set_LastActive. intros E.
  injection E as -> -> -> -> -> -> -> -> -> -> -> ->. repeat split.
Qed.

Lemma same_but_LastActive_set (t : Time) (a : User) :
  same_but_LastActive a (set_LastActive t a).
Proof. reflexivity. Qed.

Lemma same_but_LastActive_trans (a b c : User) :
  same_but_LastActive a b -> same_but_LastActive b c -> same_but_LastActive a c.
Proof. unfold same_but_LastActive. congruence. Qed.

(** Once a profile is stored for [id], any further run of [GetOrCreateUser]
    calls for [id] only returns that profile and only moves [LastActive]. *)
Lemma repeat_GetOrCreateUser_existing (id : Z) (callers : list Caller) :
  forall (w : World MemoryRepository) (u : User),
    users (repo w) !! id = Some u ->
    let r := repeat_GetOrCreateUser id callers w in
    List.length (fst r) = List.length callers
    /\ Forall (fun res => exists u', res = Ok u' /\ same_but_LastActive u u') (fst r)
    /\ dom (users (repo (snd r))) = dom (users (repo w))
    /\ (forall other, other <> id ->
           users (repo (snd r)) !! other = users (repo w) !! other)
    /\ exists s, users (repo (snd r)) !! id = Some s /\ same_but_LastActive u s.
Proof.
  induction callers as [|c rest IH]; intros w u Hu; cbn zeta.
  - cbn. repeat split; [constructor | eauto]. exists u; split; [assumption | reflexivity].
  - set (w1 := stored id (set_LastActive (clock w (S (ticks w))) u)
                 (mkWorld (repo w) (clock w) (S (ticks w)) (api w) (calls w)
                          (outbox w))).
    assert (repeat_GetOrCreateUser id (c :: rest) w =
            (let (rs, w2) := repeat_GetOrCreateUser id rest w1 in
             (Ok (set_LastActive (clock w (ticks w)) u) :: rs, w2))) as Heq.
    { cbn [repeat_GetOrCreateUser]. unfold bind, ret.
      now rewrite (GetOrCreateUser_existing w id _ _ _ _ u Hu). }
    rewrite Heq; clear Heq.
    assert (users (repo w1) !! id = Some (set_LastActive (clock w (S (ticks w))) u))
      as Hu1 by apply stored_lookup_eq.
    specialize (IH w1 _ Hu1). cbn zeta in IH.
    destruct (repeat_GetOrCreateUser id rest w1) as [rs w2].
    cbn [fst snd] in *. destruct IH as (Hlen & Hall & Hdom & Hother & s & Hs & Hsame).
    split; [cbn; now rewrite Hlen|]. split.
    { constructor.
      - eexists; split; [reflexivity | apply same_but_LastActive_set].
      - eapply Forall_impl; [exact Hall|]. cbn beta. intros res (u' & -> & Hu').
        eexists; split; [reflexivity|].
        eapply same_but_LastActive_trans; [apply same_but_LastActive_set | exact Hu']. }
    split.
    { rewrite Hdom. subst w1. cbn. apply dom_insert_lookup_L. now exists u. }
    split.
    { intros other Hne. rewrite (Hother other Hne). subst w1.
      now rewrite stored_lookup_ne. }
    exists s; split; [assumption|].
    eapply same_but_LastActive_trans; [apply same_but_LastActive_set | exact Hsame].
Qed.

(** X30. One call after another: for an identity without a profile, the
    first [GetOrCreateUser] call succeeds and adds exactly one profile,
    stored under [id]; every later [GetOrCreateUser] call for [id], whatever
    names and locale hint it carries, succeeds and returns that profile
    ([LastActive] apart), so with the same [CreatedAt]; the set of stored
    identities stays the same, and the store still holds that one profile
    for [id]. *)
Theorem X30_GetOrCreateUser_one_call_after_another
    (w : World MemoryRepository) (id : Z) (first : Caller) (later : list Caller) :
  users (repo w) !! id = None ->
  exists (u : User) (w1 : World MemoryRepository),
    GetOrCreateUser id (c_username first) (c_firstName first)
                    (c_lastName first) (c_langCode first) w = (Ok u, w1)
    /\ users (repo w1) = <[id := u]> (users (repo w))
    /\ dom (users (repo w1)) = {[id]} ∪ dom (users (repo w))
    /\ TelegramID u = id
    /\ let r := repeat_GetOrCreateUser id later w1 in
       List.length (fst r) = List.length later
       /\ Forall (fun res => exists u',
                      res = Ok u' /\ same_but_LastActive u u'
                      /\ CreatedAt u' = CreatedAt u) (fst r)
       /\ dom (users (repo (snd r))) = dom (users (repo w1))
       /\ exists s, users (repo (snd r)) !! id = Some s
                    /\ same_but_LastActive u s /\ CreatedAt s = CreatedAt u.
Proof.
  intros Hnone.
  rewrite (GetOrCreateUser_new w id _ _ _ _ Hnone).
  eexists; eexists. split; [reflexivity|].
  split; [reflexivity|]. split; [cbn; apply dom_insert_L|]. split; [reflexivity|].
  match goal with |- let r := repeat_GetOrCreateUser id later ?w1 in _ =>
    pose proof (repeat_GetOrCreateUser_existing id later w1 _
                  (lookup_insert_eq _ _ _)) as IH end.
  cbn zeta in *. destruct IH as (Hlen & Hall & Hdom & _ & s & Hs & Hsame).
  split; [exact Hlen|]. split.
  { eapply Forall_impl; [exact Hall|]. cbn beta. intros res (u' & -> & Hu').
    eexists; split; [reflexivity|]. split; [exact Hu'|].
    symmetry. apply (same_but_LastActive_fields _ _ Hu'). }
  split; [exact Hdom|].
  exists s. split; [exact Hs|]. split; [exact Hsame|].
  symmetry. apply (same_but_LastActive_fields _ _ Hsame).
Qed.

(** [GetOrCreateUser] from a [GetUser] call that found no profile: it
    creates one and saves it, whatever the store holds by then. *)
Lemma GetOrCreateUser_after_miss (w : World MemoryRepository) (id : Z)
    (username firstName lastName langCode : string) :
  GetOrCreateUser_after_GetUser id username firstName lastName langCode
                                (Err ErrUserNotFound) w =
  (Ok (created w id username firstName lastName langCode),
   mkWorld (mkMemoryRepository
              (<[id := created w id username firstName lastName langCode]>
                 (users (repo w))))
           (clock w) (4 + ticks w) (api w) (calls w) (outbox w)).
Proof.
  unfold GetOrCreateUser_after_GetUser, bind.
  cbn [errors_Is error_eqb negb time_Now].
  rewrite mem_SaveUser_eq. reflexivity.
Qed.

(** C5. Two [GetOrCreateUser] calls for one identity without a profile that
    overlap, both [GetUser] calls running before either caller goes on (each
    repository method is atomic, the manager's check-then-create is not):
    both calls succeed and both create a profile.  The second profile
    replaces the first in the store, so the first caller holds a profile
    that is not the stored one, and the two returned profiles carry
    different creation timestamps as soon as the clock has moved between
    the two creations. *)
Theorem C5_overlapping_calls_create_twice
    (w : World MemoryRepository) (id : Z) (a b : Caller) :
  users (repo w) !! id = None ->
  clock w (4 + ticks w) <> clock w (ticks w) ->
  exists (ua ub : User) (w' : World MemoryRepository),
    racing_GetOrCreateUser id a b w = ((Ok ua, Ok ub), w')
    /\ ua = created w id (c_username a) (c_firstName a) (c_lastName a)
                    (c_langCode a)
    /\ CreatedAt ua = clock w (ticks w)
    /\ CreatedAt ub = clock w (4 + ticks w)
    /\ CreatedAt ub <> CreatedAt ua
    /\ users (repo w') !! id = Some ub
    /\ users (repo w') !! id <> Some ua.
Proof.
  intros Hnone Hclock. unfold racing_GetOrCreateUser, bind.
  rewrite (mem_GetUser_None w id Hnone).
  rewrite (mem_GetUser_None w id Hnone).
  rewrite GetOrCreateUser_after_miss.
  rewrite GetOrCreateUser_after_miss.
  eexists; eexists; eexists. split; [reflexivity|].
  split; [reflexivity|]. split; [reflexivity|]. split; [reflexivity|].
  split; [exact Hclock|]. split; [cbn; apply lookup_insert_eq|].
  cbn. rewrite lookup_insert_eq. intros [= E]. now apply Hclock.
Qed.

(** ** Language detection *)

Lemma byte_ToLower_dash (c : ascii) :
  Ascii.eqb (byte_ToLower c) "-" = Ascii.eqb c "-".
Proof. destruct c as [[] [] [] [] [] [] [] []]; reflexivity. Qed.

Lemma strings_IndexByte_lower_bound (s : string) (c : ascii) :
  (-1 <= strings_IndexByte s c)%Z.
Proof.
  induction s as [|a t IH]; cbn [strings_IndexByte]; [lia|].
  destruct (Ascii.eqb a c); [lia|].
  destruct (Z.eqb_spec (strings_IndexByte t c) (-1)); lia.
Qed.

Lemma lowered_primary_subtag (s : string) :
  (if negb (strings_IndexByte (strings_ToLower s) "-" =? -1)%Z
   then str_take (Z.to_nat (strings_IndexByte (strings_ToLower s) "-"))
                 (strings_ToLower s)
   else strings_ToLower s)
  = strings_ToLower (primary_subtag s).
Proof.
  induction s as [|c t IH]; [reflexivity|].
  cbn [strings_ToLower strings_IndexByte primary_subtag].
  rewrite byte_ToLower_dash. destruct (Ascii.eqb c "-"); [reflexivity|].
  pose proof (strings_IndexByte_lower_bound (strings_ToLower t) "-") as Hlb.
  destruct (Z.eqb_spec (strings_IndexByte (strings_ToLower t) "-") (-1)) as [He|Hne].
  - cbn [Z.eqb negb]. cbn [strings_ToLower]. cbn in IH. now rewrite <- IH.
  - cbn [negb] in IH.
    destruct (Z.eqb_spec (strings_IndexByte (strings_ToLower t) "-" + 1) (-1));
      [lia|].
    cbn [negb strings_ToLower]. rewrite <- IH.
    replace (Z.to_nat (strings_IndexByte (strings_ToLower t) "-" + 1))
      with (S (Z.to_nat (strings_IndexByte (strings_ToLower t) "-"))) by lia.
    reflexivity.
Qed.

(** [DetectLanguage] of the i18n package computes the detection rule. *)
Lemma DetectLanguage_is_detection_rule (code : string) :
  DetectLanguage code = detection_rule code.
Proof.
  unfold DetectLanguage, detection_rule; cbn zeta.
  now rewrite lowered_primary_subtag.
Qed.

(** The manager's [detectLanguage] agrees with the rule on the locale codes
    its tests use. *)
Lemma detectLanguage_on_tested_codes :
  Forall (fun code => detectLanguage code = detection_rule code)
         ["ru"; "ru-RU"; "en"; "en-US"; "fr"; ""; "r"].
Proof. repeat constructor. Qed.

(** The language [GetOrCreateUser] gives a new profile is [detectLanguage]
    of the locale hint. *)
Lemma GetOrCreateUser_new_Language (w : World MemoryRepository) (id : Z)
    (username firstName lastName langCode : string) :
  users (repo w) !! id = None ->
  exists u w',
    GetOrCreateUser id username firstName lastName langCode w = (Ok u, w')
    /\ users (repo w') !! id = Some u
    /\ Language u = detectLanguage langCode.
Proof.
  intros Hnone. rewrite (GetOrCreateUser_new w id _ _ _ _ Hnone).
  eexists; eexists. split; [reflexivity|]. split; [apply lookup_insert_eq | reflexivity].
Qed.

(** C4. On the locale hint ["RU"] the detection rule of the specification,
    and [DetectLanguage] of the i18n package, give ["ru"], while the profile
    [GetOrCreateUser] creates gets ["en"]; on ["rue"] the rule gives ["en"]
    and the created profile gets ["ru"]. *)
Theorem C4_new_profile_language_differs_from_rule :
  forall (clk : nat -> Time) (net : nat -> option error),
    let w := mkWorld NewMemoryRepository clk 0 net 0 [] in
    (exists u w',
        GetOrCreateUser 7 "reader" "Ann" "Lee" "RU" w = (Ok u, w')
        /\ users (repo w') !! 7%Z = Some u
        /\ Language u = "en")
    /\ detection_rule "RU" = "ru"
    /\ DetectLanguage "RU" = "ru"
    /\ (exists u w',
          GetOrCreateUser 7 "reader" "Ann" "Lee" "rue" w = (Ok u, w')
          /\ users (repo w') !! 7%Z = Some u
          /\ Language u = "ru")
    /\ detection_rule "rue" = "en"
    /\ DetectLanguage "rue" = "en".
Proof.
  intros clk net w.
  assert (users (repo w) !! 7%Z = None) as Hnone by apply lookup_empty.
  split.
  { destruct (GetOrCreateUser_new_Language w 7 "reader" "Ann" "Lee" "RU" Hnone)
      as (u & w' & Hrun & Hst & Hl).
    exists u, w'. repeat split; assumption. }
  split; [reflexivity|]. split; [reflexivity|]. split.
  { destruct (GetOrCreateUser_new_Language w 7 "reader" "Ann" "Lee" "rue" Hnone)
      as (u & w' & Hrun & Hst & Hl).
    exists u, w'. repeat split; assumption. }
  split; reflexivity.
Qed.

(** ** The delivery counter *)

Lemma int_wrap_in_range (z : Z) :
  (int_min <= z <= int_max)%Z -> int_wrap z = z.
Proof.
  unfold int_min, int_max, int_wrap. intros Hz.
  rewrite Z.mod_small; lia.
Qed.

Lemma keeps_count_ret {A} (id : Z) (a : A) : keeps_count id (ret a).
Proof. intros w u Hu. exists u. cbn. auto. Qed.

Lemma keeps_count_bind {A B} (id : Z) (m : M MemoryRepository A)
    (k : A -> M MemoryRepository B) :
  keeps_count id m -> (forall a, keeps_count id (k a)) ->
  keeps_count id (bind m k).
Proof.
  intros Hm Hk w u Hu. unfold bind.
  destruct (Hm w u Hu) as (u1 & Hu1 & Hc1).
  destruct (m w) as [a w1]. cbn [snd] in Hu1.
  destruct (Hk a w1 u1 Hu1) as (u2 & Hu2 & Hc2).
  exists u2. split; [exact Hu2 | congruence].
Qed.

Lemma keeps_count_time_Now (id : Z) : keeps_count id time_Now.
Proof. intros w u Hu. exists u. cbn. auto. Qed.

Lemma keeps_count_bot_Send (id : Z) (c : tgbotapi.Chattable) :
  keeps_count id (bot_Send c).
Proof.
  intros w u Hu. exists u. unfold bot_Send.
  destruct (api w (calls w)); cbn; auto.
Qed.

Lemma keeps_count_bot_Request (id : Z) (c : tgbotapi.Chattable) :
  keeps_count id (bot_Request c).
Proof. apply keeps_count_bot_Send. Qed.

Lemma keeps_count_GetUser (id j : Z) : keeps_count id (GetUser j).
Proof.
  intros w u Hu. exists u. cbn. unfold mem_GetUser.
  destruct (users (repo w) !! j); cbn; auto.
Qed.

(** A write to the profile of [j] that keeps its counter. *)
Lemma stored_keeps (id j : Z) (w : World MemoryRepository) (u uj uj' : User) :
  users (repo w) !! id = Some u ->
  users (repo w) !! j = Some uj ->
  BooksSent uj' = BooksSent uj ->
  exists u', users (repo (stored j uj' w)) !! id = Some u'
             /\ BooksSent u' = BooksSent u.
Proof.
  intros Hu Huj Hc. destruct (decide (id = j)) as [->|Hne].
  - exists uj'. split; [apply stored_lookup_eq | congruence].
  - exists u. split; [now rewrite stored_lookup_ne | reflexivity].
Qed.

Lemma keeps_count_UpdatePreferences (id j : Z) (prefs : Preferences) :
  keeps_count id (UpdatePreferences j prefs).
Proof.
  intros w u Hu. destruct (users (repo w) !! j) as [uj|] eqn:Huj.
  - rewrite (mem_UpdatePreferences_Some w j prefs uj Huj). cbn [snd].
    apply (stored_keeps id j w u uj); [assumption | assumption |].
    destruct (negb _), (negb _); reflexivity.
  - rewrite (mem_UpdatePreferences_None w j prefs Huj). exists u. auto.
Qed.

Lemma keeps_count_UpdateLastActive (id j : Z) :
  keeps_count id (UpdateLastActive j).
Proof.
  intros w u Hu. destruct (users (repo w) !! j) as [uj|] eqn:Huj.
  - rewrite (mem_UpdateLastActive_Some w j uj Huj). cbn [snd].
    now apply (stored_keeps id j w u uj).
  - rewrite (mem_UpdateLastActive_None w j Huj). exists u. auto.
Qed.

Lemma keeps_count_IncrementBooksSent_other (id j : Z) :
  j <> id -> keeps_count id (IncrementBooksSent j).
Proof.
  intros Hne w u Hu. destruct (users (repo w) !! j) as [uj|] eqn:Huj.
  - rewrite (mem_IncrementBooksSent_Some w j uj Huj). cbn [snd].
    exists u. split; [now rewrite stored_lookup_ne | reflexivity].
  - rewrite (mem_IncrementBooksSent_None w j Huj). exists u. auto.
Qed.

Lemma keeps_count_GetOrCreateUser (id j : Z)
    (username firstName lastName langCode : string) :
  keeps_count id (GetOrCreateUser j username firstName lastName langCode).
Proof.
  intros w u Hu. destruct (users (repo w) !! j) as [uj|] eqn:Huj.
  - rewrite (GetOrCreateUser_existing w j _ _ _ _ uj Huj). cbn [snd].
    now apply (stored_keeps id j _ u uj).
  - rewrite (GetOrCreateUser_new w j _ _ _ _ Huj). cbn [snd repo users].
    exists u. split; [|reflexivity].
    rewrite lookup_insert_ne; [assumption | congruence].
Qed.

Lemma keeps_count_SetKindleEmail (id j : Z) (email : string) :
  keeps_count id (SetKindleEmail j email).
Proof.
  unfold SetKindleEmail. destruct (ValidateKindleEmail email).
  - apply keeps_count_ret.
  - apply keeps_count_UpdatePreferences.
Qed.

Lemma keeps_count_SetLanguage (id j : Z) (language : string) :
  keeps_count id (SetLanguage j language).
Proof. apply keeps_count_UpdatePreferences. Qed.

Lemma keeps_count_sendMessage (fmt : string -> list Arg -> string) (id : Z)
    (h : Handler) (chatID : Z) (language key : string) (args : list Arg) :
  keeps_count id (sendMessage fmt h chatID language key args).
Proof. apply keeps_count_bot_Send. Qed.

Create HintDb keeps discriminated.
#[local] Hint Resolve keeps_count_ret keeps_count_time_Now keeps_count_bot_Send
  keeps_count_bot_Request keeps_count_GetUser keeps_count_UpdatePreferences
  keeps_count_UpdateLastActive keeps_count_GetOrCreateUser
  keeps_count_SetKindleEmail keeps_count_SetLanguage keeps_count_sendMessage
  : keeps.

(** Walks a handler body: binds, branches and the primitives above. *)
Ltac keeps_step :=
  match goal with
  | |- keeps_count _ (bind _ _) => apply keeps_count_bind; [|intros ?]
  | |- keeps_count _ (match ?x with _ => _ end) => destruct x
  | |- keeps_count _ _ => solve [auto with keeps]
  end.

Section RouterKeepsCount.

Variable fmt_Sprintf : string -> list Arg -> string.
Variable strings_TrimSpace : string -> string.

Lemma keeps_count_handleCommand (id : Z) (h : Handler)
    (message : tgbotapi.Message) (user : User) :
  keeps_count id (handleCommand fmt_Sprintf strings_TrimSpace h message user).
Proof.
  unfold handleCommand, handleStart, handleHelp, handleKindle, handleLanguage,
    handleWhitelist, handleSettings, handleCancel; cbn zeta.
  repeat keeps_step.
Qed.

Lemma keeps_count_handleSearchQuery (id : Z) (h : Handler)
    (message : tgbotapi.Message) (user : User) :
  keeps_count id (handleSearchQuery fmt_Sprintf strings_TrimSpace h message user).
Proof. unfold handleSearchQuery; cbn zeta. repeat keeps_step. Qed.

Lemma keeps_count_HandleUpdate (id : Z) (h : Handler) (update : tgbotapi.Update) :
  keeps_count id (HandleUpdate fmt_Sprintf strings_TrimSpace h update).
Proof.
  unfold HandleUpdate, handleMessage, handleCallbackQuery; cbn zeta.
  repeat first
    [ apply keeps_count_handleCommand
    | apply keeps_count_handleSearchQuery
    | keeps_step ].
Qed.

(** What one operation does to the counter of a stored profile. *)
Lemma run_op_count (id : Z) (o : Op) (w : World MemoryRepository) (u : User) :
  users (repo w) !! id = Some u ->
  let r := run_op fmt_Sprintf strings_TrimSpace o w in
  exists u',
    users (repo (snd r)) !! id = Some u'
    /\ if is_delivery id o
       then fst r = None /\ BooksSent u' = int_wrap (BooksSent u + 1)
       else BooksSent u' = BooksSent u.
Proof.
  intros Hu r. subst r.
  assert (forall m : M MemoryRepository (option error),
             keeps_count id m ->
             exists u', users (repo (snd (m w))) !! id = Some u'
                        /\ BooksSent u' = BooksSent u) as Hkeep.
  { intros m Hm. exact (Hm w u Hu). }
  destruct o as [j|j prefs|j|j|j c|j email|j language|j|h update];
    cbn [run_op is_delivery];
    try (apply Hkeep; repeat keeps_step; fail).
  - destruct (Z.eqb_spec j id) as [->|Hne].
    + rewrite (mem_IncrementBooksSent_Some w id u Hu). cbn [fst snd].
      eexists. split; [apply stored_lookup_eq|]. split; reflexivity.
    + apply Hkeep. now apply keeps_count_IncrementBooksSent_other.
  - unfold RecordBookSent. destruct (Z.eqb_spec j id) as [->|Hne].
    + rewrite (mem_IncrementBooksSent_Some w id u Hu). cbn [fst snd].
      eexists. split; [apply stored_lookup_eq|]. split; reflexivity.
    + apply Hkeep. now apply keeps_count_IncrementBooksSent_other.
  - apply Hkeep. apply keeps_count_HandleUpdate.
Qed.

End RouterKeepsCount.

(** C6 (as amended). Over any run of store, manager and router operations
    other than [SaveUser], every delivery call for a stored [id] succeeds and
    the stored [BooksSent] ends at its initial value plus the number of those
    successful calls, as long as that sum stays within Go's [int]; no other
    operation of the run changes it. *)
Theorem C6_BooksSent_counts_deliveries
    (fmt_Sprintf : string -> list Arg -> string)
    (strings_TrimSpace : string -> string) (id : Z) (ops : list Op) :
  forall (w : World MemoryRepository) (u : User),
    users (repo w) !! id = Some u ->
    (int_min <= BooksSent u)%Z ->
    (BooksSent u + Z.of_nat (delivery_calls id ops) <= int_max)%Z ->
    let r := run fmt_Sprintf strings_TrimSpace ops w in
    List.length (fst r) = List.length ops
    /\ successful_deliveries id ops (fst r) = delivery_calls id ops
    /\ exists u',
         users (repo (snd r)) !! id = Some u'
         /\ BooksSent u' =
            (BooksSent u + Z.of_nat (successful_deliveries id ops (fst r)))%Z.
Proof.
  induction ops as [|o rest IH]; intros w u Hu Hmin Hmax r; subst r.
  - cbn. split; [reflexivity|]. split; [reflexivity|].
    exists u. split; [assumption | lia].
  - cbn [run]. unfold bind, ret.
    destruct (run_op_count fmt_Sprintf strings_TrimSpace id o w u Hu)
      as (u1 & Hu1 & Hstep).
    destruct (run_op fmt_Sprintf strings_TrimSpace o w) as [e w1].
    cbn [fst snd] in Hu1, Hstep. cbn [delivery_calls] in Hmax.
    assert ((int_min <= BooksSent u1)%Z
            /\ (BooksSent u1 + Z.of_nat (delivery_calls id rest) <= int_max)%Z
            /\ BooksSent u1 =
               (BooksSent u
                + Z.of_nat (if is_delivery id o && is_nil e then 1 else 0))%Z
            /\ (if is_delivery id o && is_nil e then 1 else 0)%nat
               = (if is_delivery id o then 1 else 0)%nat)
      as (Hmin1 & Hmax1 & Hcount & Hsucc).
    { destruct (is_delivery id o).
      - destruct Hstep as [-> Hb]. rewrite int_wrap_in_range in Hb by lia.
        cbn. repeat split; lia.
      - cbn. repeat split; lia. }
    specialize (IH w1 u1 Hu1 Hmin1 Hmax1). cbn zeta in IH.
    destruct (run fmt_Sprintf strings_TrimSpace rest w1) as [es w2].
    cbn [fst snd] in *. destruct IH as (Hlen & Hall & u2 & Hu2 & Hb2).
    split; [cbn; now rewrite Hlen|].
    split; [cbn [successful_deliveries delivery_calls]; now rewrite Hall, Hsucc|].
    exists u2. split; [assumption|].
    cbn [successful_deliveries]. rewrite Hb2, Hcount. lia.
Qed.

(** ** I18n.T *)

Section Resolver.

Variable fmt_Sprintf : string -> list Arg -> string.

Lemma lookup_translation_Some (i : I18n) (lang key template : string) :
  lookup_translation i lang key = Some template <->
  exists table, translations i !! lang = Some table /\ table !! key = Some template.
Proof.
  unfold lookup_translation. split.
  - destruct (translations i !! lang) as [table|]; [|discriminate].
    intros Hk. now exists table.
  - intros (table & -> & Hk). exact Hk.
Qed.

(** C7 (as amended). [T] returns the entry of the requested language when
    there is one, otherwise the entry of the default language when there is
    one (with arguments, the entry is passed through [Sprintf]), and the
    key itself, for every argument list, when neither table has it; in that
    last case the result is non-empty whenever the key is non-empty. *)
Theorem C7_T_fallback_chain (i : I18n) (lang key : string) (args : list Arg) :
  (forall template,
      lookup_translation i lang key = Some template ->
      T fmt_Sprintf i lang key args =
      match args with [] => template | _ => fmt_Sprintf template args end)
  /\ (forall template,
         lookup_translation i lang key = None ->
         lookup_translation i (defaultLang i) key = Some template ->
         T fmt_Sprintf i lang key args =
         match args with [] => template | _ => fmt_Sprintf template args end)
  /\ (lookup_translation i lang key = None ->
      lookup_translation i (defaultLang i) key = None ->
      T fmt_Sprintf i lang key args = key
      /\ (key <> "" -> T fmt_Sprintf i lang key args <> "")).
Proof.
  unfold T. split; [|split].
  - intros template ->. now destruct args.
  - intros template -> ->. now destruct args.
  - intros -> ->. split; [reflexivity | auto].
Qed.

End Resolver.

(** ** The store keeps profiles under their own identity *)

Lemma keyed_empty : keyed (users NewMemoryRepository).
Proof. intros k u Hk. cbn in Hk. now rewrite lookup_empty in Hk. Qed.

Lemma keyed_insert (m : gmap Z User) (k : Z) (u : User) :
  keyed m -> TelegramID u = k -> keyed (<[k := u]> m).
Proof.
  intros Hm Hu j v Hj. destruct (decide (j = k)) as [->|Hne].
  - rewrite lookup_insert_eq in Hj. congruence.
  - rewrite lookup_insert_ne in Hj by congruence. now apply Hm.
Qed.

Lemma keyed_SaveUser (w : World MemoryRepository) (user : User) :
  keyed (users (repo w)) -> keyed (users (repo (snd (SaveUser user w)))).
Proof. intros Hk. rewrite mem_SaveUser_eq. cbn. now apply keyed_insert. Qed.

Lemma keyed_UpdatePreferences (w : World MemoryRepository) (id : Z)
    (prefs : Preferences) :
  keyed (users (repo w)) ->
  keyed (users (repo (snd (UpdatePreferences id prefs w)))).
Proof.
  intros Hk. destruct (users (repo w) !! id) as [u|] eqn:Hu.
  - rewrite (mem_UpdatePreferences_Some w id prefs u Hu). cbn.
    apply keyed_insert; [assumption|].
    destruct (negb _), (negb _); cbn; now apply Hk.
  - now rewrite (mem_UpdatePreferences_None w id prefs Hu).
Qed.

Lemma keyed_IncrementBooksSent (w : World MemoryRepository) (id : Z) :
  keyed (users (repo w)) -> keyed (users (repo (snd (IncrementBooksSent id w)))).
Proof.
  intros Hk. destruct (users (repo w) !! id) as [u|] eqn:Hu.
  - rewrite (mem_IncrementBooksSent_Some w id u Hu). cbn.
    apply keyed_insert; [assumption | cbn; now apply Hk].
  - now rewrite (mem_IncrementBooksSent_None w id Hu).
Qed.

Lemma keyed_UpdateLastActive (w : World MemoryRepository) (id : Z) :
  keyed (users (repo w)) -> keyed (users (repo (snd (UpdateLastActive id w)))).
Proof.
  intros Hk. destruct (users (repo w) !! id) as [u|] eqn:Hu.
  - rewrite (mem_UpdateLastActive_Some w id u Hu). cbn.
    apply keyed_insert; [assumption | cbn; now apply Hk].
  - now rewrite (mem_UpdateLastActive_None w id Hu).
Qed.

Lemma keyed_GetOrCreateUser (w : World MemoryRepository) (id : Z)
    (username firstName lastName langCode : string) :
  keyed (users (repo w)) ->
  keyed (users (repo (snd (GetOrCreateUser id username firstName lastName
                                           langCode w)))).
Proof.
  intros Hk. destruct (users (repo w) !! id) as [u|] eqn:Hu.
  - rewrite (GetOrCreateUser_existing w id _ _ _ _ u Hu). cbn.
    apply keyed_insert; [assumption | cbn; now apply Hk].
  - rewrite (GetOrCreateUser_new w id _ _ _ _ Hu). cbn.
    now apply keyed_insert.
Qed.

(** ** The router's replies *)

Lemma bot_Send_accepted {R} (w : World R) (c : tgbotapi.Chattable) :
  api_accepts w -> bot_Send c w = (None, sent c w).
Proof. intros Hacc. unfold bot_Send. now rewrite Hacc. Qed.

Lemma bot_Request_accepted {R} (w : World R) (c : tgbotapi.Chattable) :
  api_accepts w -> bot_Request c w = (None, sent c w).
Proof. apply bot_Send_accepted. Qed.

Lemma api_accepts_sent {R} (w : World R) (c : tgbotapi.Chattable) :
  api_accepts w -> api_accepts (sent c w).
Proof. intros Hacc n. apply Hacc. Qed.

Lemma api_accepts_stored (w : World MemoryRepository) (id : Z) (u : User) :
  api_accepts w -> api_accepts (stored id u w).
Proof. intros Hacc n. apply Hacc. Qed.

Lemma sendMessage_accepted (fmt : string -> list Arg -> string) {R}
    (w : World R) (h : Handler) (chatID : Z)
    (language key : string) (args : list Arg) :
  api_accepts w ->
  sendMessage fmt h chatID language key args w =
  (None, sent (tgbotapi.NewMessage chatID (T fmt (i18n h) language key args)) w).
Proof. intros Hacc. unfold sendMessage. now apply bot_Send_accepted. Qed.

Create HintDb accepts discriminated.
#[local] Hint Resolve api_accepts_sent api_accepts_stored : accepts.

(** What [SetKindleEmail] does when the profile is stored. *)
Lemma SetKindleEmail_stored (w : World MemoryRepository) (id : Z)
    (email : string) (u : User) :
  users (repo w) !! id = Some u ->
  SetKindleEmail id email w =
  match ValidateKindleEmail email with
  | Some _ => (Some ErrInvalidEmail, w)
  | None =>
      (None, stored id (set_UpdatedAt (clock w (ticks w))
                          (if negb (String.eqb email "")
                           then set_KindleEmail email u else u)) w)
  end.
Proof.
  intros Hu. destruct (ValidateKindleEmail email) as [e|] eqn:Hv.
  - apply SetKindleEmail_rejected. congruence.
  - unfold SetKindleEmail. rewrite Hv.
    now rewrite (mem_UpdatePreferences_Some w id _ u Hu).
Qed.

Lemma ValidateKindleEmail_nonempty (email : string) :
  ValidateKindleEmail email = None -> String.eqb email "" = false.
Proof. unfold ValidateKindleEmail. now destruct (String.eqb email ""). Qed.

(** [GetOrCreateUser] on the in-memory store always resolves a profile, which
    is then stored under [id]; it leaves the transport alone. *)
Lemma GetOrCreateUser_resolves (w : World MemoryRepository) (id : Z)
    (username firstName lastName langCode : string) :
  keyed (users (repo w)) ->
  exists (user s : User) (w1 : World MemoryRepository),
    GetOrCreateUser id username firstName lastName langCode w = (Ok user, w1)
    /\ users (repo w1) !! id = Some s
    /\ same_but_LastActive s user
    /\ TelegramID user = id
    /\ KindleEmail user = match users (repo w) !! id with
                          | Some u => KindleEmail u
                          | None => ""
                          end
    /\ api w1 = api w /\ outbox w1 = outbox w
    /\ keyed (users (repo w1)).
Proof.
  intros Hk.
  pose proof (keyed_GetOrCreateUser w id username firstName lastName langCode Hk)
    as Hk1.
  destruct (users (repo w) !! id) as [u|] eqn:Hu.
  - rewrite (GetOrCreateUser_existing w id _ _ _ _ u Hu) in *.
    eexists; eexists; eexists. split; [reflexivity|].
    split; [apply stored_lookup_eq|]. split; [reflexivity|].
    split; [cbn; now apply Hk|]. repeat split; assumption.
  - rewrite (GetOrCreateUser_new w id _ _ _ _ Hu) in *.
    eexists; eexists; eexists. split; [reflexivity|].
    split; [apply lookup_insert_eq|]. split; [reflexivity|].
    repeat split; assumption.
Qed.

Section RouterReplies.

Variable fmt_Sprintf : string -> list Arg -> string.
Variable strings_TrimSpace : string -> string.

Lemma handleSearchQuery_capture (h : Handler) (m : tgbotapi.Message)
    (user u : User) (w : World MemoryRepository) :
  HasKindleEmail user = false ->
  strings_Contains (strings_TrimSpace (tgbotapi.Text m)) "@kindle.com" = true ->
  users (repo w) !! TelegramID user = Some u ->
  api_accepts w ->
  handleSearchQuery fmt_Sprintf strings_TrimSpace h m user w =
  endpoint_outcome fmt_Sprintf h (tgbotapi.ChatID m) user
                   (strings_TrimSpace (tgbotapi.Text m)) u w.
Proof.
  intros Hno Hin Hu Hacc. unfold handleSearchQuery, endpoint_outcome; cbn zeta.
  rewrite Hno, Hin. cbn [negb]. unfold bind.
  rewrite (SetKindleEmail_stored w _ _ u Hu).
  destruct (ValidateKindleEmail _) as [e|] eqn:Hv; cbn iota beta.
  - now rewrite sendMessage_accepted.
  - rewrite (ValidateKindleEmail_nonempty _ Hv). cbn [negb].
    rewrite bot_Send_accepted by auto with accepts.
    now rewrite sendMessage_accepted by auto with accepts.
Qed.

Lemma handleKindle_with_argument (h : Handler) (m : tgbotapi.Message)
    (user u : User) (w : World MemoryRepository) :
  tgbotapi.CommandArguments m <> "" ->
  users (repo w) !! TelegramID user = Some u ->
  api_accepts w ->
  handleKindle fmt_Sprintf strings_TrimSpace h m user w =
  endpoint_outcome fmt_Sprintf h (tgbotapi.ChatID m) user
                   (strings_TrimSpace (tgbotapi.CommandArguments m)) u w.
Proof.
  intros Harg Hu Hacc. unfold handleKindle, endpoint_outcome; cbn zeta.
  destruct (String.eqb_spec (tgbotapi.CommandArguments m) "") as [|_];
    [contradiction|].
  unfold bind. rewrite (SetKindleEmail_stored w _ _ u Hu).
  destruct (ValidateKindleEmail _) as [e|] eqn:Hv; cbn iota beta.
  - cbn [error_eqb]. now rewrite sendMessage_accepted.
  - rewrite (ValidateKindleEmail_nonempty _ Hv). cbn [negb].
    rewrite bot_Send_accepted by auto with accepts.
    now rewrite sendMessage_accepted by auto with accepts.
Qed.

Lemma handleSearchQuery_required (h : Handler) (m : tgbotapi.Message)
    (user : User) (w : World MemoryRepository) :
  HasKindleEmail user = false ->
  strings_Contains (strings_TrimSpace (tgbotapi.Text m)) "@kindle.com" = false ->
  api_accepts w ->
  handleSearchQuery fmt_Sprintf strings_TrimSpace h m user w =
  (None, sent (required_reply fmt_Sprintf h (tgbotapi.ChatID m) user) w).
Proof.
  intros Hno Hin Hacc. unfold handleSearchQuery; cbn zeta.
  rewrite Hno, Hin. cbn [negb]. now rewrite sendMessage_accepted.
Qed.

End RouterReplies.

Section RouterEndpoint.

Variable fmt_Sprintf : string -> list Arg -> string.
Variable strings_TrimSpace : string -> string.

Abbreviation handleMessage' := (handleMessage fmt_Sprintf strings_TrimSpace).

Lemma emits_endpoint_outcome (h : Handler) (chatID : Z) (user u : User)
    (email : string) (w w1 : World MemoryRepository)
    (m : M MemoryRepository (option error)) :
  m w = endpoint_outcome fmt_Sprintf h chatID user email u w1 ->
  api w1 = api w -> outbox w1 = outbox w ->
  users (repo w1) !! TelegramID user = Some u ->
  match ValidateKindleEmail email with
  | None =>
      emits m w [confirmation_reply fmt_Sprintf h chatID user email;
                 reminder_reply fmt_Sprintf h chatID user]
      /\ exists u', users (repo (snd (m w))) !! TelegramID user = Some u'
                    /\ KindleEmail u' = email
  | Some _ =>
      emits m w [invalid_reply fmt_Sprintf h chatID user]
      /\ users (repo (snd (m w))) !! TelegramID user = Some u
  end.
Proof.
  intros Hm Hapi Hout Hu. unfold emits. rewrite Hm. unfold endpoint_outcome.
  destruct (ValidateKindleEmail email); cbn [fst snd].
  - cbn. rewrite Hout, Hapi. repeat split; assumption.
  - cbn. rewrite Hout, Hapi, <- app_assoc. split; [repeat split|].
    eexists; split; [apply lookup_insert_eq | reflexivity].
Qed.

(** On the in-memory store, a non-command message from a sender whose
    profile has no endpoint (or who has no profile yet): when ["@kindle.com"]
    occurs in the trimmed text the router does what it does for the [kindle]
    command with an argument that trims to the same text, namely it calls
    [SetKindleEmail] and, on success, stores the endpoint and sends the
    confirmation and then the whitelist reminder (on rejection, the
    invalid-endpoint reply alone), with no search reply; when it does not
    occur, the only reply is the endpoint-required message and the endpoint
    stays unset. *)
Lemma endpoint_capture_in_memory
    (h : Handler) (m : tgbotapi.Message) (w : World MemoryRepository) :
  keyed (users (repo w)) ->
  api_accepts w ->
  tgbotapi.CommandSplit m = None ->
  (forall u, users (repo w) !! tgbotapi.ID (tgbotapi.From m) = Some u ->
             KindleEmail u = "") ->
  let from := tgbotapi.From m in
  let id := tgbotapi.ID from in
  let chat := tgbotapi.ChatID m in
  let q := strings_TrimSpace (tgbotapi.Text m) in
  exists (user s : User) (w1 : World MemoryRepository),
    GetOrCreateUser id (tgbotapi.FirstName from) (tgbotapi.LastName from)
                    (tgbotapi.UserName from) (tgbotapi.LanguageCode from) w
    = (Ok user, w1)
    /\ users (repo w1) !! id = Some s
    /\ KindleEmail s = ""
    /\ ((exists pre post, q = pre ++ "@kindle.com" ++ post) ->
        (forall a, a <> "" -> strings_TrimSpace a = q ->
                   handleMessage' h m w
                   = handleMessage' h (as_command m "kindle" a) w)
        /\ handleMessage' h m w
           = endpoint_outcome fmt_Sprintf h chat user q s w1
        /\ match ValidateKindleEmail q with
           | None =>
               emits (handleMessage' h m) w
                     [confirmation_reply fmt_Sprintf h chat user q;
                      reminder_reply fmt_Sprintf h chat user]
               /\ exists u', users (repo (snd (handleMessage' h m w))) !! id
                             = Some u'
                             /\ KindleEmail u' = q
           | Some _ =>
               emits (handleMessage' h m) w
                     [invalid_reply fmt_Sprintf h chat user]
               /\ users (repo (snd (handleMessage' h m w))) !! id = Some s
           end)
    /\ (~ (exists pre post, q = pre ++ "@kindle.com" ++ post) ->
        emits (handleMessage' h m) w [required_reply fmt_Sprintf h chat user]
        /\ users (repo (snd (handleMessage' h m w))) !! id = Some s).
Proof.
  intros Hk Hacc Hcmd Hnone from id chat q.
  destruct (GetOrCreateUser_resolves w id (tgbotapi.FirstName from)
              (tgbotapi.LastName from) (tgbotapi.UserName from)
              (tgbotapi.LanguageCode from) Hk)
    as (user & s & w1 & Hrun & Hs & Hsame & Hid & Hmail & Hapi & Hout & Hk1).
  assert (KindleEmail user = "") as Huser.
  { rewrite Hmail. destruct (users (repo w) !! id) as [u|] eqn:Hu; [|reflexivity].
    now apply Hnone. }
  assert (KindleEmail s = "") as Hsmail.
  { rewrite <- Huser. apply (same_but_LastActive_fields _ _ Hsame). }
  assert (HasKindleEmail user = false) as Hno.
  { unfold HasKindleEmail. now rewrite Huser. }
  assert (api_accepts w1) as Hacc1.
  { intros n. rewrite Hapi. apply Hacc. }
  assert (users (repo w1) !! TelegramID user = Some s) as Hs' by now rewrite Hid.
  assert (forall m', tgbotapi.From m' = from ->
            handleMessage' h m' w =
            if tgbotapi.IsCommand m'
            then handleCommand fmt_Sprintf strings_TrimSpace h m' user w1
            else handleSearchQuery fmt_Sprintf strings_TrimSpace h m' user w1)
    as Hdispatch.
  { intros m' Hfrom. unfold handleMessage; cbn zeta. unfold bind.
    rewrite Hfrom. fold id. rewrite Hrun. now destruct (tgbotapi.IsCommand m'). }
  assert (tgbotapi.IsCommand m = false) as Hnc.
  { unfold tgbotapi.IsCommand. now rewrite Hcmd. }
  exists user, s, w1. split; [exact Hrun|]. split; [exact Hs|].
  split; [exact Hsmail|]. split.
  - intros Hsub. apply strings_Contains_substring in Hsub as Hin.
    assert (handleMessage' h m w
            = endpoint_outcome fmt_Sprintf h chat user q s w1) as Hout1.
    { rewrite (Hdispatch m eq_refl), Hnc.
      now apply handleSearchQuery_capture. }
    split; [|split; [exact Hout1|]].
    + intros a Ha Htrim. rewrite Hout1.
      rewrite (Hdispatch (as_command m "kindle" a) eq_refl). cbn [tgbotapi.IsCommand
        as_command tgbotapi.CommandSplit]. unfold handleCommand; cbn zeta.
      cbn [tgbotapi.Command as_command tgbotapi.CommandSplit String.eqb Ascii.eqb
             Bool.eqb].
      rewrite (handleKindle_with_argument _ _ h _ user s w1);
        [|exact Ha|assumption|assumption].
      cbn [tgbotapi.CommandArguments as_command tgbotapi.CommandSplit
             tgbotapi.ChatID]. now rewrite Htrim.
    + pose proof (emits_endpoint_outcome h chat user s q w w1
                    (handleMessage' h m) Hout1 Hapi Hout Hs') as Hem.
      rewrite Hid in Hem. exact Hem.
  - intros Hsub.
    assert (strings_Contains q "@kindle.com" = false) as Hin.
    { destruct (strings_Contains q "@kindle.com") eqn:Hin; [|reflexivity].
      apply strings_Contains_substring in Hin. contradiction. }
    unfold emits. rewrite (Hdispatch m eq_refl), Hnc.
    rewrite (handleSearchQuery_required _ _ h m user w1 Hno Hin Hacc1).
    cbn [fst snd]. cbn. rewrite Hout, Hapi. repeat split. exact Hs.
Qed.

End RouterEndpoint.

Section RouterEndpointErrors.

Variable fmt_Sprintf : string -> list Arg -> string.
Variable strings_TrimSpace : string -> string.

Context {R : Type} `{Repository R}.

Lemma error_eqb_neq (a b : error) : a <> b -> error_eqb a b = false.
Proof.
  intros Hne. destruct a as [| |x], b as [| |y]; try reflexivity;
    try (now contradiction Hne).
  cbn. destruct (String.eqb_spec x y) as [->|]; [now contradiction Hne | reflexivity].
Qed.

(** C8. Over a repository whose preference update fails, the free-text
    capture of an endpoint is not handled as the [kindle] command with that
    endpoint as argument.  For a non-command message of a sender without
    endpoint whose trimmed text has ["@kindle.com"] in it, when
    [SetKindleEmail] returns an error other than [ErrInvalidEmail]: the
    command path returns that error and sends nothing, while the free-text
    path tells the user that the address is invalid and returns [nil]. *)
Theorem C8_capture_differs_from_command_on_store_errors
    (h : Handler) (m : tgbotapi.Message) (a : string) (user : User)
    (err : error) (w w1 w2 : World R) :
  tgbotapi.CommandSplit m = None ->
  (exists pre post,
      strings_TrimSpace (tgbotapi.Text m) = pre ++ "@kindle.com" ++ post) ->
  a <> "" ->
  strings_TrimSpace a = strings_TrimSpace (tgbotapi.Text m) ->
  GetOrCreateUser (tgbotapi.ID (tgbotapi.From m))
                  (tgbotapi.FirstName (tgbotapi.From m))
                  (tgbotapi.LastName (tgbotapi.From m))
                  (tgbotapi.UserName (tgbotapi.From m))
                  (tgbotapi.LanguageCode (tgbotapi.From m)) w = (Ok user, w1) ->
  KindleEmail user = "" ->
  SetKindleEmail (TelegramID user) (strings_TrimSpace (tgbotapi.Text m)) w1
  = (Some err, w2) ->
  err <> ErrInvalidEmail ->
  api w2 (calls w2) = None ->
  handleMessage fmt_Sprintf strings_TrimSpace h (as_command m "kindle" a) w
  = (Some err, w2)
  /\ handleMessage fmt_Sprintf strings_TrimSpace h m w
     = (None, sent (invalid_reply fmt_Sprintf h (tgbotapi.ChatID m) user) w2)
  /\ handleMessage fmt_Sprintf strings_TrimSpace h m w
     <> handleMessage fmt_Sprintf strings_TrimSpace h (as_command m "kindle" a) w.
Proof.
  intros Hcmd Hsub Ha Htrim Hrun Huser Hset Herr Hapi.
  apply strings_Contains_substring in Hsub.
  assert (handleMessage fmt_Sprintf strings_TrimSpace h (as_command m "kindle" a) w
          = (Some err, w2)) as Hcommand.
  { unfold handleMessage; cbn zeta. unfold bind.
    cbn [as_command tgbotapi.From]. rewrite Hrun.
    cbn [tgbotapi.IsCommand as_command tgbotapi.CommandSplit].
    unfold handleCommand; cbn zeta.
    cbn [tgbotapi.Command as_command tgbotapi.CommandSplit String.eqb Ascii.eqb
           Bool.eqb].
    unfold handleKindle; cbn zeta.
    cbn [tgbotapi.CommandArguments as_command tgbotapi.CommandSplit].
    destruct (String.eqb_spec a "") as [|_]; [contradiction|].
    unfold bind. rewrite Htrim, Hset.
    now rewrite (error_eqb_neq err ErrInvalidEmail Herr). }
  assert (handleMessage fmt_Sprintf strings_TrimSpace h m w
          = (None, sent (invalid_reply fmt_Sprintf h (tgbotapi.ChatID m) user) w2))
    as Hinline.
  { unfold handleMessage; cbn zeta. unfold bind. rewrite Hrun.
    unfold tgbotapi.IsCommand. rewrite Hcmd.
    unfold handleSearchQuery; cbn zeta. unfold HasKindleEmail.
    rewrite Huser. cbn [String.eqb negb]. rewrite Hsub. unfold bind.
    rewrite Hset. unfold sendMessage, bot_Send. now rewrite Hapi. }
  split; [exact Hcommand|]. split; [exact Hinline|].
  rewrite Hcommand, Hinline. discriminate.
Qed.

End RouterEndpointErrors.

Section RouterReplyCount.

Variable fmt_Sprintf : string -> list Arg -> string.
Variable strings_TrimSpace : string -> string.

Context {R : Type} `{Repository R}.

Hypothesis Hquiet : quiet_repository R.

Lemma same_transport_refl (w : World R) : same_transport w w.
Proof. repeat split. Qed.

Lemma same_transport_trans (w1 w2 w3 : World R) :
  same_transport w1 w2 -> same_transport w2 w3 -> same_transport w1 w3.
Proof. unfold same_transport. intros (? & ? & ?) (? & ? & ?). repeat split; congruence. Qed.

Lemma same_transport_time_Now (w : World R) :
  same_transport w (snd (time_Now w)).
Proof. repeat split. Qed.

Lemma same_transport_accepts (w w' : World R) :
  same_transport w w' -> api_accepts w -> api_accepts w'.
Proof. intros (Hapi & _) Hacc n. rewrite Hapi. apply Hacc. Qed.

(** [GetOrCreateUser] over a quiet repository leaves the Bot API alone. *)
Lemma same_transport_GetOrCreateUser (w : World R) (id : Z)
    (username firstName lastName langCode : string) :
  same_transport w (snd (GetOrCreateUser id username firstName lastName langCode w)).
Proof.
  unfold GetOrCreateUser, bind.
  pose proof (proj1 (Hquiet w) id) as Hget.
  destruct (GetUser id w) as [r w0]. cbn [snd] in Hget.
  eapply same_transport_trans; [exact Hget|]. clear Hget.
  unfold GetOrCreateUser_after_GetUser. destruct r as [user|err].
  - unfold bind. cbn [time_Now].
    match goal with |- context [UpdateLastActive id ?w1] =>
      pose proof (proj2 (proj2 (proj2 (proj2 (Hquiet w1)))) id) as Hupd;
      destruct (UpdateLastActive id w1) as [e w2] end.
    cbn [snd] in Hupd.
    assert (same_transport w0 w2) as Ht.
    { eapply same_transport_trans; [|exact Hupd]. repeat split. }
    now destruct e.
  - destruct (negb (errors_Is err ErrUserNotFound)); [apply same_transport_refl|].
    unfold bind. cbn [time_Now].
    match goal with |- context [SaveUser ?u ?w1] =>
      pose proof (proj1 (proj2 (Hquiet w1)) u) as Hsave;
      destruct (SaveUser u w1) as [saved w2] end.
    cbn [snd] in Hsave.
    assert (same_transport w0 w2) as Ht.
    { eapply same_transport_trans; [|exact Hsave]. repeat split. }
    now destruct (snd saved).
Qed.

(** [SetKindleEmail] when the preference update succeeds: it returns [nil],
    or [ErrInvalidEmail] without touching the world. *)
Lemma SetKindleEmail_updates (w : World R) (id : Z) (email : string) :
  (forall prefs, fst (UpdatePreferences id prefs w) = None) ->
  exists w2, same_transport w w2
             /\ (SetKindleEmail id email w = (None, w2)
                 \/ SetKindleEmail id email w = (Some ErrInvalidEmail, w2)).
Proof.
  intros Hupd. unfold SetKindleEmail.
  destruct (ValidateKindleEmail_error email) as [Hok|Hbad]; rewrite ?Hok, ?Hbad.
  - specialize (Hupd (mkPreferences email "" "")).
    pose proof (proj1 (proj2 (proj2 (Hquiet w))) id (mkPreferences email "" ""))
      as Ht.
    destruct (UpdatePreferences id (mkPreferences email "" "") w) as [e w2].
    cbn [fst snd] in *. subst e. exists w2. split; [exact Ht | now left].
  - exists w. split; [apply same_transport_refl | now right].
Qed.

Ltac send_all :=
  repeat first
    [ rewrite sendMessage_accepted by auto with accepts
    | rewrite bot_Send_accepted by auto with accepts
    | rewrite bot_Request_accepted by auto with accepts ];
  cbn iota beta.

Ltac emitted :=
  unfold emits; eexists; cbn [fst snd]; cbn;
  rewrite <- ?app_assoc;
  (split; [split; [reflexivity | split; reflexivity] | cbn; lia]).

Ltac emitted_after Ht :=
  let Hapi := fresh "Hapi" in
  let Hout := fresh "Hout" in
  destruct Ht as (Hapi & _ & Hout);
  unfold emits; eexists; cbn [fst snd]; cbn;
  rewrite ?Hout, ?Hapi, <- ?app_assoc;
  (split; [split; [reflexivity | split; reflexivity] | cbn; lia]).

(** Every command is answered with between one and three requests. *)
Lemma replies_handleCommand (h : Handler) (m : tgbotapi.Message)
    (user : User) (w : World R) :
  api_accepts w ->
  (forall prefs, fst (UpdatePreferences (TelegramID user) prefs w) = None) ->
  exists new,
    emits (handleCommand fmt_Sprintf strings_TrimSpace h m user) w new
    /\ (1 <= List.length new <= 3)%nat.
Proof.
  intros Hacc Hupd. unfold emits, handleCommand; cbn zeta.
  destruct (String.eqb _ "start").
  { unfold handleStart; cbn zeta. unfold bind.
    destruct (negb (HasKindleEmail user)); send_all; emitted. }
  destruct (String.eqb _ "help").
  { unfold handleHelp. send_all. emitted. }
  destruct (String.eqb _ "kindle").
  { unfold handleKindle; cbn zeta.
    destruct (String.eqb (tgbotapi.CommandArguments m) "").
    - destruct (HasKindleEmail user); send_all; emitted.
    - destruct (SetKindleEmail_updates w (TelegramID user)
                  (strings_TrimSpace (tgbotapi.CommandArguments m)) Hupd)
        as (w2 & Ht & [Hset|Hset]); unfold bind; rewrite Hset;
        pose proof (same_transport_accepts w w2 Ht Hacc) as Hacc2;
        cbn [error_eqb]; send_all; emitted_after Ht. }
  destruct (String.eqb _ "language").
  { unfold handleLanguage; cbn zeta. send_all. emitted. }
  destruct (String.eqb _ "whitelist").
  { unfold handleWhitelist; cbn zeta. send_all. emitted. }
  destruct (String.eqb _ "settings").
  { unfold handleSettings; cbn zeta. send_all. emitted. }
  destruct (String.eqb _ "cancel").
  { unfold handleCancel. send_all. emitted. }
  send_all. emitted.
Qed.

(** So is every message that is not a command. *)
Lemma replies_handleSearchQuery (h : Handler) (m : tgbotapi.Message)
    (user : User) (w : World R) :
  api_accepts w ->
  (forall prefs, fst (UpdatePreferences (TelegramID user) prefs w) = None) ->
  exists new,
    emits (handleSearchQuery fmt_Sprintf strings_TrimSpace h m user) w new
    /\ (1 <= List.length new <= 3)%nat.
Proof.
  intros Hacc Hupd. unfold emits, handleSearchQuery; cbn zeta.
  destruct (negb (HasKindleEmail user)).
  - destruct (strings_Contains _ "@kindle.com").
    + destruct (SetKindleEmail_updates w (TelegramID user)
                  (strings_TrimSpace (tgbotapi.Text m)) Hupd)
        as (w2 & Ht & [Hset|Hset]); unfold bind; rewrite Hset;
        pose proof (same_transport_accepts w w2 Ht Hacc) as Hacc2;
        send_all; emitted_after Ht.
    + send_all. emitted.
  - unfold bind. send_all. emitted.
Qed.


(** The paths the theorem above leaves aside.  A message without sender
    makes [handleMessage] panic before it does anything. *)
Remark handleMessage_without_sender_panics (h : Handler)
    (message : inbound.Message) (w : World R) :
  inbound.From message = None ->
  inbound.handleMessage fmt_Sprintf strings_TrimSpace h message w = (Panicked, w).
Proof. intros Hnone. unfold inbound.handleMessage. now rewrite Hnone. Qed.

(** When the sender's profile cannot be resolved, the dispatch returns the
    error of [GetOrCreateUser] and sends nothing; [sendError] is not called
    on this path, nor on any other. *)
Remark HandleUpdate_unresolved_sends_nothing (h : Handler)
    (update : inbound.Update) (from : tgbotapi.User) (err : error)
    (w : World R) :
  inbound.sender update = Some from ->
  fst (GetOrCreateUser (tgbotapi.ID from) (tgbotapi.FirstName from)
                       (tgbotapi.LastName from) (tgbotapi.UserName from)
                       (tgbotapi.LanguageCode from) w) = Err err ->
  let r := inbound.HandleUpdate fmt_Sprintf strings_TrimSpace h update w in
  fst r = Returned (Some err) /\ same_transport w (snd r).
Proof.
  intros Hsender Hres r. subst r.
  pose proof (same_transport_GetOrCreateUser w (tgbotapi.ID from)
                (tgbotapi.FirstName from) (tgbotapi.LastName from)
                (tgbotapi.UserName from) (tgbotapi.LanguageCode from)) as Ht.
  destruct (GetOrCreateUser (tgbotapi.ID from) (tgbotapi.FirstName from)
              (tgbotapi.LastName from) (tgbotapi.UserName from)
              (tgbotapi.LanguageCode from) w) as [res w1] eqn:Hrun.
  cbn [fst snd] in *. subst res.
  unfold inbound.sender in Hsender. unfold inbound.HandleUpdate.
  destruct (inbound.UpdateCallbackQuery update) as [query|].
  - injection Hsender as <-.
    unfold inbound.handleCallbackQuery; cbn zeta. unfold bind.
    rewrite Hrun. now split.
  - destruct (inbound.UpdateMessage update) as [message|]; [|discriminate].
    unfold inbound.handleMessage. rewrite Hsender.
    unfold handleMessage; cbn zeta. unfold bind.
    cbn [inbound.with_sender tgbotapi.From]. rewrite Hrun. now split.
Qed.

(** On a query that carries its message, [inbound.handleCallbackQuery] is
    [handleCallbackQuery] on the dereferenced query. *)
Lemma handleCallbackQuery_with_message (h : Handler)
    (query : inbound.CallbackQuery) (message : inbound.Message)
    (from : tgbotapi.User) (w : World R) :
  inbound.QueryMessage query = Some message ->
  inbound.handleCallbackQuery fmt_Sprintf h query w
  = let (e, w') :=
      handleCallbackQuery fmt_Sprintf h
        (tgbotapi.mkCallbackQuery (inbound.QueryID query)
           (inbound.QueryFrom query) (inbound.with_sender message from)
           (inbound.Data query)) w in
    (Returned e, w').
Proof.
  intros Hmsg. unfold inbound.handleCallbackQuery, handleCallbackQuery;
    cbn zeta. unfold bind.
  cbn [tgbotapi.QueryFrom tgbotapi.Data tgbotapi.QueryID tgbotapi.QueryMessage
         inbound.with_sender tgbotapi.ChatID tgbotapi.MessageID].
  destruct (GetOrCreateUser _ _ _ _ _ w) as [[user|err] w1]; [|reflexivity].
  destruct (String.prefix "lang_" (inbound.Data query)).
  - destruct (SetLanguage _ _ w1) as [[err|] w2]; [reflexivity|].
    destruct (bot_Request _ w2) as [[err|] w3]; [reflexivity|].
    rewrite Hmsg. now destruct (bot_Send _ w3).
  - destruct (String.prefix "book_" (inbound.Data query));
      now destruct (bot_Request _ w1).
Qed.

End RouterReplyCount.

(** The in-memory store makes no Bot API call. *)
Lemma MemoryRepository_quiet : quiet_repository MemoryRepository.
Proof.
  intros w. unfold same_transport.
  split; [intros id; cbn; unfold mem_GetUser;
          destruct (users (repo w) !! id); repeat split|].
  split; [intros user; repeat split|].
  split; [intros id prefs; cbn; unfold mem_UpdatePreferences;
          destruct (users (repo w) !! id); repeat split|].
  split; [intros id; cbn; unfold mem_IncrementBooksSent;
          destruct (users (repo w) !! id); repeat split|].
  intros id; cbn; unfold mem_UpdateLastActive;
    destruct (users (repo w) !! id); repeat split.
Qed.

(** ** Worked instances *)

Lemma C2_invalid_candidate_instance :
  users (repo (sample_world sample_store)) !! 7%Z = Some (sample_user "" 0)
  /\ ValidateKindleEmail "resource-wrong@gmail.com" <> None
  /\ fst (SetKindleEmail 7 "resource-wrong@gmail.com" (sample_world sample_store))
     = Some ErrInvalidEmail
  /\ snd (SetKindleEmail 7 "resource-wrong@gmail.com" (sample_world sample_store))
     = sample_world sample_store
  /\ users (repo (snd (SetKindleEmail 7 "resource-wrong@gmail.com"
                                      (sample_world sample_store)))) !! 7%Z
     = Some (sample_user "" 0).
Proof.
  assert (users (repo (sample_world sample_store)) !! 7%Z
          = Some (sample_user "" 0)) as Hu by (vm_compute; reflexivity).
  assert (ValidateKindleEmail "resource-wrong@gmail.com" <> None) as Hbad
      by (vm_compute; discriminate).
  split; [exact Hu|]. split; [exact Hbad|].
  exact (C2_SetKindleEmail_invalid_no_mutation (sample_world sample_store) 7
           "resource-wrong@gmail.com" (sample_user "" 0) Hu Hbad).
Defined.

Lemma C3_language_only_instance :
  users (repo (sample_world {[ 7%Z := sample_user "name@kindle.com" 2 ]})) !! 7%Z
  = Some (sample_user "name@kindle.com" 2)
  /\ exists u',
       users (repo (snd (UpdatePreferences 7 (mkPreferences "" "ru" "")
                           (sample_world {[ 7%Z := sample_user "name@kindle.com" 2 ]}))))
         !! 7%Z = Some u'
       /\ KindleEmail u' = "name@kindle.com"
       /\ Language u' = "ru"
       /\ UpdatedAt u' = sample_clock 0
       /\ BooksSent u' = 2%Z.
Proof.
  assert (users (repo (sample_world {[ 7%Z := sample_user "name@kindle.com" 2 ]}))
            !! 7%Z = Some (sample_user "name@kindle.com" 2)) as Hu
      by (vm_compute; reflexivity).
  split; [exact Hu|].
  destruct (C3_UpdatePreferences_partial_merge _ 7 (mkPreferences "" "ru" "") _ Hu)
    as (_ & u' & Hu' & _ & Hl & Hk & _ & Ht & _ & _ & _ & _ & _ & _ & _ & Hb & _).
  exists u'. split; [exact Hu'|]. split; [exact (Hk eq_refl)|].
  split; [exact Hl|]. split; [exact Ht | exact Hb].
Defined.

Lemma X30_three_calls_instance :
  users (repo (sample_world ∅)) !! 7%Z = None
  /\ exists (u : User) (w1 : World MemoryRepository),
       GetOrCreateUser 7 "reader" "Ann" "Lee" "en-US" (sample_world ∅) = (Ok u, w1)
       /\ dom (users (repo w1)) = {[ 7%Z ]} ∪ dom (users (repo (sample_world ∅)))
       /\ Forall (fun res => exists u', res = Ok u' /\ CreatedAt u' = CreatedAt u)
                 (fst (repeat_GetOrCreateUser 7
                         [mkCaller "reader" "Ann" "Lee" "ru";
                          mkCaller "other" "A" "L" ""] w1)).
Proof.
  assert (users (repo (sample_world ∅)) !! 7%Z = None) as Hnone
      by (vm_compute; reflexivity).
  split; [exact Hnone|].
  destruct (X30_GetOrCreateUser_one_call_after_another (sample_world ∅) 7
              (mkCaller "reader" "Ann" "Lee" "en-US")
              [mkCaller "reader" "Ann" "Lee" "ru"; mkCaller "other" "A" "L" ""]
              Hnone)
    as (u & w1 & Hrun & _ & Hdom & _ & _ & Hall & _).
  exists u, w1. split; [exact Hrun|]. split; [exact Hdom|].
  eapply Forall_impl; [exact Hall|]. cbn beta.
  intros res (u' & Hres & _ & Hc). exists u'. split; assumption.
Defined.

Lemma C5_two_new_callers_instance :
  users (repo (sample_world ∅)) !! 7%Z = None
  /\ clock (sample_world ∅) (4 + ticks (sample_world ∅))
     <> clock (sample_world ∅) (ticks (sample_world ∅))
  /\ exists (ua ub : User) (w' : World MemoryRepository),
       racing_GetOrCreateUser 7 (mkCaller "reader" "Ann" "Lee" "en")
                              (mkCaller "reader" "Ann" "Lee" "en")
                              (sample_world ∅) = ((Ok ua, Ok ub), w')
       /\ CreatedAt ua = 1700000000%Z
       /\ CreatedAt ub = 1700000004%Z
       /\ users (repo w') !! 7%Z = Some ub.
Proof.
  assert (users (repo (sample_world ∅)) !! 7%Z = None) as Hnone
      by (vm_compute; reflexivity).
  assert (clock (sample_world ∅) (4 + ticks (sample_world ∅))
          <> clock (sample_world ∅) (ticks (sample_world ∅))) as Hclock
      by (vm_compute; discriminate).
  split; [exact Hnone|]. split; [exact Hclock|].
  destruct (C5_overlapping_calls_create_twice (sample_world ∅) 7
              (mkCaller "reader" "Ann" "Lee" "en")
              (mkCaller "reader" "Ann" "Lee" "en") Hnone Hclock)
    as (ua & ub & w' & Hrun & _ & Ha & Hb & _ & Hs & _).
  exists ua, ub, w'. split; [exact Hrun|]. split; [exact Ha|].
  split; [exact Hb | exact Hs].
Defined.

Lemma C6_three_deliveries_instance :
  users (repo (sample_world sample_store)) !! 7%Z = Some (sample_user "" 0)
  /\ (int_min <= BooksSent (sample_user "" 0))%Z
  /\ (BooksSent (sample_user "" 0)
      + Z.of_nat (delivery_calls 7
                    [OpRecordBookSent 7; OpSetLanguage 7 "ru"; OpRecordBookSent 7;
                     OpHandleUpdate sample_handler sample_start;
                     OpIncrementBooksSent 7; OpIncrementBooksSent 8])
      <= int_max)%Z
  /\ exists u',
       users (repo (snd (run sample_Sprintf sample_TrimSpace
                           [OpRecordBookSent 7; OpSetLanguage 7 "ru";
                            OpRecordBookSent 7;
                            OpHandleUpdate sample_handler sample_start;
                            OpIncrementBooksSent 7; OpIncrementBooksSent 8]
                           (sample_world sample_store)))) !! 7%Z = Some u'
       /\ BooksSent u' = 3%Z.
Proof.
  assert (users (repo (sample_world sample_store)) !! 7%Z
          = Some (sample_user "" 0)) as Hu by (vm_compute; reflexivity).
  assert (int_min <= BooksSent (sample_user "" 0))%Z as Hmin
      by (vm_compute; discriminate).
  assert (BooksSent (sample_user "" 0)
          + Z.of_nat (delivery_calls 7
                        [OpRecordBookSent 7; OpSetLanguage 7 "ru"; OpRecordBookSent 7;
                         OpHandleUpdate sample_handler sample_start;
                         OpIncrementBooksSent 7; OpIncrementBooksSent 8])
          <= int_max)%Z as Hmax by (vm_compute; discriminate).
  split; [exact Hu|]. split; [exact Hmin|]. split; [exact Hmax|].
  destruct (C6_BooksSent_counts_deliveries sample_Sprintf sample_TrimSpace 7 _
              _ _ Hu Hmin Hmax) as (_ & Hall & u' & Hu' & Hb).
  exists u'. split; [exact Hu'|]. rewrite Hb, Hall. reflexivity.
Defined.

Lemma endpoint_capture_instance :
  handleMessage sample_Sprintf sample_TrimSpace sample_handler
                (sample_message " name@kindle.com " None)
                (sample_world sample_store)
  = handleMessage sample_Sprintf sample_TrimSpace sample_handler
                  (as_command (sample_message " name@kindle.com " None)
                              "kindle" "name@kindle.com")
                  (sample_world sample_store).
Proof.
  assert (keyed (users (repo (sample_world sample_store)))) as Hk.
  { intros k u. cbn. unfold sample_store.
    destruct (decide (k = 7%Z)) as [->|Hne].
    - rewrite lookup_singleton_eq. now intros [= <-].
    - rewrite lookup_singleton_ne by congruence. discriminate. }
  assert (api_accepts (sample_world sample_store)) as Hacc by (intros n; reflexivity).
  assert (forall u, users (repo (sample_world sample_store)) !! 7%Z = Some u ->
                    KindleEmail u = "") as Hnone.
  { intros u. cbn. unfold sample_store. rewrite lookup_singleton_eq.
    now intros [= <-]. }
  destruct (endpoint_capture_in_memory sample_Sprintf sample_TrimSpace
              sample_handler (sample_message " name@kindle.com " None)
              (sample_world sample_store) Hk Hacc eq_refl Hnone)
    as (user & s & w1 & _ & _ & _ & Hpath & _).
  cbn zeta in Hpath.
  destruct Hpath as (Hsame & _); [now exists "name", ""|].
  apply Hsame; [discriminate | reflexivity].
Qed.

Lemma C8_failing_store_instance :
  tgbotapi.CommandSplit (sample_message " name@kindle.com " None) = None
  /\ (exists pre post,
         sample_TrimSpace (tgbotapi.Text (sample_message " name@kindle.com " None))
         = pre ++ "@kindle.com" ++ post)
  /\ fst (SetKindleEmail 7 "name@kindle.com" sample_failing_world) = Some down
  /\ down <> ErrInvalidEmail
  /\ handleMessage sample_Sprintf sample_TrimSpace sample_handler
                   (as_command (sample_message " name@kindle.com " None)
                               "kindle" "name@kindle.com")
                   sample_failing_world
     = (Some down, mkWorld tt sample_clock 1 sample_api 0 [])
  /\ handleMessage sample_Sprintf sample_TrimSpace sample_handler
                   (sample_message " name@kindle.com " None)
                   sample_failing_world
     = (None, mkWorld tt sample_clock 1 sample_api 1
                      [tgbotapi.NewMessage 7 "Invalid email%!(EXTRA <nil>)"]).
Proof.
  assert (exists pre post,
             sample_TrimSpace
               (tgbotapi.Text (sample_message " name@kindle.com " None))
             = pre ++ "@kindle.com" ++ post) as Hsub by (now exists "name", "").
  assert (down <> ErrInvalidEmail) as Herr by discriminate.
  split; [reflexivity|]. split; [exact Hsub|]. split; [reflexivity|].
  split; [exact Herr|].
  assert ("name@kindle.com" <> "") as Ha by discriminate.
  assert (GetOrCreateUser 7 "Ann" "Lee" "reader" "en" sample_failing_world
          = (Ok (set_LastActive (sample_clock 0) (sample_user "" 0)),
             mkWorld tt sample_clock 1 sample_api 0 [])) as Hrun
      by reflexivity.
  assert (SetKindleEmail 7 "name@kindle.com"
                         (mkWorld tt sample_clock 1 sample_api 0 [])
          = (Some down, mkWorld tt sample_clock 1 sample_api 0 [])) as Hset
      by reflexivity.
  destruct (C8_capture_differs_from_command_on_store_errors
              sample_Sprintf sample_TrimSpace sample_handler
              (sample_message " name@kindle.com " None) "name@kindle.com"
              (set_LastActive (sample_clock 0) (sample_user "" 0)) down
              sample_failing_world
              (mkWorld tt sample_clock 1 sample_api 0 [])
              (mkWorld tt sample_clock 1 sample_api 0 [])
              eq_refl Hsub Ha eq_refl Hrun eq_refl Hset Herr eq_refl)
    as (Hcommand & Hinline & _).
  split; [exact Hcommand|]. rewrite Hinline. reflexivity.
Defined.


Lemma C10_touch_instance :
  users (repo (sample_world sample_store)) !! 7%Z = Some (sample_user "" 0)
  /\ exists u',
       users (repo (snd (UpdateLastActive 7 (sample_world sample_store)))) !! 7%Z
       = Some u'
       /\ LastActive u' = sample_clock 0
       /\ UpdatedAt u' = 10%Z
       /\ BooksSent u' = 0%Z.
Proof.
  assert (users (repo (sample_world sample_store)) !! 7%Z
          = Some (sample_user "" 0)) as Hu by (vm_compute; reflexivity).
  split; [exact Hu|].
  destruct (C10_UpdateLastActive_only_LastActive _ 7 _ Hu)
    as (_ & (u' & Hu' & _ & Hl & Hupd & _ & _ & _ & _ & _ & _ & _ & _ & Hb & _) & _).
  exists u'. split; [exact Hu'|]. split; [exact Hl|].
  split; [exact Hupd | exact Hb].
Defined.

(** ** Boundary cases *)

(** A successful delivery call on a profile whose counter is at the largest
    [int] wraps it to the smallest one. *)
Lemma C6_counter_wraps_at_int_max :
  exists u',
    users (repo (sample_world {[ 7%Z := sample_user "" int_max ]})) !! 7%Z
    = Some (sample_user "" int_max)
    /\ fst (RecordBookSent 7 (sample_world {[ 7%Z := sample_user "" int_max ]}))
       = None
    /\ users (repo (snd (RecordBookSent 7
                           (sample_world {[ 7%Z := sample_user "" int_max ]}))))
         !! 7%Z = Some u'
    /\ BooksSent u' = int_min
    /\ BooksSent u' <> (BooksSent (sample_user "" int_max) + 1)%Z
    /\ (BooksSent u' < BooksSent (sample_user "" int_max))%Z.
Proof.
  eexists. split; [vm_compute; reflexivity|]. split; [vm_compute; reflexivity|].
  split; [vm_compute; reflexivity|]. split; [vm_compute; reflexivity|].
  split; [vm_compute; discriminate | vm_compute; reflexivity].
Qed.

(** The empty key, which no table holds, resolves to the empty string; and
    with an argument the result is the formatted entry, not the entry. *)
Lemma C7_empty_key_resolves_to_empty :
  lookup_translation sample_i18n "ru" "" = None
  /\ lookup_translation sample_i18n (defaultLang sample_i18n) "" = None
  /\ T sample_Sprintf sample_i18n "ru" "" [] = ""
  /\ lookup_translation sample_i18n "en" "welcome" = Some "Welcome, %s!"
  /\ T sample_Sprintf sample_i18n "en" "welcome" [ArgString "Ann"]
     = "Welcome, Ann!".
Proof. repeat split; vm_compute; reflexivity. Qed.


(** * Further properties of the store, the manager and the router *)

(** ** Invariants carried through handlers and runs *)

Lemma preserves_ret {A} (I : gmap Z User -> Prop) (a : A) : preserves I (ret a).
Proof. intros w Hw. exact Hw. Qed.

Lemma preserves_bind {A B} (I : gmap Z User -> Prop) (m : M MemoryRepository A)
    (k : A -> M MemoryRepository B) :
  preserves I m -> (forall a, preserves I (k a)) -> preserves I (bind m k).
Proof.
  intros Hm Hk w Hw. unfold bind. specialize (Hm w Hw).
  destruct (m w) as [a w1]. exact (Hk a w1 Hm).
Qed.

Lemma preserves_time_Now (I : gmap Z User -> Prop) : preserves I time_Now.
Proof. intros w Hw. exact Hw. Qed.

Lemma preserves_bot_Send (I : gmap Z User -> Prop) (c : tgbotapi.Chattable) :
  preserves I (bot_Send c).
Proof. intros w Hw. unfold bot_Send. now destruct (api w (calls w)). Qed.

Lemma preserves_bot_Request (I : gmap Z User -> Prop) (c : tgbotapi.Chattable) :
  preserves I (bot_Request c).
Proof. apply preserves_bot_Send. Qed.

Lemma preserves_sendMessage (fmt : string -> list Arg -> string)
    (I : gmap Z User -> Prop) (h : Handler) (chatID : Z) (language key : string)
    (args : list Arg) :
  preserves I (sendMessage fmt h chatID language key args).
Proof. apply preserves_bot_Send. Qed.

Lemma preserves_GetUser (I : gmap Z User -> Prop) (j : Z) :
  preserves I (GetUser j).
Proof.
  intros w Hw. cbn. unfold mem_GetUser. now destruct (users (repo w) !! j).
Qed.

Create HintDb preserves discriminated.
#[local] Hint Resolve preserves_ret preserves_time_Now preserves_bot_Send
  preserves_bot_Request preserves_sendMessage preserves_GetUser : preserves.

Ltac preserves_step :=
  match goal with
  | |- preserves _ (bind _ _) => apply preserves_bind; [|intros ?]
  | |- preserves _ (match ?x with _ => _ end) => destruct x
  | |- preserves _ _ => solve [auto with preserves]
  end.

Section HandlersPreserve.

Variable fmt_Sprintf : string -> list Arg -> string.
Variable strings_TrimSpace : string -> string.
Variable I : gmap Z User -> Prop.

Hypothesis preserves_GetOrCreateUser :
  forall j a b c d, preserves I (GetOrCreateUser j a b c d).
Hypothesis preserves_SetKindleEmail :
  forall j e, preserves I (SetKindleEmail j e).
Hypothesis preserves_SetLanguage :
  forall j l, preserves I (SetLanguage j l).

#[local] Hint Resolve preserves_GetOrCreateUser preserves_SetKindleEmail
  preserves_SetLanguage : preserves.

Lemma preserves_handleCommand (h : Handler) (message : tgbotapi.Message)
    (user : User) :
  preserves I (handleCommand fmt_Sprintf strings_TrimSpace h message user).
Proof.
  unfold handleCommand, handleStart, handleHelp, handleKindle, handleLanguage,
    handleWhitelist, handleSettings, handleCancel; cbn zeta.
  repeat preserves_step.
Qed.

Lemma preserves_handleSearchQuery (h : Handler) (message : tgbotapi.Message)
    (user : User) :
  preserves I (handleSearchQuery fmt_Sprintf strings_TrimSpace h message user).
Proof. unfold handleSearchQuery; cbn zeta. repeat preserves_step. Qed.

Lemma preserves_HandleUpdate (h : Handler) (update : tgbotapi.Update) :
  preserves I (HandleUpdate fmt_Sprintf strings_TrimSpace h update).
Proof.
  unfold HandleUpdate, handleMessage, handleCallbackQuery; cbn zeta.
  repeat first
    [ apply preserves_handleCommand
    | apply preserves_handleSearchQuery
    | preserves_step ].
Qed.

End HandlersPreserve.

Lemma preserves_run (fmt : string -> list Arg -> string)
    (trim : string -> string) (I : gmap Z User -> Prop) (ops : list Op) :
  Forall (fun o => preserves I (run_op fmt trim o)) ops ->
  preserves I (run fmt trim ops).
Proof.
  induction 1 as [|o rest Ho _ IH]; cbn [run].
  - apply preserves_ret.
  - apply preserves_bind; [exact Ho|]. intros e.
    apply preserves_bind; [exact IH|]. intros es. apply preserves_ret.
Qed.

(** *** Invariants that hold of every stored profile *)

Lemma pointwise_insert (Q : Z -> User -> Prop) (m : gmap Z User) (k : Z)
    (u : User) :
  pointwise Q m -> Q k u -> pointwise Q (<[k := u]> m).
Proof.
  intros Hm Hu j v Hj. destruct (decide (j = k)) as [->|Hne].
  - rewrite lookup_insert_eq in Hj. now injection Hj as <-.
  - rewrite lookup_insert_ne in Hj by congruence. now apply Hm.
Qed.

Section PointwiseInvariant.

Variable E : string -> Prop.
Variable Q : Z -> User -> Prop.
Hypothesis Hstable : stable_under_writes E Q.
Hypothesis Hvalid : forall e, ValidateKindleEmail e = None -> E e.

Lemma pointwise_UpdatePreferences (j : Z) (prefs : Preferences) :
  pref_KindleEmail prefs = "" \/ E (pref_KindleEmail prefs) ->
  preserves (pointwise Q) (UpdatePreferences j prefs).
Proof.
  destruct Hstable as (_ & Hupd & _ & Hlang & Hmail & _).
  intros Hadm w Hw. destruct (users (repo w) !! j) as [u|] eqn:Hu.
  - rewrite (mem_UpdatePreferences_Some w j prefs u Hu). cbn.
    apply pointwise_insert; [exact Hw|]. apply Hupd.
    pose proof (Hw j u Hu) as Hq.
    destruct (String.eqb_spec (pref_KindleEmail prefs) "") as [He|He];
      destruct (String.eqb_spec (pref_Language prefs) "") as [Hl|Hl]; cbn [negb];
      auto.
    + apply Hmail; [|exact Hq]. now destruct Hadm.
    + apply Hlang, Hmail; [|exact Hq]. now destruct Hadm.
  - now rewrite (mem_UpdatePreferences_None w j prefs Hu).
Qed.

Lemma pointwise_IncrementBooksSent (j : Z) :
  preserves (pointwise Q) (IncrementBooksSent j).
Proof.
  destruct Hstable as (_ & Hupd & Hcount & _).
  intros w Hw. destruct (users (repo w) !! j) as [u|] eqn:Hu.
  - rewrite (mem_IncrementBooksSent_Some w j u Hu). cbn.
    apply pointwise_insert; [exact Hw|]. apply Hupd, Hcount. exact (Hw j u Hu).
  - now rewrite (mem_IncrementBooksSent_None w j Hu).
Qed.

Lemma pointwise_UpdateLastActive (j : Z) :
  preserves (pointwise Q) (UpdateLastActive j).
Proof.
  destruct Hstable as (Hact & _).
  intros w Hw. destruct (users (repo w) !! j) as [u|] eqn:Hu.
  - rewrite (mem_UpdateLastActive_Some w j u Hu). cbn.
    apply pointwise_insert; [exact Hw|]. apply Hact. exact (Hw j u Hu).
  - now rewrite (mem_UpdateLastActive_None w j Hu).
Qed.

Lemma pointwise_GetOrCreateUser (j : Z) (a b c d : string) :
  preserves (pointwise Q) (GetOrCreateUser j a b c d).
Proof.
  destruct Hstable as (Hact & _ & _ & _ & _ & Hnew).
  intros w Hw. destruct (users (repo w) !! j) as [u|] eqn:Hu.
  - rewrite (GetOrCreateUser_existing w j _ _ _ _ u Hu). cbn.
    apply pointwise_insert; [exact Hw|]. apply Hact. exact (Hw j u Hu).
  - rewrite (GetOrCreateUser_new w j _ _ _ _ Hu). cbn.
    apply pointwise_insert; [exact Hw | apply Hnew].
Qed.

Lemma pointwise_SetKindleEmail (j : Z) (e : string) :
  preserves (pointwise Q) (SetKindleEmail j e).
Proof.
  unfold SetKindleEmail. destruct (ValidateKindleEmail e) eqn:Hv.
  - apply preserves_ret.
  - apply pointwise_UpdatePreferences. right. now apply Hvalid.
Qed.

Lemma pointwise_SetLanguage (j : Z) (l : string) :
  preserves (pointwise Q) (SetLanguage j l).
Proof. apply pointwise_UpdatePreferences. now left. Qed.

Lemma pointwise_run_op (fmt : string -> list Arg -> string)
    (trim : string -> string) (o : Op) :
  op_admits E o -> preserves (pointwise Q) (run_op fmt trim o).
Proof.
  destruct o as [j|j prefs|j|j|j c|j email|j language|j|h update];
    cbn [run_op op_admits]; intros Hadm.
  - apply preserves_bind; [apply preserves_GetUser | intros; apply preserves_ret].
  - now apply pointwise_UpdatePreferences.
  - apply pointwise_IncrementBooksSent.
  - apply pointwise_UpdateLastActive.
  - apply preserves_bind; [apply pointwise_GetOrCreateUser
                          | intros; apply preserves_ret].
  - apply pointwise_SetKindleEmail.
  - apply pointwise_SetLanguage.
  - apply pointwise_IncrementBooksSent.
  - apply preserves_HandleUpdate.
    + apply pointwise_GetOrCreateUser.
    + apply pointwise_SetKindleEmail.
    + apply pointwise_SetLanguage.
Qed.

Lemma pointwise_run (fmt : string -> list Arg -> string)
    (trim : string -> string) (ops : list Op) :
  Forall (op_admits E) ops -> preserves (pointwise Q) (run fmt trim ops).
Proof.
  intros Hadm. apply preserves_run.
  eapply Forall_impl; [exact Hadm|]. intros o. apply pointwise_run_op.
Qed.

End PointwiseInvariant.

(** *** Relations between a stored profile and what it becomes *)

Section RelatedProfile.

Variable Rel : User -> User -> Prop.
Hypothesis Hrel : respected_by_writes Rel.
Variable id : Z.
Variable u0 : User.

Lemma related_insert (m : gmap Z User) (j : Z) (uj uj' : User) :
  stored_related id Rel u0 m -> m !! j = Some uj -> Rel uj uj' ->
  stored_related id Rel u0 (<[j := uj']> m).
Proof.
  destruct Hrel as (_ & Htrans & _).
  intros (u & Hu & Hr) Hj Hstep. destruct (decide (j = id)) as [->|Hne].
  - exists uj'. split; [apply lookup_insert_eq|].
    apply (Htrans _ u); [exact Hr | congruence].
  - exists u. split; [now rewrite lookup_insert_ne | exact Hr].
Qed.

Lemma related_UpdatePreferences (j : Z) (prefs : Preferences) :
  preserves (stored_related id Rel u0) (UpdatePreferences j prefs).
Proof.
  destruct Hrel as (Hrefl & Htrans & _ & Hupd & _ & Hlang & Hmail).
  intros w Hw. destruct (users (repo w) !! j) as [u|] eqn:Hu.
  - rewrite (mem_UpdatePreferences_Some w j prefs u Hu). cbn.
    apply (related_insert _ j u); [exact Hw | exact Hu |].
    eapply Htrans; [|apply Hupd].
    destruct (String.eqb_spec (pref_KindleEmail prefs) "") as [He|He];
      destruct (String.eqb_spec (pref_Language prefs) "") as [Hl|Hl]; cbn [negb];
      auto.
    eapply Htrans; [apply Hmail; exact He | apply Hlang].
  - now rewrite (mem_UpdatePreferences_None w j prefs Hu).
Qed.

Lemma related_IncrementBooksSent (j : Z) :
  preserves (stored_related id Rel u0) (IncrementBooksSent j).
Proof.
  destruct Hrel as (_ & Htrans & _ & Hupd & Hcount & _).
  intros w Hw. destruct (users (repo w) !! j) as [u|] eqn:Hu.
  - rewrite (mem_IncrementBooksSent_Some w j u Hu). cbn.
    apply (related_insert _ j u); [exact Hw | exact Hu |].
    eapply Htrans; [apply Hcount | apply Hupd].
  - now rewrite (mem_IncrementBooksSent_None w j Hu).
Qed.

Lemma related_UpdateLastActive (j : Z) :
  preserves (stored_related id Rel u0) (UpdateLastActive j).
Proof.
  destruct Hrel as (_ & _ & Hact & _).
  intros w Hw. destruct (users (repo w) !! j) as [u|] eqn:Hu.
  - rewrite (mem_UpdateLastActive_Some w j u Hu). cbn.
    apply (related_insert _ j u); [exact Hw | exact Hu | apply Hact].
  - now rewrite (mem_UpdateLastActive_None w j Hu).
Qed.

Lemma related_GetOrCreateUser (j : Z) (a b c d : string) :
  preserves (stored_related id Rel u0) (GetOrCreateUser j a b c d).
Proof.
  destruct Hrel as (_ & _ & Hact & _).
  intros w Hw. destruct (users (repo w) !! j) as [u|] eqn:Hu.
  - rewrite (GetOrCreateUser_existing w j _ _ _ _ u Hu). cbn.
    apply (related_insert _ j u); [exact Hw | exact Hu | apply Hact].
  - rewrite (GetOrCreateUser_new w j _ _ _ _ Hu). cbn.
    destruct Hw as (u & Hid & Hr). exists u. split; [|exact Hr].
    rewrite lookup_insert_ne; [exact Hid | congruence].
Qed.

Lemma related_SetKindleEmail (j : Z) (e : string) :
  preserves (stored_related id Rel u0) (SetKindleEmail j e).
Proof.
  unfold SetKindleEmail. destruct (ValidateKindleEmail e).
  - apply preserves_ret.
  - apply related_UpdatePreferences.
Qed.

Lemma related_run_op (fmt : string -> list Arg -> string)
    (trim : string -> string) (o : Op) :
  preserves (stored_related id Rel u0) (run_op fmt trim o).
Proof.
  destruct o as [j|j prefs|j|j|j c|j email|j language|j|h update]; cbn [run_op].
  - apply preserves_bind; [apply preserves_GetUser | intros; apply preserves_ret].
  - apply related_UpdatePreferences.
  - apply related_IncrementBooksSent.
  - apply related_UpdateLastActive.
  - apply preserves_bind; [apply related_GetOrCreateUser
                          | intros; apply preserves_ret].
  - apply related_SetKindleEmail.
  - apply related_UpdatePreferences.
  - apply related_IncrementBooksSent.
  - apply preserves_HandleUpdate.
    + apply related_GetOrCreateUser.
    + apply related_SetKindleEmail.
    + intros j l. apply related_UpdatePreferences.
Qed.

Lemma related_run (fmt : string -> list Arg -> string)
    (trim : string -> string) (ops : list Op) :
  preserves (stored_related id Rel u0) (run fmt trim ops).
Proof.
  apply preserves_run. apply Forall_forall. intros o _. apply related_run_op.
Qed.

End RelatedProfile.

Lemma keyed_stable : stable_under_writes (fun _ => True) (fun k u => TelegramID u = k).
Proof. repeat split; auto. Qed.

Lemma endpoint_well_formed_stable :
  stable_under_writes (fun e => ValidateKindleEmail e = None)
                      (fun _ u => endpoint_well_formed u).
Proof.
  unfold endpoint_well_formed. repeat split; auto.
Qed.

Lemma same_identity_respected : respected_by_writes same_identity.
Proof.
  unfold respected_by_writes, same_identity.
  split; [intros u; repeat split; reflexivity|].
  split.
  { intros a b c (? & ? & ? & ? & ? & ? & ? & ?) (? & ? & ? & ? & ? & ? & ? & ?).
    repeat split; congruence. }
  repeat split; reflexivity.
Qed.

Lemma endpoint_kept_respected : respected_by_writes endpoint_kept.
Proof.
  unfold respected_by_writes, endpoint_kept.
  split; [auto|]. split; [auto|].
  repeat split; intros; cbn; auto.
Qed.

(** X1. Over any run of store, manager and router operations, and under
    [SaveUser], every profile stays stored under its own [TelegramID]. *)
Theorem X1_profiles_stored_under_TelegramID
    (fmt_Sprintf : string -> list Arg -> string)
    (strings_TrimSpace : string -> string) :
  keyed (users NewMemoryRepository)
  /\ (forall (ops : list Op) (w : World MemoryRepository),
         keyed (users (repo w)) ->
         keyed (users (repo (snd (run fmt_Sprintf strings_TrimSpace ops w)))))
  /\ (forall (user : User) (w : World MemoryRepository),
         keyed (users (repo w)) ->
         keyed (users (repo (snd (SaveUser user w))))).
Proof.
  split; [exact keyed_empty|]. split.
  - intros ops w Hk.
    apply (pointwise_run (fun _ => True) (fun k u => TelegramID u = k)
             keyed_stable (fun _ _ => Logic.I) fmt_Sprintf strings_TrimSpace ops).
    + apply Forall_forall. intros o _. destruct o; cbn; auto.
    + exact Hk.
  - intros user w Hk. now apply keyed_SaveUser.
Qed.

(** X2. When every stored endpoint is unset or passes [ValidateKindleEmail],
    this is still so after any run of operations in which
    [UpdatePreferences], where it is called directly, carries an empty or a
    valid endpoint: the manager and the router never store an endpoint that
    the validation rejects. *)
Theorem X2_stored_endpoints_stay_well_formed
    (fmt_Sprintf : string -> list Arg -> string)
    (strings_TrimSpace : string -> string) (ops : list Op)
    (w : World MemoryRepository) :
  pointwise (fun _ u => endpoint_well_formed u) (users (repo w)) ->
  Forall (op_admits (fun e => ValidateKindleEmail e = None)) ops ->
  pointwise (fun _ u => endpoint_well_formed u)
            (users (repo (snd (run fmt_Sprintf strings_TrimSpace ops w)))).
Proof.
  intros Hw Hadm.
  exact (pointwise_run _ _ endpoint_well_formed_stable (fun e He => He)
           fmt_Sprintf strings_TrimSpace ops Hadm w Hw).
Qed.

(** X3. No operation that works on profiles in place removes a stored
    profile or changes its [ID], [TelegramID], [Username], [FirstName],
    [LastName], [CreatedAt], [IsActive] or [IsBanned]: the names taken at
    creation are never refreshed. *)
Theorem X3_identity_fields_never_change
    (fmt_Sprintf : string -> list Arg -> string)
    (strings_TrimSpace : string -> string) (ops : list Op)
    (w : World MemoryRepository) (id : Z) (u : User) :
  users (repo w) !! id = Some u ->
  exists u',
    users (repo (snd (run fmt_Sprintf strings_TrimSpace ops w))) !! id = Some u'
    /\ ID u' = ID u /\ TelegramID u' = TelegramID u
    /\ Username u' = Username u /\ FirstName u' = FirstName u
    /\ LastName u' = LastName u /\ CreatedAt u' = CreatedAt u
    /\ IsActive u' = IsActive u /\ IsBanned u' = IsBanned u.
Proof.
  intros Hu.
  destruct (related_run same_identity same_identity_respected id u
              fmt_Sprintf strings_TrimSpace ops w) as (u' & Hu' & Hsame).
  { exists u. split; [exact Hu|]. apply same_identity_respected. }
  exists u'. split; [exact Hu' | exact Hsame].
Qed.

(** X4. An endpoint that is set stays set: after any run of in-place
    operations a profile with a non-empty [KindleEmail] still has a non-empty
    one, since an empty endpoint is rejected by [SetKindleEmail] and skipped
    by [UpdatePreferences]. *)
Theorem X4_endpoint_once_set_stays_set
    (fmt_Sprintf : string -> list Arg -> string)
    (strings_TrimSpace : string -> string) (ops : list Op)
    (w : World MemoryRepository) (id : Z) (u : User) :
  users (repo w) !! id = Some u ->
  HasKindleEmail u = true ->
  exists u',
    users (repo (snd (run fmt_Sprintf strings_TrimSpace ops w))) !! id = Some u'
    /\ HasKindleEmail u' = true.
Proof.
  intros Hu Hhas.
  destruct (related_run endpoint_kept endpoint_kept_respected id u
              fmt_Sprintf strings_TrimSpace ops w) as (u' & Hu' & Hkept).
  { exists u. split; [exact Hu|]. unfold endpoint_kept. auto. }
  exists u'. split; [exact Hu'|].
  unfold HasKindleEmail in *. unfold endpoint_kept in Hkept.
  destruct (String.eqb_spec (KindleEmail u) ""); [discriminate|].
  destruct (String.eqb_spec (KindleEmail u') ""); [now elim Hkept | reflexivity].
Qed.

(** ** MemoryRepository: round trip, missing profiles, the counter *)

(** X5. [SaveUser] is an upsert keyed by [TelegramID]: it returns [nil],
    stamps [UpdatedAt] with the clock reading it takes, and a following
    [GetUser] of that identity returns exactly the stamped record, whatever
    was stored there before; no other identity is touched. *)
Theorem X5_SaveUser_then_GetUser (w : World MemoryRepository) (user : User) :
  let saved := set_UpdatedAt (clock w (ticks w)) user in
  let r := SaveUser user w in
  fst r = (saved, None)
  /\ GetUser (TelegramID user) (snd r) = (Ok saved, snd r)
  /\ dom (users (repo (snd r))) = {[ TelegramID user ]} ∪ dom (users (repo w))
  /\ (forall other, other <> TelegramID user ->
         GetUser other (snd r) =
         (fst (GetUser other w), snd r)).
Proof.
  intros saved r. subst r. rewrite mem_SaveUser_eq. cbn [fst snd].
  split; [reflexivity|]. split.
  { apply mem_GetUser_Some. apply stored_lookup_eq. }
  split; [cbn; apply dom_insert_L|].
  intros other Hne. cbn [GetUser MemoryRepository_Repository]. unfold mem_GetUser.
  rewrite stored_lookup_ne by exact Hne.
  now destruct (users (repo w) !! other).
Qed.

(** X6. For an identity without a stored profile every store and manager
    operation that addresses a profile returns [ErrUserNotFound] and leaves
    the world, clock included, exactly as it was; [SetKindleEmail] does so
    only for a valid candidate, since it validates first. *)
Theorem X6_unknown_identity_is_NotFound
    (w : World MemoryRepository) (id : Z) (prefs : Preferences)
    (language email : string) :
  users (repo w) !! id = None ->
  GetUser id w = (Err ErrUserNotFound, w)
  /\ UpdatePreferences id prefs w = (Some ErrUserNotFound, w)
  /\ IncrementBooksSent id w = (Some ErrUserNotFound, w)
  /\ UpdateLastActive id w = (Some ErrUserNotFound, w)
  /\ RecordBookSent id w = (Some ErrUserNotFound, w)
  /\ SetLanguage id language w = (Some ErrUserNotFound, w)
  /\ SetKindleEmail id email w =
     (Some (if is_nil (ValidateKindleEmail email)
            then ErrUserNotFound else ErrInvalidEmail), w).
Proof.
  intros Hnone.
  split; [now apply mem_GetUser_None|].
  split; [now apply mem_UpdatePreferences_None|].
  split; [now apply mem_IncrementBooksSent_None|].
  split; [now apply mem_UpdateLastActive_None|].
  split; [now apply mem_IncrementBooksSent_None|].
  split; [now apply mem_UpdatePreferences_None|].
  destruct (ValidateKindleEmail email) as [e|] eqn:Hv; cbn [is_nil].
  - apply SetKindleEmail_rejected. congruence.
  - unfold SetKindleEmail. rewrite Hv. now apply mem_UpdatePreferences_None.
Qed.

(** X7. On a stored profile whose counter is below the largest [int],
    [IncrementBooksSent] returns [nil], adds one to [BooksSent], stamps
    [UpdatedAt] with the clock reading it takes and changes nothing else, in
    this profile or in any other. *)
Theorem X7_IncrementBooksSent_frame
    (w : World MemoryRepository) (id : Z) (u : User) :
  users (repo w) !! id = Some u ->
  (int_min <= BooksSent u < int_max)%Z ->
  let r := IncrementBooksSent id w in
  fst r = None
  /\ users (repo (snd r)) !! id
     = Some (set_UpdatedAt (clock w (ticks w))
               (set_BooksSent (BooksSent u + 1) u))
  /\ ticks (snd r) = S (ticks w)
  /\ (forall other, other <> id ->
         users (repo (snd r)) !! other = users (repo w) !! other).
Proof.
  intros Hu Hrange r. subst r. rewrite (mem_IncrementBooksSent_Some w id u Hu).
  cbn [fst snd]. rewrite int_wrap_in_range by (unfold int_min, int_max in *; lia).
  split; [reflexivity|]. split; [apply stored_lookup_eq|].
  split; [reflexivity|]. intros other Hne. now apply stored_lookup_ne.
Qed.

(** ** Manager: language detection *)

Lemma primary_subtag_without_dash (s : string) :
  strings_IndexByte s "-" = (-1)%Z -> primary_subtag s = s.
Proof.
  induction s as [|c t IH]; [reflexivity|]. cbn [strings_IndexByte primary_subtag].
  destruct (Ascii.eqb c "-"); [discriminate|].
  pose proof (strings_IndexByte_lower_bound t "-") as Hlb.
  destruct (Z.eqb_spec (strings_IndexByte t "-") (-1)) as [He|Hne]; [|lia].
  intros _. now rewrite IH.
Qed.

Lemma primary_subtag_with_region (lang region : string) :
  strings_IndexByte lang "-" = (-1)%Z ->
  primary_subtag (lang ++ String "-" region) = lang.
Proof.
  induction lang as [|c t IH]; [reflexivity|].
  rewrite str_append_cons. cbn [strings_IndexByte primary_subtag].
  destruct (Ascii.eqb c "-"); [discriminate|].
  pose proof (strings_IndexByte_lower_bound t "-") as Hlb.
  destruct (Z.eqb_spec (strings_IndexByte t "-") (-1)) as [He|Hne]; [|lia].
  intros _. now rewrite IH.
Qed.

(** X8. The manager's [detectLanguage] answers ["ru"] exactly for the codes
    whose first two bytes are ["ru"], whatever follows and without folding
    case, and ["en"] for every other code. *)
Theorem X8_detectLanguage_is_a_prefix_test (langCode : string) :
  (detectLanguage langCode = "ru" <-> exists rest, langCode = "ru" ++ rest)
  /\ ((forall rest, langCode <> "ru" ++ rest) -> detectLanguage langCode = "en").
Proof.
  unfold detectLanguage.
  destruct langCode as [|a [|b t]].
  - split; [split; [discriminate | intros [rest Hr]; discriminate]|reflexivity].
  - split; [split; [discriminate | intros [rest Hr]; discriminate]|reflexivity].
  - cbn [String.length Nat.leb str_take].
    destruct (String.eqb_spec (String a (String b "")) "ru") as [He|Hne].
    + injection He as -> ->. split.
      * split; [intros _; now exists t | reflexivity].
      * intros Hno. now elim (Hno t).
    + split.
      * split; [discriminate|]. intros [rest Hr]. cbn in Hr.
        injection Hr as -> -> _. now elim Hne.
      * reflexivity.
Qed.

(** X9. [DetectLanguage] of the i18n package only ever answers ["en"] or
    ["ru"], and it ignores the region: a code without ['-'] and the same
    code followed by ['-'] and anything else are detected alike. *)
Theorem X9_DetectLanguage_range_and_region :
  (forall code, DetectLanguage code = "en" \/ DetectLanguage code = "ru")
  /\ (forall lang region,
         strings_IndexByte lang "-" = (-1)%Z ->
         DetectLanguage (lang ++ String "-" region) = DetectLanguage lang).
Proof.
  split.
  - intros code. unfold DetectLanguage; cbn zeta.
    match goal with |- context [supportedLanguages ?x] =>
      generalize x; intros lang end.
    unfold supportedLanguages.
    destruct (String.eqb_spec lang "en") as [->|_]; [now left|].
    destruct (String.eqb_spec lang "ru") as [->|_]; [now right | now left].
  - intros lang region Hno. rewrite !DetectLanguage_is_detection_rule.
    unfold detection_rule; cbn zeta.
    now rewrite (primary_subtag_with_region lang region Hno),
                (primary_subtag_without_dash lang Hno).
Qed.

(** ** Manager: profiles *)

(** X10. For an identity without a profile [GetOrCreateUser] on the
    in-memory store returns and stores one and the same new profile: it
    carries the identity in [ID] and [TelegramID] and the names as passed,
    has no endpoint, a zero counter, is active and not banned, and its
    language passes [IsValidLanguage]; four clock readings are taken, of
    which [CreatedAt] is the first, [LastActive] the third and [UpdatedAt]
    the fourth, the stamp of [SaveUser]. *)
Theorem X10_GetOrCreateUser_new_profile
    (w : World MemoryRepository) (id : Z)
    (username firstName lastName langCode : string) :
  users (repo w) !! id = None ->
  exists (u : User) (w' : World MemoryRepository),
    GetOrCreateUser id username firstName lastName langCode w = (Ok u, w')
    /\ users (repo w') !! id = Some u
    /\ ID u = id /\ TelegramID u = id
    /\ Username u = username /\ FirstName u = firstName /\ LastName u = lastName
    /\ HasKindleEmail u = false /\ BooksSent u = 0%Z
    /\ IsActive u = true /\ IsBanned u = false
    /\ IsValidLanguage u = true
    /\ ticks w' = (4 + ticks w)%nat
    /\ CreatedAt u = clock w (ticks w)
    /\ LastActive u = clock w (2 + ticks w)
    /\ UpdatedAt u = clock w (3 + ticks w).
Proof.
  intros Hnone. rewrite (GetOrCreateUser_new w id _ _ _ _ Hnone).
  eexists; eexists. split; [reflexivity|].
  split; [apply lookup_insert_eq|].
  repeat (split; [reflexivity|]).
  split; [|repeat split].
  unfold IsValidLanguage, created, detectLanguage; cbn [Language].
  destruct (2 <=? String.length langCode)%nat; [|reflexivity].
  now destruct (String.eqb (str_take 2 langCode) "ru").
Qed.

(** X11. For an identity with a profile [GetOrCreateUser] pays no attention
    to the names and the locale hint it is given: it returns the stored
    profile with [LastActive] set to the first clock reading and stores it
    with [LastActive] set to the second one, so the returned copy and the
    stored profile can differ in that field only. *)
Theorem X11_GetOrCreateUser_existing_ignores_names
    (w : World MemoryRepository) (id : Z) (u : User)
    (username firstName lastName langCode : string) :
  users (repo w) !! id = Some u ->
  let r := GetOrCreateUser id username firstName lastName langCode w in
  fst r = Ok (set_LastActive (clock w (ticks w)) u)
  /\ users (repo (snd r)) !! id = Some (set_LastActive (clock w (S (ticks w))) u)
  /\ ticks (snd r) = (2 + ticks w)%nat
  /\ forall username' firstName' lastName' langCode',
       GetOrCreateUser id username' firstName' lastName' langCode' w = r.
Proof.
  intros Hu r. subst r. rewrite (GetOrCreateUser_existing w id _ _ _ _ u Hu).
  cbn [fst snd]. split; [reflexivity|]. split; [apply stored_lookup_eq|].
  split; [reflexivity|]. intros a b c d.
  now rewrite (GetOrCreateUser_existing w id _ _ _ _ u Hu).
Qed.

(** X12. On a stored profile [SetKindleEmail] with a candidate the
    validation accepts returns [nil] and stores the candidate: the profile
    becomes the old one with [KindleEmail] replaced and [UpdatedAt] stamped,
    so [HasKindleEmail] holds of it and [Language] is as before. *)
Theorem X12_SetKindleEmail_accepted
    (w : World MemoryRepository) (id : Z) (u : User) (email : string) :
  users (repo w) !! id = Some u ->
  ValidateKindleEmail email = None ->
  let r := SetKindleEmail id email w in
  fst r = None
  /\ (exists u',
         users (repo (snd r)) !! id = Some u'
         /\ u' = set_UpdatedAt (clock w (ticks w)) (set_KindleEmail email u)
         /\ HasKindleEmail u' = true
         /\ Language u' = Language u)
  /\ (forall other, other <> id ->
         users (repo (snd r)) !! other = users (repo w) !! other).
Proof.
  intros Hu Hv r. subst r. rewrite (SetKindleEmail_stored w id email u Hu), Hv.
  rewrite (ValidateKindleEmail_nonempty email Hv). cbn [negb fst snd].
  split; [reflexivity|]. split.
  - eexists. split; [apply stored_lookup_eq|]. split; [reflexivity|].
    split; [|reflexivity]. unfold HasKindleEmail; cbn.
    now rewrite (ValidateKindleEmail_nonempty email Hv).
  - intros other Hne. now apply stored_lookup_ne.
Qed.

(** X13. [SetLanguage] checks nothing: on a stored profile it returns [nil]
    and stores any non-empty language code as given, supported or not, so
    [IsValidLanguage] of the stored profile is whatever the code is; the empty
    code leaves [Language] as it was; in both cases [UpdatedAt] is stamped. *)
Theorem X13_SetLanguage_stores_verbatim
    (w : World MemoryRepository) (id : Z) (u : User) (language : string) :
  users (repo w) !! id = Some u ->
  let r := SetLanguage id language w in
  fst r = None
  /\ exists u',
       users (repo (snd r)) !! id = Some u'
       /\ Language u' = (if String.eqb language "" then Language u else language)
       /\ (language <> "" -> IsValidLanguage u' = supportedLanguages language)
       /\ UpdatedAt u' = clock w (ticks w)
       /\ KindleEmail u' = KindleEmail u.
Proof.
  intros Hu r. subst r. unfold SetLanguage.
  rewrite (mem_UpdatePreferences_Some w id _ u Hu). cbn [fst snd].
  split; [reflexivity|]. eexists. split; [apply stored_lookup_eq|].
  cbn [pref_KindleEmail pref_Language String.eqb negb].
  destruct (String.eqb_spec language "") as [->|Hne]; cbn [negb].
  - repeat split. intros Hno. now elim Hno.
  - repeat split.
Qed.

(** X14. Over any [Repository]: an error of [GetUser] other than
    [ErrUserNotFound] ends [GetOrCreateUser] with that error before anything
    is created; and when [GetUser] finds a profile, [GetOrCreateUser] returns
    it with a fresh [LastActive] whether or not [UpdateLastActive] fails. *)
Theorem X14_GetOrCreateUser_over_any_repository
    {R : Type} `{Repository R} (w w1 : World R) (id : Z)
    (username firstName lastName langCode : string) :
  (forall e, GetUser id w = (Err e, w1) -> e <> ErrUserNotFound ->
             GetOrCreateUser id username firstName lastName langCode w
             = (Err e, w1))
  /\ (forall u, GetUser id w = (Ok u, w1) ->
                fst (GetOrCreateUser id username firstName lastName langCode w)
                = Ok (set_LastActive (clock w1 (ticks w1)) u)).
Proof.
  split.
  - intros e Hget Hne. unfold GetOrCreateUser, bind. rewrite Hget.
    unfold GetOrCreateUser_after_GetUser, errors_Is.
    destruct e; try reflexivity. now elim Hne.
  - intros u Hget. unfold GetOrCreateUser, bind. rewrite Hget.
    unfold GetOrCreateUser_after_GetUser, bind. cbn [time_Now].
    destruct (UpdateLastActive id _) as [[e|] w2]; reflexivity.
Qed.

(** ** pkg/models: display name *)

Lemma str_append_nonempty (a b : string) : a <> "" -> a ++ b <> "".
Proof. destruct a; [congruence | discriminate]. Qed.

(** X15. [GetDisplayName] is never empty: it starts with the first name when
    there is one, is the user name when only that is there, and is ["User"]
    when both are empty, even if a last name is present. *)
Theorem X15_GetDisplayName_never_empty (u : User) :
  GetDisplayName u <> ""
  /\ (FirstName u <> "" -> exists rest, GetDisplayName u = FirstName u ++ rest)
  /\ (FirstName u = "" -> Username u <> "" -> GetDisplayName u = Username u)
  /\ (FirstName u = "" -> Username u = "" -> GetDisplayName u = "User").
Proof.
  unfold GetDisplayName.
  destruct (String.eqb_spec (FirstName u) "") as [Hf|Hf]; cbn [negb].
  - destruct (String.eqb_spec (Username u) "") as [Hn|Hn]; cbn [negb].
    + split; [discriminate|]. split; [intros Hne; contradiction|].
      split; [intros _ Hne; contradiction | reflexivity].
    + split; [assumption|]. split; [intros Hne; contradiction|].
      split; [reflexivity | intros _ He; contradiction].
  - destruct (String.eqb_spec (LastName u) "") as [Hl|Hl]; cbn [negb].
    + split; [assumption|]. split.
      * intros _. exists "". clear. induction (FirstName u) as [|c t IH];
          [reflexivity | now rewrite str_append_cons, <- IH].
      * split; intros He; contradiction.
    + split; [now apply str_append_nonempty|]. split.
      * intros _. eexists; reflexivity.
      * split; intros He; contradiction.
Qed.

(** ** internal/i18n: loaded languages and fallback *)

Lemma map_fst_fmap {A B} (l : list (A * B)) : map fst l = l.*1.
Proof. induction l as [|x l IH]; [reflexivity|]. cbn. now rewrite IH. Qed.

(** X16. [GetSupportedLanguages] lists every language that has a table, each
    exactly once, and nothing else. *)
Theorem X16_GetSupportedLanguages_lists_loaded (i : I18n) :
  NoDup (GetSupportedLanguages i)
  /\ (forall lang, lang ∈ GetSupportedLanguages i
                   <-> is_Some (translations i !! lang))
  /\ List.length (GetSupportedLanguages i) = size (translations i).
Proof.
  unfold GetSupportedLanguages. rewrite map_fst_fmap.
  split; [apply NoDup_fst_map_to_list|]. split.
  - intros lang. rewrite list_elem_of_fmap. split.
    + intros ([l table] & -> & Hin). apply elem_of_map_to_list in Hin.
      now exists table.
    + intros [table Ht]. exists (lang, table). split; [reflexivity|].
      now apply elem_of_map_to_list.
  - rewrite length_fmap. apply length_map_to_list.
Qed.

(** X17. A language that has no entry for the key, in particular a language
    without a table, resolves exactly as the default language does, with the
    same arguments. *)
Theorem X17_T_unknown_language_is_default
    (fmt_Sprintf : string -> list Arg -> string) (i : I18n)
    (lang key : string) (args : list Arg) :
  lookup_translation i lang key = None ->
  T fmt_Sprintf i lang key args = T fmt_Sprintf i (defaultLang i) key args.
Proof.
  intros Hmiss. unfold T. rewrite Hmiss.
  now destruct (lookup_translation i (defaultLang i) key).
Qed.

(** ** Router: what reaches the transport and the store *)

Lemma bound_ret (n : nat) (e : option error) : transport_bound n (ret e).
Proof.
  intros w. cbn. split; [reflexivity|]. split; [lia|].
  exists []. rewrite app_nil_r. repeat split; cbn; lia.
Qed.

Lemma bound_send (n : nat) (c : tgbotapi.Chattable) :
  transport_bound (S n) (bot_Send c).
Proof.
  intros w. unfold bot_Send. destruct (api w (calls w)) as [e|]; cbn.
  - split; [reflexivity|]. split; [lia|]. exists []. rewrite app_nil_r.
    repeat split; cbn; [lia | discriminate].
  - split; [reflexivity|]. split; [lia|]. exists [c].
    repeat split; cbn; lia.
Qed.

Lemma bound_sendMessage (fmt : string -> list Arg -> string) (n : nat)
    (h : Handler) (chatID : Z) (language key : string) (args : list Arg) :
  transport_bound (S n) (sendMessage fmt h chatID language key args).
Proof. apply bound_send. Qed.

Lemma bound_bind_send (n : nat) (c : tgbotapi.Chattable)
    (k : option error -> M MemoryRepository (option error)) :
  (forall err, k (Some err) = ret (Some err)) ->
  transport_bound n (k None) ->
  transport_bound (S n) (bind (bot_Send c) k).
Proof.
  intros Hfail Hnext w. unfold bind, bot_Send.
  destruct (api w (calls w)) as [e|] eqn:Hapi.
  - rewrite Hfail. cbn. split; [reflexivity|]. split; [lia|].
    exists []. rewrite app_nil_r. repeat split; cbn; [lia | discriminate].
  - set (w1 := mkWorld (repo w) (clock w) (ticks w) (api w) (S (calls w))
                       (outbox w ++ [c])).
    destruct (Hnext w1) as (Ha & Hc & new & Ho & Hl & Hnil).
    destruct (k None w1) as [r w2]. cbn [fst snd] in *. subst w1. cbn in *.
    split; [exact Ha|]. split; [lia|]. exists (c :: new).
    split; [now rewrite Ho, <- app_assoc|].
    split; [cbn; lia|]. intros Hr. specialize (Hnil Hr). cbn. lia.
Qed.

Lemma bound_bind_quiet {A} (n : nat) (m : M MemoryRepository A)
    (k : A -> M MemoryRepository (option error)) :
  quiet m -> (forall a, transport_bound n (k a)) ->
  transport_bound n (bind m k).
Proof.
  intros Hq Hk w. unfold bind. destruct (Hq w) as (Ha & Hc & Ho).
  destruct (m w) as [a w1]. cbn [snd] in *.
  destruct (Hk a w1) as (Ha' & Hc' & new & Ho' & Hl & Hnil).
  destruct (k a w1) as [r w2]. cbn [fst snd] in *.
  split; [congruence|]. split; [lia|]. exists new.
  rewrite <- Ho, <- Hc. auto.
Qed.

Lemma quiet_UpdatePreferences (j : Z) (prefs : Preferences) :
  quiet (UpdatePreferences j prefs).
Proof.
  intros w. cbn. unfold mem_UpdatePreferences.
  destruct (users (repo w) !! j); cbn; auto.
Qed.

Lemma quiet_SetKindleEmail (j : Z) (e : string) : quiet (SetKindleEmail j e).
Proof.
  unfold SetKindleEmail. destruct (ValidateKindleEmail e).
  - intros w. cbn. auto.
  - apply quiet_UpdatePreferences.
Qed.

Lemma quiet_SetLanguage (j : Z) (l : string) : quiet (SetLanguage j l).
Proof. apply quiet_UpdatePreferences. Qed.

Lemma quiet_GetOrCreateUser (j : Z) (a b c d : string) :
  quiet (GetOrCreateUser j a b c d).
Proof.
  intros w. destruct (users (repo w) !! j) as [u|] eqn:Hu.
  - rewrite (GetOrCreateUser_existing w j _ _ _ _ u Hu). cbn. auto.
  - rewrite (GetOrCreateUser_new w j _ _ _ _ Hu). cbn. auto.
Qed.

Create HintDb quiet discriminated.
#[local] Hint Resolve quiet_SetKindleEmail quiet_SetLanguage
  quiet_GetOrCreateUser : quiet.

Ltac bound_step :=
  cbn beta iota;
  first
    [ apply bound_bind_send; [intros; reflexivity|]
    | apply bound_bind_quiet; [solve [auto with quiet] | intros ?]
    | apply bound_sendMessage
    | apply bound_send
    | apply bound_ret
    | match goal with
      | |- transport_bound _ (match ?x with _ => _ end) => destruct x
      end ].

Section RouterTransport.

Variable fmt_Sprintf : string -> list Arg -> string.
Variable strings_TrimSpace : string -> string.

Lemma bound_handleCommand (h : Handler) (message : tgbotapi.Message)
    (user : User) :
  transport_bound 3 (handleCommand fmt_Sprintf strings_TrimSpace h message user).
Proof.
  unfold handleCommand, handleStart, handleHelp, handleKindle, handleLanguage,
    handleWhitelist, handleSettings, handleCancel; cbn zeta.
  repeat bound_step.
Qed.

Lemma bound_handleSearchQuery (h : Handler) (message : tgbotapi.Message)
    (user : User) :
  transport_bound 3
    (handleSearchQuery fmt_Sprintf strings_TrimSpace h message user).
Proof. unfold handleSearchQuery; cbn zeta. repeat bound_step. Qed.

(** X18. Whatever the Bot API answers, one [HandleUpdate] makes at most
    three calls to it; the outbox only grows, by the requests that were
    accepted; and when [HandleUpdate] returns [nil] every call it made was
    accepted. *)
Theorem X18_HandleUpdate_transport_bound
    (h : Handler) (update : tgbotapi.Update) (w : World MemoryRepository) :
  let r := HandleUpdate fmt_Sprintf strings_TrimSpace h update w in
  api (snd r) = api w
  /\ (calls w <= calls (snd r) <= calls w + 3)%nat
  /\ exists new,
       outbox (snd r) = (outbox w ++ new)%list
       /\ (List.length new <= calls (snd r) - calls w)%nat
       /\ (fst r = None -> List.length new = (calls (snd r) - calls w)%nat).
Proof.
  revert w.
  change (transport_bound 3 (HandleUpdate fmt_Sprintf strings_TrimSpace h update)).
  unfold HandleUpdate, handleMessage, handleCallbackQuery, bot_Request; cbn zeta.
  repeat first
    [ apply bound_handleCommand
    | apply bound_handleSearchQuery
    | bound_step ].
Qed.

End RouterTransport.

Lemma read_only_ret {A} (a : A) : read_only (ret a : M MemoryRepository A).
Proof. intros w. cbn. auto. Qed.

Lemma read_only_bind {A B} (m : M MemoryRepository A)
    (k : A -> M MemoryRepository B) :
  read_only m -> (forall a, read_only (k a)) -> read_only (bind m k).
Proof.
  intros Hm Hk w. unfold bind. destruct (Hm w) as (Hr & Ht).
  destruct (m w) as [a w1]. cbn [snd] in *.
  destruct (Hk a w1) as (Hr' & Ht'). split; congruence.
Qed.

Lemma read_only_bot_Send (c : tgbotapi.Chattable) :
  read_only (bot_Send c : M MemoryRepository (option error)).
Proof. intros w. unfold bot_Send. destruct (api w (calls w)); cbn; auto. Qed.

Lemma read_only_sendMessage (fmt : string -> list Arg -> string) (h : Handler)
    (chatID : Z) (language key : string) (args : list Arg) :
  read_only (sendMessage fmt h chatID language key args
             : M MemoryRepository (option error)).
Proof. apply read_only_bot_Send. Qed.

Ltac read_only_step :=
  first
    [ apply read_only_bind; [|intros ?]
    | apply read_only_sendMessage
    | apply read_only_bot_Send
    | apply read_only_ret
    | match goal with
      | |- read_only (match ?x with _ => _ end) => destruct x
      end ].

Section RouterCommands.

Variable fmt_Sprintf : string -> list Arg -> string.
Variable strings_TrimSpace : string -> string.

(** X19. A command changes neither the repository nor the clock unless it is
    [kindle] with a non-empty argument that, once trimmed, passes the
    validation: every other command, and a [kindle] that is bare or carries a
    rejected endpoint, only talks to the transport. *)
Theorem X19_commands_leave_store_alone
    (h : Handler) (message : tgbotapi.Message) (user : User)
    (w : World MemoryRepository) :
  tgbotapi.Command message <> "kindle"
  \/ tgbotapi.CommandArguments message = ""
  \/ ValidateKindleEmail (strings_TrimSpace (tgbotapi.CommandArguments message))
     <> None ->
  let r := handleCommand fmt_Sprintf strings_TrimSpace h message user w in
  repo (snd r) = repo w /\ ticks (snd r) = ticks w.
Proof.
  intros Hcase. cbn zeta. revert w.
  change (read_only (handleCommand fmt_Sprintf strings_TrimSpace h message user)).
  unfold handleCommand; cbn zeta.
  destruct (String.eqb _ "start").
  { unfold handleStart; cbn zeta. repeat read_only_step. }
  destruct (String.eqb _ "help"); [apply read_only_sendMessage|].
  destruct (String.eqb_spec (tgbotapi.Command message) "kindle") as [Hk|_].
  { destruct Hcase as [Hne|[Hempty|Hbad]]; [contradiction| |].
    - unfold handleKindle; cbn zeta. rewrite Hempty. cbn [String.eqb].
      destruct (HasKindleEmail user); apply read_only_sendMessage.
    - unfold handleKindle; cbn zeta.
      destruct (String.eqb _ ""); [destruct (HasKindleEmail user);
                                    apply read_only_sendMessage|].
      intros w. unfold bind. rewrite (SetKindleEmail_rejected w _ _ Hbad).
      cbn [error_eqb]. apply read_only_sendMessage. }
  destruct (String.eqb _ "language"); [apply read_only_bot_Send|].
  destruct (String.eqb _ "whitelist"); [apply read_only_bot_Send|].
  destruct (String.eqb _ "settings"); [apply read_only_sendMessage|].
  destruct (String.eqb _ "cancel"); apply read_only_sendMessage.
Qed.

(** X20. With the Bot API accepting the calls, [handleStart] returns [nil]
    after the greeting followed, for a profile without endpoint, by the
    whitelist instructions in Markdown mode and the endpoint prompt, and for
    a profile with endpoint by the search prompt alone; the greeting is
    formatted with the profile's [FirstName]. *)
Theorem X20_handleStart_replies
    (h : Handler) (message : tgbotapi.Message) (user : User)
    (w : World MemoryRepository) :
  api_accepts w ->
  let chat := tgbotapi.ChatID message in
  let say key args := T fmt_Sprintf (i18n h) (Language user) key args in
  handleStart fmt_Sprintf h message user w =
  (None,
   if HasKindleEmail user then
     sent (tgbotapi.NewMessage chat (say "search_prompt" []))
       (sent (tgbotapi.NewMessage chat
                (say "welcome" [ArgString (FirstName user)])) w)
   else
     sent (tgbotapi.NewMessage chat (say "kindle_email_prompt" []))
       (sent (tgbotapi.MessageConfig chat (say "whitelist_instructions" [])
                                     "Markdown" None)
          (sent (tgbotapi.NewMessage chat
                   (say "welcome" [ArgString (FirstName user)])) w))).
Proof.
  intros Hacc chat say. unfold handleStart; cbn zeta. unfold bind.
  rewrite bot_Send_accepted by exact Hacc.
  destruct (HasKindleEmail user); cbn [negb].
  - now rewrite bot_Send_accepted by auto with accepts.
  - rewrite bot_Send_accepted by auto with accepts.
    now rewrite bot_Send_accepted by auto with accepts.
Qed.

(** X21. Once the profile has an endpoint, every non-command text is a
    search query, also a text that contains ["@kindle.com"]: with the Bot
    API accepting the calls the replies are the searching notice, carrying
    the trimmed text, and the not-implemented notice, and neither the
    repository nor the clock changes. *)
Theorem X21_free_text_with_endpoint
    (h : Handler) (message : tgbotapi.Message) (user : User)
    (w : World MemoryRepository) :
  HasKindleEmail user = true ->
  api_accepts w ->
  let chat := tgbotapi.ChatID message in
  let say key args := T fmt_Sprintf (i18n h) (Language user) key args in
  handleSearchQuery fmt_Sprintf strings_TrimSpace h message user w =
  (None,
   sent (tgbotapi.NewMessage chat (say "search_not_implemented" [ArgNil]))
     (sent (tgbotapi.NewMessage chat
              (say "searching"
                   [ArgString (strings_TrimSpace (tgbotapi.Text message))])) w)).
Proof.
  intros Hhas Hacc chat say. unfold handleSearchQuery; cbn zeta.
  rewrite Hhas. cbn [negb]. unfold bind.
  rewrite bot_Send_accepted by exact Hacc.
  now rewrite sendMessage_accepted by auto with accepts.
Qed.

(** X22. The endpoint is stored before the confirmation is sent and is not
    taken back: when the Bot API rejects the confirmation of a [kindle]
    command with a valid argument, [handleKindle] returns that error, makes
    no further call, leaves the outbox as it was, and the profile has the
    new endpoint. *)
Theorem X22_rejected_confirmation_keeps_endpoint
    (h : Handler) (message : tgbotapi.Message) (user u : User)
    (w : World MemoryRepository) (err : error) :
  tgbotapi.CommandArguments message <> "" ->
  ValidateKindleEmail (strings_TrimSpace (tgbotapi.CommandArguments message))
  = None ->
  users (repo w) !! TelegramID user = Some u ->
  api w (calls w) = Some err ->
  let r := handleKindle fmt_Sprintf strings_TrimSpace h message user w in
  fst r = Some err
  /\ calls (snd r) = S (calls w)
  /\ outbox (snd r) = outbox w
  /\ exists u',
       users (repo (snd r)) !! TelegramID user = Some u'
       /\ KindleEmail u'
          = strings_TrimSpace (tgbotapi.CommandArguments message).
Proof.
  intros Harg Hv Hu Hrej r. subst r. unfold handleKindle; cbn zeta.
  destruct (String.eqb_spec (tgbotapi.CommandArguments message) "") as [|_];
    [contradiction|].
  unfold bind. rewrite (SetKindleEmail_stored w _ _ u Hu), Hv.
  rewrite (ValidateKindleEmail_nonempty _ Hv). cbn [negb].
  unfold bot_Send. cbn [api calls stored]. rewrite Hrej. cbn.
  repeat split. eexists. split; [apply lookup_insert_eq | reflexivity].
Qed.

End RouterCommands.

Section RouterSelections.

Variable fmt_Sprintf : string -> list Arg -> string.
Variable strings_TrimSpace : string -> string.

(** What [GetOrCreateUser] leaves in the in-memory store and returns: the
    stored profile with a new [LastActive], or the newly created one. *)
Lemma GetOrCreateUser_outcome (w : World MemoryRepository) (id : Z)
    (username firstName lastName langCode : string) :
  keyed (users (repo w)) ->
  let s := match users (repo w) !! id with
           | Some u => set_LastActive (clock w (S (ticks w))) u
           | None => created w id username firstName lastName langCode
           end in
  exists (user : User) (w1 : World MemoryRepository),
    GetOrCreateUser id username firstName lastName langCode w = (Ok user, w1)
    /\ users (repo w1) = <[id := s]> (users (repo w))
    /\ same_but_LastActive s user
    /\ TelegramID user = id
    /\ api w1 = api w /\ outbox w1 = outbox w.
Proof.
  intros Hk s. subst s. destruct (users (repo w) !! id) as [u|] eqn:Hu.
  - rewrite (GetOrCreateUser_existing w id _ _ _ _ u Hu).
    eexists; eexists. split; [reflexivity|]. split; [reflexivity|].
    split; [reflexivity|]. split; [cbn; now apply Hk|]. now split.
  - rewrite (GetOrCreateUser_new w id _ _ _ _ Hu).
    eexists; eexists. split; [reflexivity|]. split; [reflexivity|].
    split; [reflexivity|]. split; [reflexivity|]. now split.
Qed.


(** X24. The profile [handleMessage] creates for a sender without one takes
    the sender's first name as [Username], the last name as [FirstName] and
    the user name as [LastName], and keeps them through the dispatch: the
    three names are passed to [GetOrCreateUser] in an order other than the
    order of its parameters. *)
Theorem X24_handleMessage_new_profile_names
    (h : Handler) (message : tgbotapi.Message) (w : World MemoryRepository) :
  users (repo w) !! tgbotapi.ID (tgbotapi.From message) = None ->
  exists u',
    users (repo (snd (handleMessage fmt_Sprintf strings_TrimSpace h message w)))
      !! tgbotapi.ID (tgbotapi.From message) = Some u'
    /\ Username u' = tgbotapi.FirstName (tgbotapi.From message)
    /\ FirstName u' = tgbotapi.LastName (tgbotapi.From message)
    /\ LastName u' = tgbotapi.UserName (tgbotapi.From message)
    /\ TelegramID u' = tgbotapi.ID (tgbotapi.From message).
Proof.
  intros Hnone. set (from := tgbotapi.From message) in *.
  set (u0 := created w (tgbotapi.ID from) (tgbotapi.FirstName from)
               (tgbotapi.LastName from) (tgbotapi.UserName from)
               (tgbotapi.LanguageCode from)).
  assert (stored_related (tgbotapi.ID from) same_identity u0
            (users (repo (snd (handleMessage fmt_Sprintf strings_TrimSpace h
                                             message w))))) as Hrel.
  { unfold handleMessage; cbn zeta. unfold bind. fold from.
    rewrite (GetOrCreateUser_new w _ _ _ _ _ Hnone). fold u0.
    assert (forall m : M MemoryRepository (option error),
               preserves (stored_related (tgbotapi.ID from) same_identity u0) m ->
               forall w1, users (repo w1) !! tgbotapi.ID from = Some u0 ->
                          stored_related (tgbotapi.ID from) same_identity u0
                            (users (repo (snd (m w1))))) as Hkeep.
    { intros m Hm w1 Hw1. apply Hm. exists u0.
      split; [exact Hw1 | unfold same_identity; repeat split]. }
    destruct (tgbotapi.IsCommand message).
    - apply Hkeep; [|apply lookup_insert_eq].
      apply preserves_handleCommand.
      intros j e. apply (related_SetKindleEmail _ same_identity_respected).
    - apply Hkeep; [|apply lookup_insert_eq].
      apply preserves_handleSearchQuery.
      intros j e. apply (related_SetKindleEmail _ same_identity_respected). }
  destruct Hrel as (u' & Hu' & (_ & Htid & Hun & Hfn & Hln & _)).
  exists u'. split; [exact Hu'|]. repeat split; assumption.
Qed.

End RouterSelections.

(** ** Book.FormatSize: the unit loop *)

Lemma scale_loop_invariant (size : Z) (fuel : nat) :
  forall n div exp : Z,
    (size < 2 ^ 63)%Z ->
    (1 <= n < 1024 ^ Z.of_nat fuel)%Z ->
    (0 <= exp)%Z ->
    div = (1024 ^ (exp + 1))%Z ->
    (div * n <= size < div * (n + 1))%Z ->
    exists n' div' exp',
      Book.scale_loop fuel n div exp = (n', div', exp')
      /\ (1 <= n' < 1024)%Z
      /\ (0 <= exp')%Z
      /\ div' = (1024 ^ (exp' + 1))%Z
      /\ (div' * n' <= size < div' * (n' + 1))%Z.
Proof.
  induction fuel as [|fuel IH]; intros n div exp Hsize Hn Hexp Hdiv Hbound.
  - cbn in Hn. lia.
  - cbn [Book.scale_loop]. unfold Book.unit.
    destruct (Z.geb_spec n 1024) as [Hge|Hlt].
    + assert (0 < div)%Z as Hdpos by (subst div; apply Z.pow_pos_nonneg; lia).
      rewrite Z.quot_div_nonneg by lia.
      pose proof (Z.div_mod n 1024 ltac:(lia)) as Hdm.
      pose proof (Z.mod_pos_bound n 1024 ltac:(lia)) as Hmod.
      assert (1 <= n / 1024)%Z as Hq by (apply Z.div_le_lower_bound; lia).
      assert (div * 1024 <= size)%Z as Hfit by nia.
      rewrite (int_wrap_in_range (div * 1024))
        by (unfold int_min, int_max; lia).
      assert (exp + 1 <= 6)%Z as Hexp6.
      { destruct (Z_le_gt_dec (exp + 1) 6) as [|Hbig]; [assumption|].
        assert (1024 ^ 7 <= 1024 ^ (exp + 1))%Z
          by (apply Z.pow_le_mono_r; lia).
        change (1024 ^ 7)%Z with 1180591620717411303424%Z in *.
        change (2 ^ 63)%Z with 9223372036854775808%Z in *. nia. }
      rewrite (int_wrap_in_range (exp + 1))
        by (unfold int_min, int_max; lia).
      apply IH; try lia.
      * split; [lia|].
        apply Z.div_lt_upper_bound; [lia|].
        replace (1024 * 1024 ^ Z.of_nat fuel)%Z
          with (1024 ^ Z.of_nat (S fuel))%Z; [lia|].
        rewrite Nat2Z.inj_succ, Z.pow_succ_r by lia. reflexivity.
      * subst div. rewrite (Z.pow_add_r 1024 (exp + 1) 1) by lia.
        reflexivity.
      * nia.
    + exists n, div, exp. repeat split; try lia; assumption.
Qed.

(** X25. For every [int64] size of at least 1024 bytes the unit loop of
    [FormatSize] stops by itself with an index between 0 and 5, so the
    lookup in ["KMGTPE"] is always in range, with the divisor
    [1024 ^ (index + 1)] computed without overflow, and with the size at
    least one and less than 1024 divisors; below 1024 bytes, negative sizes
    included, the size is printed in bytes. *)
Theorem X25_FormatSize_unit_in_range (b : Book.t) :
  (- 2 ^ 63 <= Book.Size b < 2 ^ 63)%Z ->
  if (Book.Size b <? 1024)%Z then Book.FormatSize_scale b = None
  else exists n div exp,
      Book.FormatSize_scale b = Some (n, div, exp)
      /\ (0 <= exp <= 5)%Z
      /\ (1 <= n < 1024)%Z
      /\ div = (1024 ^ (exp + 1))%Z
      /\ (div <= Book.Size b < 1024 * div)%Z.
Proof.
  intros Hrange. unfold Book.FormatSize_scale, Book.unit.
  destruct (Z.ltb_spec (Book.Size b) 1024) as [Hlt|Hge]; [reflexivity|].
  assert (1 <= Z.quot (Book.Size b) 1024 < 1024 ^ Z.of_nat 64)%Z as Hn.
  { rewrite Z.quot_div_nonneg by lia. split.
    - apply Z.div_le_lower_bound; lia.
    - apply Z.div_lt_upper_bound; [lia|].
      assert (2 ^ 63 <= 1024 * 1024 ^ Z.of_nat 64)%Z by (vm_compute; discriminate).
      lia. }
  assert (1024 * Z.quot (Book.Size b) 1024 <= Book.Size b
          < 1024 * (Z.quot (Book.Size b) 1024 + 1))%Z as Hb0.
  { rewrite Z.quot_div_nonneg by lia.
    pose proof (Z.div_mod (Book.Size b) 1024 ltac:(lia)).
    pose proof (Z.mod_pos_bound (Book.Size b) 1024 ltac:(lia)). lia. }
  destruct (scale_loop_invariant (Book.Size b) 64
              (Z.quot (Book.Size b) 1024) 1024 0
              ltac:(lia) Hn ltac:(lia) eq_refl Hb0) as
      (n & div & exp & Hrun & Hn' & Hexp & Hdiv & Hbound).
  exists n, div, exp. rewrite Hrun. split; [reflexivity|].
  assert (0 < div)%Z as Hdpos by (subst div; apply Z.pow_pos_nonneg; lia).
  assert (exp + 1 <= 6)%Z.
  { destruct (Z_le_gt_dec (exp + 1) 6) as [|Hbig]; [assumption|].
    assert (1024 ^ 7 <= 1024 ^ (exp + 1))%Z by (apply Z.pow_le_mono_r; lia).
    change (1024 ^ 7)%Z with 1180591620717411303424%Z in *.
    change (2 ^ 63)%Z with 9223372036854775808%Z in *. nia. }
  repeat split; try lia; try assumption; nia.
Qed.

(** ** config.Load *)

Lemma getEnvOrDefault_nonempty (env : gmap string string) (key dflt : string) :
  dflt <> "" -> getEnvOrDefault env key dflt <> "".
Proof.
  intros Hd. unfold getEnvOrDefault; cbn zeta.
  destruct (String.eqb_spec (os_Getenv env key) ""); cbn [negb]; assumption.
Qed.

(** X26. A configuration that [Load] returns always has a bot token, a
    database type among ["memory"], ["postgres"] and ["cosmos"] with the
    four settings of the chosen database all present, a webhook URL when the
    mode is ["webhook"], and non-empty mode, database type, database port,
    SSL mode, log level and port. *)
Theorem X26_Load_result_is_complete (dotenv env : gmap string string)
    (cfg : Config) :
  Load dotenv env = Ok cfg ->
  TelegramBotToken cfg <> ""
  /\ (BotMode cfg = "webhook" -> WebhookURL cfg <> "")
  /\ (DBType cfg = "memory" \/ DBType cfg = "postgres" \/ DBType cfg = "cosmos")
  /\ (DBType cfg = "postgres" ->
      DBHost cfg <> "" /\ DBName cfg <> "" /\ DBUser cfg <> ""
      /\ DBPassword cfg <> "")
  /\ (DBType cfg = "cosmos" ->
      CosmosEndpoint cfg <> "" /\ CosmosKey cfg <> ""
      /\ CosmosDatabase cfg <> "" /\ CosmosContainer cfg <> "")
  /\ BotMode cfg <> "" /\ DBPort cfg <> "" /\ DBSSLMode cfg <> ""
  /\ LogLevel cfg <> "" /\ Port cfg <> "".
Proof.
  unfold Load; cbn zeta. generalize (godotenv_Load dotenv env) as merged.
  intros merged.
  set (c := mkConfig _ _ _ _ _ _ _ _ _ _ _ _ _ _ _ _ _ _ _ _).
  assert (BotMode c <> "" /\ DBPort c <> "" /\ DBSSLMode c <> ""
          /\ LogLevel c <> "" /\ Port c <> "") as Hdefaults.
  { subst c; cbn. repeat split; apply getEnvOrDefault_nonempty; discriminate. }
  destruct (String.eqb_spec (TelegramBotToken c) "") as [|Htok]; [discriminate|].
  destruct (String.eqb_spec (BotMode c) "webhook") as [Hmode|Hmode];
    destruct (String.eqb_spec (WebhookURL c) "") as [Hurl|Hurl]; cbn [andb];
    try discriminate.
  all: destruct (String.eqb_spec (DBType c) "memory") as [Hmem|Hmem].
  all: try (intros [= <-]; split; [assumption|]; split; [congruence|];
            split; [now left|]; split; [congruence|]; split; [congruence|];
            exact Hdefaults).
  all: destruct (String.eqb_spec (DBType c) "postgres") as [Hpg|Hpg].
  all: try (destruct (String.eqb_spec (DBHost c) "");
            destruct (String.eqb_spec (DBName c) "");
            destruct (String.eqb_spec (DBUser c) "");
            destruct (String.eqb_spec (DBPassword c) ""); cbn [orb];
            try discriminate;
            intros [= <-]; split; [assumption|]; split; [congruence|];
            split; [now right; left|]; split; [now repeat split|];
            split; [congruence|]; exact Hdefaults).
  all: destruct (String.eqb_spec (DBType c) "cosmos") as [Hcos|Hcos];
    [|discriminate].
  all: destruct (String.eqb_spec (CosmosEndpoint c) "");
    destruct (String.eqb_spec (CosmosKey c) "");
    destruct (String.eqb_spec (CosmosDatabase c) "");
    destruct (String.eqb_spec (CosmosContainer c) ""); cbn [orb];
    try discriminate;
    intros [= <-]; split; [assumption|]; split; [congruence|];
    split; [now right; right|]; split; [congruence|];
    split; [now repeat split|]; exact Hdefaults.
Qed.

Lemma os_Getenv_delete_empty (dotenv env : gmap string string)
    (key k : string) :
  env !! key = Some "" ->
  os_Getenv dotenv key = "" ->
  os_Getenv (godotenv_Load dotenv (delete key env)) k
  = os_Getenv (godotenv_Load dotenv env) k.
Proof.
  intros Hempty Hfile. unfold os_Getenv, godotenv_Load in *.
  destruct (decide (k = key)) as [->|Hne].
  - rewrite lookup_union_r by apply lookup_delete_eq.
    rewrite (lookup_union_Some_l env dotenv key "" Hempty). exact Hfile.
  - rewrite !lookup_union. now rewrite lookup_delete_ne by congruence.
Qed.

(** X27. A variable that the process environment sets to the empty string
    counts as unset, as long as the [.env] file gives it no value either:
    taking it out of the process environment then changes nothing in what
    [Load] returns, be it the configuration or the error.  (When the file
    gives it a value, the empty process variable hides that value and the
    removed one lets it through.) *)
Theorem X27_Load_empty_value_is_unset (dotenv env : gmap string string)
    (key : string) :
  env !! key = Some "" ->
  os_Getenv dotenv key = "" ->
  Load dotenv (delete key env) = Load dotenv env.
Proof.
  intros Hempty Hfile. unfold Load, getEnvOrDefault; cbn zeta.
  now rewrite !(os_Getenv_delete_empty dotenv env key _ Hempty Hfile).
Qed.

(** An empty process variable hides the value the [.env] file gives it:
    with the token set to the empty string [Load] fails, and with the
    variable removed it takes the token of the file. *)
Remark Load_empty_value_hides_dotenv :
  Load sample_dotenv {[ "TELEGRAM_BOT_TOKEN" := "" ]}
  = Err (ErrOther "TELEGRAM_BOT_TOKEN is required")
  /\ exists cfg,
       Load sample_dotenv (delete "TELEGRAM_BOT_TOKEN"
                                  {[ "TELEGRAM_BOT_TOKEN" := "" ]}) = Ok cfg
       /\ TelegramBotToken cfg = "token of the file".
Proof.
  split; [vm_compute; reflexivity|].
  eexists. split; vm_compute; reflexivity.
Qed.

Section RouterCallbacks.

Variable fmt_Sprintf : string -> list Arg -> string.
Variable strings_TrimSpace : string -> string.

(** X28. No dispatch of the router records a delivery: whatever the update,
    a book selection included, every stored profile keeps its [BooksSent]. *)
Theorem X28_router_never_counts_a_delivery
    (h : Handler) (update : tgbotapi.Update) (w : World MemoryRepository)
    (id : Z) (u : User) :
  users (repo w) !! id = Some u ->
  exists u',
    users (repo (snd (HandleUpdate fmt_Sprintf strings_TrimSpace h update w)))
      !! id = Some u'
    /\ BooksSent u' = BooksSent u.
Proof.
  intros Hu.
  exact (keeps_count_HandleUpdate fmt_Sprintf strings_TrimSpace id h update w u Hu).
Qed.


End RouterCallbacks.

(** ** Worked instances of the further properties *)

Lemma sample_store_lookup (k : Z) (u : User) :
  sample_store !! k = Some u -> k = 7%Z /\ u = sample_user "" 0.
Proof.
  unfold sample_store. destruct (decide (k = 7%Z)) as [->|Hne].
  - rewrite lookup_singleton_eq. now intros [= <-].
  - rewrite lookup_singleton_ne by congruence. discriminate.
Qed.

Lemma sample_store_keyed : keyed (users (repo (sample_world sample_store))).
Proof. intros k u Hk. now apply sample_store_lookup in Hk as [-> ->]. Qed.

Lemma X2_sample_run_instance :
  pointwise (fun _ u => endpoint_well_formed u)
            (users (repo (sample_world sample_store)))
  /\ Forall (op_admits (fun e => ValidateKindleEmail e = None)) sample_ops
  /\ pointwise (fun _ u => endpoint_well_formed u)
       (users (repo (snd (run sample_Sprintf sample_TrimSpace sample_ops
                              (sample_world sample_store))))).
Proof.
  assert (pointwise (fun _ u => endpoint_well_formed u)
            (users (repo (sample_world sample_store)))) as Hw.
  { intros k u Hk. apply sample_store_lookup in Hk as [-> ->]. now left. }
  assert (Forall (op_admits (fun e => ValidateKindleEmail e = None)) sample_ops)
    as Hadm.
  { unfold sample_ops. repeat constructor. }
  split; [exact Hw|]. split; [exact Hadm|].
  exact (X2_stored_endpoints_stay_well_formed sample_Sprintf sample_TrimSpace
           sample_ops (sample_world sample_store) Hw Hadm).
Defined.

Lemma X3_sample_run_instance :
  users (repo (sample_world sample_store)) !! 7%Z = Some (sample_user "" 0)
  /\ exists u',
       users (repo (snd (run sample_Sprintf sample_TrimSpace sample_ops
                            (sample_world sample_store)))) !! 7%Z = Some u'
       /\ Username u' = "reader" /\ FirstName u' = "Ann" /\ CreatedAt u' = 10%Z.
Proof.
  assert (users (repo (sample_world sample_store)) !! 7%Z
          = Some (sample_user "" 0)) as Hu by (vm_compute; reflexivity).
  split; [exact Hu|].
  destruct (X3_identity_fields_never_change sample_Sprintf sample_TrimSpace
              sample_ops _ 7 _ Hu)
    as (u' & Hu' & _ & _ & Hn & Hf & _ & Hc & _).
  exists u'. repeat split; assumption.
Defined.

Lemma X4_sample_run_instance :
  users (repo (sample_world {[ 7%Z := sample_reader ]})) !! 7%Z
  = Some sample_reader
  /\ HasKindleEmail sample_reader = true
  /\ exists u',
       users (repo (snd (run sample_Sprintf sample_TrimSpace sample_ops
                            (sample_world {[ 7%Z := sample_reader ]}))))
         !! 7%Z = Some u'
       /\ HasKindleEmail u' = true.
Proof.
  assert (users (repo (sample_world {[ 7%Z := sample_reader ]})) !! 7%Z
          = Some sample_reader) as Hu by (vm_compute; reflexivity).
  split; [exact Hu|]. split; [reflexivity|].
  exact (X4_endpoint_once_set_stays_set sample_Sprintf sample_TrimSpace
           sample_ops _ 7 sample_reader Hu eq_refl).
Defined.

Lemma X6_unknown_identity_instance :
  users (repo (sample_world sample_store)) !! 8%Z = None
  /\ RecordBookSent 8 (sample_world sample_store)
     = (Some ErrUserNotFound, sample_world sample_store)
  /\ SetKindleEmail 8 "name@gmail.com" (sample_world sample_store)
     = (Some ErrInvalidEmail, sample_world sample_store).
Proof.
  assert (users (repo (sample_world sample_store)) !! 8%Z = None) as Hnone
      by (vm_compute; reflexivity).
  split; [exact Hnone|].
  destruct (X6_unknown_identity_is_NotFound (sample_world sample_store) 8
              (mkPreferences "" "" "") "ru" "name@gmail.com" Hnone)
    as (_ & _ & _ & _ & Hrec & _ & Hset).
  split; [exact Hrec | exact Hset].
Defined.

Lemma X7_increment_instance :
  users (repo (sample_world sample_store)) !! 7%Z = Some (sample_user "" 0)
  /\ (int_min <= BooksSent (sample_user "" 0) < int_max)%Z
  /\ users (repo (snd (IncrementBooksSent 7 (sample_world sample_store)))) !! 7%Z
     = Some (set_UpdatedAt (sample_clock 0) (set_BooksSent 1 (sample_user "" 0))).
Proof.
  assert (users (repo (sample_world sample_store)) !! 7%Z
          = Some (sample_user "" 0)) as Hu by (vm_compute; reflexivity).
  assert (int_min <= BooksSent (sample_user "" 0) < int_max)%Z as Hr
      by (split; vm_compute; [discriminate | reflexivity]).
  split; [exact Hu|]. split; [exact Hr|].
  exact (proj1 (proj2 (X7_IncrementBooksSent_frame _ 7 _ Hu Hr))).
Defined.

Lemma X10_new_profile_instance :
  users (repo (sample_world ∅)) !! 7%Z = None
  /\ exists (u : User) (w' : World MemoryRepository),
       GetOrCreateUser 7 "reader" "Ann" "Lee" "ru-RU" (sample_world ∅) = (Ok u, w')
       /\ IsValidLanguage u = true /\ BooksSent u = 0%Z
       /\ UpdatedAt u = sample_clock 3.
Proof.
  assert (users (repo (sample_world ∅)) !! 7%Z = None) as Hnone
      by (vm_compute; reflexivity).
  split; [exact Hnone|].
  destruct (X10_GetOrCreateUser_new_profile (sample_world ∅) 7 "reader" "Ann"
              "Lee" "ru-RU" Hnone)
    as (u & w' & Hrun & _ & _ & _ & _ & _ & _ & _ & Hb & _ & _ & Hl & _ & _ & _ & Hu).
  exists u, w'. repeat split; assumption.
Defined.

Lemma X11_existing_profile_instance :
  users (repo (sample_world sample_store)) !! 7%Z = Some (sample_user "" 0)
  /\ GetOrCreateUser 7 "other" "Bo" "Li" "ru" (sample_world sample_store)
     = GetOrCreateUser 7 "reader" "Ann" "Lee" "en" (sample_world sample_store).
Proof.
  assert (users (repo (sample_world sample_store)) !! 7%Z
          = Some (sample_user "" 0)) as Hu by (vm_compute; reflexivity).
  split; [exact Hu|].
  destruct (X11_GetOrCreateUser_existing_ignores_names _ 7 _ "reader" "Ann"
              "Lee" "en" Hu) as (_ & _ & _ & Hsame).
  apply Hsame.
Defined.

Lemma X12_accepted_endpoint_instance :
  users (repo (sample_world sample_store)) !! 7%Z = Some (sample_user "" 0)
  /\ ValidateKindleEmail "name@kindle.com" = None
  /\ fst (SetKindleEmail 7 "name@kindle.com" (sample_world sample_store)) = None.
Proof.
  assert (users (repo (sample_world sample_store)) !! 7%Z
          = Some (sample_user "" 0)) as Hu by (vm_compute; reflexivity).
  split; [exact Hu|]. split; [reflexivity|].
  exact (proj1 (X12_SetKindleEmail_accepted _ 7 _ "name@kindle.com" Hu eq_refl)).
Defined.

Lemma X13_unsupported_language_instance :
  users (repo (sample_world sample_store)) !! 7%Z = Some (sample_user "" 0)
  /\ exists u',
       users (repo (snd (SetLanguage 7 "xx" (sample_world sample_store)))) !! 7%Z
       = Some u'
       /\ Language u' = "xx" /\ IsValidLanguage u' = false.
Proof.
  assert (users (repo (sample_world sample_store)) !! 7%Z
          = Some (sample_user "" 0)) as Hu by (vm_compute; reflexivity).
  split; [exact Hu|].
  destruct (X13_SetLanguage_stores_verbatim _ 7 _ "xx" Hu)
    as (_ & u' & Hu' & Hl & Hv & _).
  exists u'. split; [exact Hu'|]. split; [exact Hl|].
  apply Hv. discriminate.
Defined.

Lemma X14_failing_repository_instance :
  GetOrCreateUser 0 "reader" "Ann" "Lee" "en" sample_failing_world
  = (Err down, sample_failing_world)
  /\ fst (GetOrCreateUser 7 "reader" "Ann" "Lee" "en" sample_failing_world)
     = Ok (set_LastActive (sample_clock 0) (sample_user "" 0)).
Proof.
  destruct (X14_GetOrCreateUser_over_any_repository sample_failing_world
              sample_failing_world 0 "reader" "Ann" "Lee" "en") as (Herr & _).
  destruct (X14_GetOrCreateUser_over_any_repository sample_failing_world
              sample_failing_world 7 "reader" "Ann" "Lee" "en") as (_ & Hok).
  split.
  - apply Herr; [reflexivity | discriminate].
  - apply (Hok (sample_user "" 0)). reflexivity.
Defined.

Lemma X17_missing_table_instance :
  lookup_translation sample_i18n "ru" "welcome" = None
  /\ T sample_Sprintf sample_i18n "ru" "welcome" [ArgString "Ann"]
     = T sample_Sprintf sample_i18n "en" "welcome" [ArgString "Ann"].
Proof.
  assert (lookup_translation sample_i18n "ru" "welcome" = None) as Hmiss
      by (vm_compute; reflexivity).
  split; [exact Hmiss|].
  exact (X17_T_unknown_language_is_default sample_Sprintf sample_i18n "ru"
           "welcome" [ArgString "Ann"] Hmiss).
Defined.

Lemma X19_help_instance :
  (tgbotapi.Command (sample_message "/help" (Some ("help", ""))) <> "kindle"
   \/ tgbotapi.CommandArguments (sample_message "/help" (Some ("help", ""))) = ""
   \/ ValidateKindleEmail
        (sample_TrimSpace
           (tgbotapi.CommandArguments (sample_message "/help" (Some ("help", "")))))
      <> None)
  /\ repo (snd (handleCommand sample_Sprintf sample_TrimSpace sample_handler
                  (sample_message "/help" (Some ("help", "")))
                  (sample_user "" 0) (sample_world sample_store)))
     = repo (sample_world sample_store).
Proof.
  assert (tgbotapi.Command (sample_message "/help" (Some ("help", ""))) <> "kindle"
          \/ tgbotapi.CommandArguments (sample_message "/help" (Some ("help", "")))
             = ""
          \/ ValidateKindleEmail
               (sample_TrimSpace
                  (tgbotapi.CommandArguments
                     (sample_message "/help" (Some ("help", "")))))
             <> None) as Hcase by (left; discriminate).
  split; [exact Hcase|].
  exact (proj1 (X19_commands_leave_store_alone sample_Sprintf sample_TrimSpace
                  sample_handler _ (sample_user "" 0)
                  (sample_world sample_store) Hcase)).
Defined.

Lemma X20_start_instance :
  api_accepts (sample_world sample_store)
  /\ outbox (snd (handleStart sample_Sprintf sample_handler
                    (sample_message "/start" (Some ("start", "")))
                    sample_reader (sample_world sample_store)))
     = [tgbotapi.NewMessage 7 "Welcome, Ann!";
        tgbotapi.NewMessage 7 "search_prompt"].
Proof.
  assert (api_accepts (sample_world sample_store)) as Hacc
      by (intros n; reflexivity).
  split; [exact Hacc|].
  rewrite (X20_handleStart_replies sample_Sprintf sample_handler
             (sample_message "/start" (Some ("start", ""))) sample_reader
             (sample_world sample_store) Hacc).
  vm_compute. reflexivity.
Defined.

Lemma X21_search_instance :
  HasKindleEmail sample_reader = true
  /\ api_accepts (sample_world sample_store)
  /\ List.length
       (outbox (snd (handleSearchQuery sample_Sprintf sample_TrimSpace
                       sample_handler (sample_message " x@kindle.com " None)
                       sample_reader (sample_world sample_store)))) = 2%nat.
Proof.
  assert (api_accepts (sample_world sample_store)) as Hacc
      by (intros n; reflexivity).
  split; [reflexivity|]. split; [exact Hacc|].
  rewrite (X21_free_text_with_endpoint sample_Sprintf sample_TrimSpace
             sample_handler (sample_message " x@kindle.com " None) sample_reader
             (sample_world sample_store) eq_refl Hacc).
  reflexivity.
Defined.

Lemma X22_rejected_confirmation_instance :
  tgbotapi.CommandArguments
    (sample_message "/kindle name@kindle.com" (Some ("kindle", "name@kindle.com")))
  <> ""
  /\ users (repo sample_rejecting_world) !! 7%Z = Some (sample_user "" 0)
  /\ api sample_rejecting_world (calls sample_rejecting_world) = Some down
  /\ fst (handleKindle sample_Sprintf sample_TrimSpace sample_handler
            (sample_message "/kindle name@kindle.com"
                            (Some ("kindle", "name@kindle.com")))
            (sample_user "" 0) sample_rejecting_world) = Some down.
Proof.
  assert (tgbotapi.CommandArguments
            (sample_message "/kindle name@kindle.com"
                            (Some ("kindle", "name@kindle.com"))) <> "") as Harg
      by discriminate.
  assert (users (repo sample_rejecting_world) !! TelegramID (sample_user "" 0)
          = Some (sample_user "" 0)) as Hu by (vm_compute; reflexivity).
  split; [exact Harg|]. split; [exact Hu|]. split; [reflexivity|].
  exact (proj1 (X22_rejected_confirmation_keeps_endpoint sample_Sprintf
                  sample_TrimSpace sample_handler _ (sample_user "" 0)
                  (sample_user "" 0) sample_rejecting_world down Harg eq_refl
                  Hu eq_refl)).
Defined.


Lemma X24_new_sender_instance :
  users (repo (sample_world ∅)) !! tgbotapi.ID
    (tgbotapi.From (sample_message "hello" None)) = None
  /\ exists u',
       users (repo (snd (handleMessage sample_Sprintf sample_TrimSpace
                           sample_handler (sample_message "hello" None)
                           (sample_world ∅)))) !! 7%Z = Some u'
       /\ Username u' = "Ann" /\ FirstName u' = "Lee" /\ LastName u' = "reader".
Proof.
  assert (users (repo (sample_world ∅)) !! tgbotapi.ID
            (tgbotapi.From (sample_message "hello" None)) = None) as Hnone
      by (vm_compute; reflexivity).
  split; [exact Hnone|].
  destruct (X24_handleMessage_new_profile_names sample_Sprintf sample_TrimSpace
              sample_handler (sample_message "hello" None) (sample_world ∅) Hnone)
    as (u' & Hu' & Hn & Hf & Hl & _).
  exists u'. repeat split; assumption.
Defined.

Lemma X25_sample_book_instance :
  (- 2 ^ 63 <= Book.Size sample_book < 2 ^ 63)%Z
  /\ exists n div exp,
       Book.FormatSize_scale sample_book = Some (n, div, exp)
       /\ (0 <= exp <= 5)%Z /\ div = (1024 ^ (exp + 1))%Z.
Proof.
  assert (- 2 ^ 63 <= Book.Size sample_book < 2 ^ 63)%Z as Hr
      by (split; vm_compute; [discriminate | reflexivity]).
  split; [exact Hr|].
  pose proof (X25_FormatSize_unit_in_range sample_book Hr) as H.
  change (Book.Size sample_book <? 1024)%Z with false in H. cbn iota in H.
  destruct H as (n & div & exp & Hrun & Hexp & _ & Hdiv & _).
  exists n, div, exp. repeat split; assumption || apply Hexp.
Defined.

Lemma X26_default_configuration_instance :
  Load sample_dotenv sample_env = Ok sample_config
  /\ TelegramBotToken sample_config <> ""
  /\ DBType sample_config = "memory"
  /\ Port sample_config <> "".
Proof.
  assert (Load sample_dotenv sample_env = Ok sample_config) as Hload
      by (vm_compute; reflexivity).
  split; [exact Hload|].
  destruct (X26_Load_result_is_complete sample_dotenv sample_env sample_config
              Hload)
    as (Htok & _ & _ & _ & _ & _ & _ & _ & _ & Hport).
  split; [exact Htok|]. split; [reflexivity | exact Hport].
Defined.

Lemma X27_empty_webhook_instance :
  sample_env !! "WEBHOOK_URL" = Some ""
  /\ os_Getenv sample_dotenv "WEBHOOK_URL" = ""
  /\ Load sample_dotenv (delete "WEBHOOK_URL" sample_env)
     = Load sample_dotenv sample_env.
Proof.
  assert (sample_env !! "WEBHOOK_URL" = Some "") as Hempty
      by (vm_compute; reflexivity).
  assert (os_Getenv sample_dotenv "WEBHOOK_URL" = "") as Hfile
      by (vm_compute; reflexivity).
  split; [exact Hempty|]. split; [exact Hfile|].
  exact (X27_Load_empty_value_is_unset sample_dotenv sample_env "WEBHOOK_URL"
           Hempty Hfile).
Defined.

Lemma X28_book_selection_instance :
  users (repo (sample_world {[ 7%Z := sample_reader ]})) !! 7%Z
  = Some sample_reader
  /\ exists u',
       users (repo (snd (HandleUpdate sample_Sprintf sample_TrimSpace
                           sample_handler
                           (tgbotapi.mkUpdate
                              (Some (tgbotapi.mkCallbackQuery "q2" sample_sender
                                       (sample_message "" None) "book_42"))
                              None)
                           (sample_world {[ 7%Z := sample_reader ]}))))
         !! 7%Z = Some u'
       /\ BooksSent u' = 2%Z.
Proof.
  assert (users (repo (sample_world {[ 7%Z := sample_reader ]})) !! 7%Z
          = Some sample_reader) as Hu by (vm_compute; reflexivity).
  split; [exact Hu|].
  exact (X28_router_never_counts_a_delivery sample_Sprintf sample_TrimSpace
           sample_handler _ _ 7 sample_reader Hu).
Defined.

